(** * GeoClaw xarray backends: a shallow embedding of
      [src/python/geoclaw/xarray_backends.py]

    The module reads fixed-grid output (fgout) frames and fgmax accumulation
    grids written by the solver and relabels them as datasets.  The embedding
    follows the Python source statement by statement:

    - numpy arrays are a shape together with their C-ordered buffer;
    - exceptions are values of [exn], computations that can raise live in
      [result], and computations that also call into [fgout_tools] or
      [fgmax_tools] live in [M], which records those calls in order;
    - the in-place write [Q[mask] = nodata] is a write into the buffer of
      [fgout.q], which the later rounds of the loop read, and the write of
      [_prepare_var] into [fg.h.data] is there when the elevation is summed.

    Floating point numbers are kept abstract: the development is parametric
    in a type with the four operations the module uses ([Float]).  File names
    are ASCII strings. *)

From Stdlib Require Import String Ascii ZArith Arith Bool Lia List.
Import ListNotations.
Open Scope string_scope.
Open Scope list_scope.
Open Scope nat_scope.

Set Implicit Arguments.

(** ** Exceptions and the two monads *)

Inductive exn : Type :=
| ValueError (msg : string)
| IndexError (msg : string)
| KeyError (key : string)
| AttributeError (msg : string)
| ExternalError (msg : string).

Inductive result (A : Type) : Type :=
| Ok (a : A)
| Err (e : exn).
Arguments Ok {A} a.
Arguments Err {A} e.

Definition rbind {A B} (c : result A) (k : A -> result B) : result B :=
  match c with
  | Ok a => k a
  | Err e => Err e
  end.

Notation "x <- c ;; k" := (rbind c (fun x => k))
  (at level 61, c at next level, right associativity).
Notation "' p <- c ;; k" := (rbind c (fun x => match x with p => k end))
  (at level 61, p pattern, c at next level, right associativity).

(** Calls into the solver's Python tools, in the order they are made. *)
Inductive output_format : Type := ascii_format | binary32.

Inductive event : Type :=
| EvFGoutGrid (fgno : Z) (outdir : string) (fmt : output_format)
| EvReadFgoutGridsData
| EvReadFrame (frameno : Z)
| EvReadFgmaxGridsData (fgno : Z)
| EvReadOutput
| EvWriteCrs (epsg : Z)
| EvSetSpatialDims
| EvWriteCoordinateSystem.

Definition M (A : Type) : Type := (list event * result A)%type.

Definition mret {A} (a : A) : M A := ([], Ok a).
Definition mbind {A B} (c : M A) (k : A -> M B) : M B :=
  match c with
  | (tr, Ok a) => let (tr', r) := k a in (tr ++ tr', r)
  | (tr, Err e) => (tr, Err e)
  end.
Definition lift {A} (r : result A) : M A := ([], r).
Definition call {A} (ev : event) (r : result A) : M A := ([ev], r).
Definition raise {A} (e : exn) : M A := ([], Err e).

Notation "x <~ c ;; k" := (mbind c (fun x => k))
  (at level 61, c at next level, right associativity).
Notation "' p <~ c ;; k" := (mbind c (fun x => match x with p => k end))
  (at level 61, p pattern, c at next level, right associativity).

(** ** numpy arrays

    A 2-D array is its shape [(rows2, cols2)] and its buffer in C order, so
    element [(i, j)] sits at offset [i * cols2 + j].  [fgout.q] is 3-D with
    the channel as leading axis. *)

Record array2 (A : Type) : Type :=
  Array2 { rows2 : nat; cols2 : nat; buf2 : list A }.

Record array3 (A : Type) : Type :=
  Array3 { chans3 : nat; rows3 : nat; cols3 : nat; buf3 : list A }.

(** What the dataset holds: any rank. *)
Record ndarray (A : Type) : Type :=
  NdArray { shape : list nat; nd_buf : list A }.

Section Arrays.
Context {A : Type}.

Definition wf2 (a : array2 A) : Prop :=
  length (buf2 a) = rows2 a * cols2 a.

Definition wf3 (q : array3 A) : Prop :=
  length (buf3 q) = chans3 q * (rows3 q * cols3 q).

Definition get2 (a : array2 A) (i j : nat) : option A :=
  if (i <? rows2 a) && (j <? cols2 a)
  then nth_error (buf2 a) (i * cols2 a + j)
  else None.

Definition get3 (q : array3 A) (k i j : nat) : option A :=
  if (k <? chans3 q) && (i <? rows3 q) && (j <? cols3 q)
  then nth_error (buf3 q) (k * (rows3 q * cols3 q) + (i * cols3 q + j))
  else None.

Definition option_list (o : option A) : list A :=
  match o with Some v => [v] | None => [] end.

(** The buffer whose element [(i, j)] is [f i j]. *)
Definition tabulate2 (r c : nat) (f : nat -> nat -> option A) : list A :=
  flat_map (fun i => flat_map (fun j => option_list (f i j)) (seq 0 c))
           (seq 0 r).

(** [q[i, :, :]]: the buffer of channel [i]. *)
Definition chan_buf (q : array3 A) (i : nat) : list A :=
  firstn (rows3 q * cols3 q) (skipn (i * (rows3 q * cols3 q)) (buf3 q)).

Definition slice3 (q : array3 A) (i : nat) : result (array2 A) :=
  if i <? chans3 q
  then Ok (Array2 (rows3 q) (cols3 q) (chan_buf q i))
  else Err (IndexError "index out of bounds for axis 0").

(** The write through the view [q[i, :, :]] back into [q]. *)
Definition store3 (q : array3 A) (i : nat) (b : list A) : array3 A :=
  let n := rows3 q * cols3 q in
  Array3 (chans3 q) (rows3 q) (cols3 q)
         (firstn (i * n) (buf3 q) ++ b ++ skipn (i * n + n) (buf3 q)).

(** [data[mask] = fill] for a mask without an empty axis: the mask must
    have the shape of the data.  (numpy does not compare an axis of the
    mask that has length 0; a mask with such an axis is not in the domain
    of this definition unless it has the shape of the data.  The masks the
    two readers index with have no other shape than that of the data:
    [fgout.q[0, :, :] < 0.001] has the shape of a channel, and a masked
    array's mask the shape of its data.) *)
Definition setitem_mask (data : array2 A) (mask : array2 bool) (fill : A)
  : result (array2 A) :=
  if (rows2 mask =? rows2 data) && (cols2 mask =? cols2 data)
  then Ok (Array2 (rows2 data) (cols2 data)
             (map (fun mv : bool * A => if fst mv then fill else snd mv)
                  (combine (buf2 mask) (buf2 data))))
  else Err (IndexError "boolean index did not match indexed array").

(** [a.T] *)
Definition transpose (a : array2 A) : array2 A :=
  Array2 (cols2 a) (rows2 a)
         (tabulate2 (cols2 a) (rows2 a)
            (fun i j => nth_error (buf2 a) (j * cols2 a + i))).

(** [np.flipud(a)], that is [a[::-1, :]] *)
Definition flipud (a : array2 A) : array2 A :=
  Array2 (rows2 a) (cols2 a)
         (tabulate2 (rows2 a) (cols2 a)
            (fun i j => nth_error (buf2 a) ((rows2 a - 1 - i) * cols2 a + j))).

(** [np.flipud] of a 1-D array *)
Definition flipud1 (v : list A) : list A := rev v.

(** [a.reshape((d0, d1, d2))] *)
Definition reshape3 (a : array2 A) (d0 d1 d2 : nat) : result (ndarray A) :=
  if rows2 a * cols2 a =? d0 * (d1 * d2)
  then Ok (NdArray [d0; d1; d2] (buf2 a))
  else Err (ValueError "cannot reshape array").

Definition as_ndarray (a : array2 A) : ndarray A :=
  NdArray [rows2 a; cols2 a] (buf2 a).

(** Element [(i, j)] of a dataset variable with dimensions [(y, x)], or
    element [(0, i, j)] of one with dimensions [(time, y, x)]. *)
Definition nd_get (d : ndarray A) (i j : nat) : option A :=
  let cell r c :=
    if (i <? r) && (j <? c) then nth_error (nd_buf d) (i * c + j) else None in
  match shape d with
  | [r; c] => cell r c
  | [t; r; c] => if t =? 1 then cell r c else None
  | _ => None
  end.
End Arrays.

(** ** Python built-ins used by the module *)

(** [s.split(sep)] for a one-character separator: never the empty list. *)
Fixpoint split_on (sep : ascii) (s : string) : list string :=
  match s with
  | EmptyString => [EmptyString]
  | String c rest =>
      if Ascii.eqb c sep then EmptyString :: split_on sep rest
      else match split_on sep rest with
           | p :: ps => String c p :: ps
           | [] => [String c EmptyString]
           end
  end.

(** [l[0]] and [l[-1]] *)
Definition getitem_first {A} (l : list A) : result A :=
  match l with
  | a :: _ => Ok a
  | [] => Err (IndexError "list index out of range")
  end.

Definition getitem_last {A} (l : list A) : result A :=
  match rev l with
  | a :: _ => Ok a
  | [] => Err (IndexError "list index out of range")
  end.

(** [l[i]] for [i >= 0] *)
Definition getitem {A} (l : list A) (i : nat) : result A :=
  match nth_error l i with
  | Some a => Ok a
  | None => Err (IndexError "list index out of range")
  end.

(** [s[0]] *)
Definition str_first (s : string) : result ascii :=
  match s with
  | String c _ => Ok c
  | EmptyString => Err (IndexError "string index out of range")
  end.

Fixpoint str_drop (n : nat) (s : string) : string :=
  match n, s with
  | S n', String _ rest => str_drop n' rest
  | _, _ => s
  end.

(** [s[-n:]] for [n > 0] *)
Definition str_suffix (n : nat) (s : string) : string :=
  str_drop (String.length s - n) s.

(** [int(s)]: surrounding white space, an optional sign, then decimal digits
    that single underscores may separate. *)
Definition is_space (c : ascii) : bool :=
  let n := nat_of_ascii c in
  ((9 <=? n) && (n <=? 13)) || ((28 <=? n) && (n <=? 32)).

Definition digit_val (c : ascii) : option Z :=
  let n := nat_of_ascii c in
  if (48 <=? n) && (n <=? 57) then Some (Z.of_nat (n - 48)) else None.

Fixpoint lstrip (s : string) : string :=
  match s with
  | String c rest => if is_space c then lstrip rest else s
  | EmptyString => s
  end.

Fixpoint rstrip (s : string) : string :=
  match s with
  | String c rest =>
      match rstrip rest with
      | EmptyString => if is_space c then EmptyString else String c EmptyString
      | r => String c r
      end
  | EmptyString => EmptyString
  end.

Fixpoint parse_digits (s : string) (acc : Z) (after_digit : bool) : option Z :=
  match s with
  | EmptyString => if after_digit then Some acc else None
  | String c rest =>
      match digit_val c with
      | Some d => parse_digits rest (10 * acc + d)%Z true
      | None =>
          if Ascii.eqb c "_" && after_digit
          then parse_digits rest acc false
          else None
      end
  end.

Definition int (s : string) : result Z :=
  let bad := Err (ValueError "invalid literal for int() with base 10") in
  match rstrip (lstrip s) with
  | String "-" rest =>
      match parse_digits rest 0 false with
      | Some n => Ok (- n)%Z
      | None => bad
      end
  | String "+" rest =>
      match parse_digits rest 0 false with Some n => Ok n | None => bad end
  | body =>
      match parse_digits body 0 false with Some n => Ok n | None => bad end
  end.

(** [for i in range(n)] over a state, stopping at the first exception. *)
Fixpoint for_each {S : Type} (l : list nat) (body : nat -> S -> result S)
         (s : S) : result S :=
  match l with
  | [] => Ok s
  | i :: l' => s' <- body i s ;; for_each l' body s'
  end.

Definition range (n : nat) : list nat := seq 0 n.

(** [name in names] for a list of strings *)
Definition str_in (name : string) (names : list string) : bool :=
  existsb (String.eqb name) names.

(** A [dict] with string keys: insertion ordered, keys unique. *)
Definition dict (B : Type) : Type := list (string * B).

Fixpoint dict_get {B} (k : string) (d : dict B) : option B :=
  match d with
  | [] => None
  | (k', v) :: d' => if String.eqb k k' then Some v else dict_get k d'
  end.

Fixpoint dict_set {B} (d : dict B) (k : string) (v : B) : dict B :=
  match d with
  | [] => [(k, v)]
  | (k', v') :: d' =>
      if String.eqb k k' then (k, v) :: d' else (k', v') :: dict_set d' k v
  end.

Definition dict_mem {B} (k : string) (d : dict B) : bool :=
  match dict_get k d with Some _ => true | None => false end.

Fixpoint dict_del {B} (d : dict B) (k : string) : dict B :=
  match d with
  | [] => []
  | (k', v') :: d' =>
      if String.eqb k k' then d' else (k', v') :: dict_del d' k
  end.

Definition getitem_key {B} (d : dict B) (k : string) : result B :=
  match dict_get k d with
  | Some v => Ok v
  | None => Err (KeyError k)
  end.

Definition keys {B} (d : dict B) : list string := map fst d.

(** ** [os.path] (POSIX) *)

(** [(p[:i], p[i:])] for [i = p.rfind("/") + 1] *)
Fixpoint path_split_at_slash (p : string) : string * string :=
  match p with
  | EmptyString => (EmptyString, EmptyString)
  | String c rest =>
      let (h, t) := path_split_at_slash rest in
      match h with
      | String _ _ => (String c h, t)
      | EmptyString =>
          if Ascii.eqb c "/" then (String c EmptyString, t)
          else (EmptyString, String c t)
      end
  end.

Definition basename (p : string) : string := snd (path_split_at_slash p).

Fixpoint all_slashes (s : string) : bool :=
  match s with
  | EmptyString => true
  | String c rest => Ascii.eqb c "/" && all_slashes rest
  end.

Fixpoint rstrip_slashes (s : string) : string :=
  match s with
  | String c rest =>
      match rstrip_slashes rest with
      | EmptyString =>
          if Ascii.eqb c "/" then EmptyString else String c EmptyString
      | r => String c r
      end
  | EmptyString => EmptyString
  end.

Definition dirname (p : string) : string :=
  let head := fst (path_split_at_slash p) in
  match head with
  | EmptyString => head
  | _ => if all_slashes head then head else rstrip_slashes head
  end.

(** ** Floating point values

    The module does four things with a float: it holds [np.nan] as the fill
    value, compares a depth with the dry tolerance ([x < 0.001]), adds two
    fields, and the coordinate vectors are ordered by [<]. *)

Class Float (F : Type) : Type := {
  nan : F;
  lt_tol : F -> bool;
  fadd : F -> F -> F;
  flt : F -> F -> bool
}.

(** ** The dataset handed to xarray *)

Inductive attr (F : Type) : Type :=
| AStr (s : string)
| ANum (v : F).
Arguments AStr {F} s.

Record variable (F : Type) : Type := Variable_ {
  v_dims : list string;
  v_data : ndarray F;
  v_attrs : dict (attr F)
}.

Record coord (F : Type) : Type := Coord {
  c_dims : list string;
  c_values : list F;
  c_attrs : dict string
}.

Record Dataset (F : Type) : Type := Dataset_ {
  data_vars : dict (variable F);
  coord_x : coord F;
  coord_y : coord F;
  coord_time : option (coord F);
  coord_reference_time : option string;
  attrs : dict string;
  crs : option Z
}.

(** ** What [fgout_tools] and [fgmax_tools] hand back *)

(** [fgout_grid.read_frame(frameno)] *)
Record FGoutFrame (F : Type) : Type := FGoutFrame_ {
  fgout_t : F;
  fgout_x : list F;
  fgout_y : list F;
  fgout_q : array3 F
}.

(** A numpy masked array: [.data] and [.mask] *)
Record masked (F : Type) : Type := Masked {
  ma_data : array2 F;
  ma_mask : array2 bool
}.

(** An [FGmaxGrid] after [read_output]: the coordinate vectors and the fields
    that are set, by attribute name ([arrival_time], [h], [B], [h_time], [s],
    [s_time], [hs], [hs_time], [hss], [hss_time], [hmin], [hmin_time]). *)
Record FGmaxGrid (F : Type) : Type := FGmaxGrid_ {
  fg_x : list F;
  fg_y : list F;
  fg_fields : dict (masked F)
}.

(** The solver's tools and the process environment. *)
Record world (F : Type) : Type := World {
  abspath : string -> string;
  (* [fgout_tools.FGoutGrid(fgno, outdir, output_format)]: the
     [point_style] of the object as constructed *)
  FGoutGrid : Z -> string -> output_format -> result Z;
  (* [fgout_grid.read_fgout_grids_data()], which updates the object from
     the grid's description: the [point_style] it has afterwards *)
  read_fgout_grids_data : Z -> string -> output_format -> result Z;
  read_frame : Z -> string -> output_format -> Z -> result (FGoutFrame F);
  (* [fg.read_fgmax_grids_data(fgno=fgno)], then [fg.point_style] *)
  read_fgmax_grids_data : Z -> result Z;
  read_output : Z -> result (FGmaxGrid F);
  (* [ds.rio.write_crs(epsg, inplace=True)] *)
  write_crs : Z -> result unit;
  (* [.rio.set_spatial_dims(x_dim="x", y_dim="y", inplace=True)] *)
  set_spatial_dims : result unit;
  (* [.rio.write_coordinate_system(inplace=True)]: the attributes it leaves
     on the x and on the y coordinate, from the code and those they had *)
  write_coordinate_system :
    Z -> dict string -> dict string -> result (dict string * dict string)
}.

(** ** Module constants (lines 103-120) *)

Definition _qelements_dclaw : list string :=
  ["h"; "hu"; "hv"; "hm"; "pb"; "hchi"; "delta_a"; "eta"].
Definition _qelements_geoclaw : list string := ["h"; "hu"; "hv"; "eta"].

Definition _qunits : dict string :=
  [("h", "meters");
   ("hu", "meters squared per second");
   ("hv", "meters squared per second");
   ("hm", "meters");
   ("pb", "newton per meter squared");
   ("hchi", "meters");
   ("delta_a", "meters");
   ("eta", "meters")].

Definition time_unit : string := "seconds".
Definition reference_time : string := "model start".
Definition space_unit : string := "meters".

Section Backends.
Context {F : Type} `{Float F}.

Definition nodata : F := nan.

(** [a < 0.001], elementwise: a fresh boolean array *)
Definition lt_scalar (a : array2 F) : array2 bool :=
  Array2 (rows2 a) (cols2 a) (map lt_tol (buf2 a)).

(** [a + b] with numpy broadcasting of axes of length one *)
Definition add2 (a b : array2 F) : result (array2 F) :=
  let ok m n := (m =? n) || (m =? 1) || (n =? 1) in
  let out m n := if m =? 1 then n else m in
  let ix m i := if m =? 1 then 0 else i in
  if ok (rows2 a) (rows2 b) && ok (cols2 a) (cols2 b)
  then
    let r := out (rows2 a) (rows2 b) in
    let c := out (cols2 a) (cols2 b) in
    Ok (Array2 r c
          (tabulate2 r c (fun i j =>
             match
               nth_error (buf2 a) (ix (rows2 a) i * cols2 a + ix (cols2 a) j),
               nth_error (buf2 b) (ix (rows2 b) i * cols2 b + ix (cols2 b) j)
             with
             | Some u, Some v => Some (fadd u v)
             | _, _ => None
             end)))
  else Err (ValueError "operands could not be broadcast together").

(** *** [_prepare_var] (lines 123-133)

    The first component of the result is the caller's [data] buffer after
    the call: [data[mask] = nodata] writes into it. *)
Definition _prepare_var (data : array2 F) (mask : array2 bool)
           (dims : list string) (units : string) (nodata : F)
           (long_name : string) : result (array2 F * variable F) :=
  data0 <- setitem_mask data mask nodata ;;
  let data := transpose data0 in
  let data := flipud data in
  let mapping :=
    Variable_ dims (as_ndarray data)
      [("units", AStr units); ("_FillValue", ANum nodata);
       ("long_name", AStr long_name)] in
  Ok (data0, mapping).

(** The chain [ds.rio.write_crs(...).rio.set_spatial_dims(...)
    .rio.write_coordinate_system(...)] when an EPSG code is given (lines
    234-242 and 448-457): three calls on the dataset, in place.  The
    dataset comes back tagged with the code and with the attributes the
    last call leaves on its x and y coordinates. *)
Definition tag_crs (w : world F) (epsg : option Z) (ds : Dataset F)
  : M (Dataset F) :=
  match epsg with
  | None => mret ds
  | Some code =>
      _ <~ call (EvWriteCrs code) (write_crs w code) ;;
      _ <~ call EvSetSpatialDims (set_spatial_dims w) ;;
      ' (x_attrs, y_attrs) <~
        call EvWriteCoordinateSystem
             (write_coordinate_system w code (c_attrs (coord_x ds))
                                      (c_attrs (coord_y ds))) ;;
      mret (Dataset_ (data_vars ds)
              (Coord (c_dims (coord_x ds)) (c_values (coord_x ds)) x_attrs)
              (Coord (c_dims (coord_y ds)) (c_values (coord_y ds)) y_attrs)
              (coord_time ds) (coord_reference_time ds) (attrs ds)
              (Some code))
  end.

Definition default_drop (drop_variables : option (list string)) : list string :=
  match drop_variables with
  | None => []
  | Some l => l
  end.
End Backends.

(** ** [class FGOutBackend] (lines 136-251) *)

Module FGOutBackend.
Section WithFloat.
Context {F : Type} `{Float F}.

(** Lines 157-165: the type code, the grid number and the frame number are
    read off the base name, in this order, and the type code is judged
    last. *)
Definition parse_filename (filename : string)
  : result (Z * Z * output_format) :=
  ext <- getitem_last (split_on "." filename) ;;
  type_code <- str_first ext ;;
  stem <- getitem_first (split_on "." filename) ;;
  fgno <- int (str_suffix 4 stem) ;;
  ext <- getitem_last (split_on "." filename) ;;
  frameno <- int (str_suffix 4 ext) ;;
  if Ascii.eqb type_code "q" then Ok (fgno, frameno, ascii_format)
  else if Ascii.eqb type_code "b" then Ok (fgno, frameno, binary32)
  else Err (ValueError "Invalid FGout output format. Must be ascii or binary.").

(** Lines 195-219: the body of [for i in range(nvars)].  The state is the
    buffer of [fgout.q], which [Q[mask] = nodata] writes through the view
    [Q], and the [data_vars] dictionary. *)
Definition channel (mask : array2 bool) (_qelements : list string)
           (ni nj : nat) (drop_variables : list string) (i : nat)
           (st : array3 F * dict (variable F))
  : result (array3 F * dict (variable F)) :=
  let (q, data_vars) := st in
  Q <- slice3 q i ;;
  ' (q, Q) <- (if i <? 7
               then Q' <- setitem_mask Q mask nodata ;;
                    Ok (store3 q i (buf2 Q'), Q')
               else Ok (q, Q)) ;;
  let Q := transpose Q in
  let Q := flipud Q in
  Q <- reshape3 Q 1 ni nj ;;
  varname <- getitem _qelements i ;;
  units <- getitem_key _qunits varname ;;
  let data_array_attrs := [("units", AStr units); ("_FillValue", ANum nodata)] in
  if negb (str_in varname drop_variables)
  then Ok (q, dict_set data_vars varname
                (Variable_ ["time"; "y"; "x"] Q data_array_attrs))
  else Ok (q, data_vars).

(** Lines 175-232: from the decoded frame to the dataset. *)
Definition build (fgout : FGoutFrame F) (drop_variables : list string)
  : result (Dataset F) :=
  let time := fgout_t fgout in
  let x := fgout_x fgout in
  let y := flipud1 (fgout_y fgout) in
  let nj := length x in
  let ni := length y in
  depth <- slice3 (fgout_q fgout) 0 ;;
  let mask := lt_scalar depth in
  let nvars := chans3 (fgout_q fgout) in
  let _qelements :=
    if nvars =? 8 then _qelements_dclaw else _qelements_geoclaw in
  ' (_, data_vars) <-
    for_each (range nvars) (channel mask _qelements ni nj drop_variables)
             (fgout_q fgout, []) ;;
  let ds_attrs := [("description", "Clawpack model output")] in
  Ok (Dataset_ data_vars
        (Coord ["x"] x [("units", space_unit)])
        (Coord ["y"] y [("units", space_unit)])
        (Some (Coord ["time"] [time] [("units", "seconds")]))
        (Some reference_time)
        ds_attrs
        None).

Definition open_dataset (w : world F) (filename : string)
           (epsg : option Z) (drop_variables : option (list string))
  : M (Dataset F) :=
  let drop_variables := default_drop drop_variables in
  let full_path := abspath w filename in
  let filename := basename full_path in
  let outdir := basename (dirname full_path) in
  ' (fgno, frameno, output_format) <~ lift (parse_filename filename) ;;
  point_style <~ call (EvFGoutGrid fgno outdir output_format)
                      (FGoutGrid w fgno outdir output_format) ;;
  if negb (point_style =? 2)%Z
  then raise (ValueError "FGOutBackend only works with fg.point_style=2")
  else
    _ <~ call EvReadFgoutGridsData
              (read_fgout_grids_data w fgno outdir output_format) ;;
    fgout <~ call (EvReadFrame frameno)
                  (read_frame w fgno outdir output_format frameno) ;;
    ds <~ lift (build fgout drop_variables) ;;
    tag_crs w epsg ds.
End WithFloat.
End FGOutBackend.

(** ** [class FGMaxBackend] (lines 254-466) *)

Module FGMaxBackend.
Section WithFloat.
Context {F : Type} `{Float F}.

(** [fg.<name>] for one of the field attributes *)
Definition getattr (fg : FGmaxGrid F) (name : string) : result (masked F) :=
  match dict_get name (fg_fields fg) with
  | Some m => Ok m
  | None => Err (AttributeError name)
  end.

(** [hasattr(fg, name)] and [hasattr(fg.<name>, "data")] *)
Definition hasattr_data (fg : FGmaxGrid F) (name : string) : bool :=
  dict_mem name (fg_fields fg).

Definition State : Type := (FGmaxGrid F * dict (variable F))%type.

(** [data_vars[key] = _prepare_var(fg.<name>.data, fg.<name>.mask,
    ["y", "x"], units, nodata, long_name)]: the write into
    [fg.<name>.data] stays in [fg]. *)
Definition prepare (name key units long_name : string) (st : State)
  : result State :=
  let (fg, data_vars) := st in
  m <- getattr fg name ;;
  ' (data', mapping) <-
    _prepare_var (ma_data m) (ma_mask m) ["y"; "x"] units nodata long_name ;;
  Ok (FGmaxGrid_ (fg_x fg) (fg_y fg)
        (dict_set (fg_fields fg) name (Masked data' (ma_mask m))),
      dict_set data_vars key mapping).

(** Lines 312-322: [fg.h.data + fg.B.data] is a fresh array. *)
Definition prepare_eta_max (st : State) : result State :=
  let (fg, data_vars) := st in
  h <- getattr fg "h" ;;
  B <- getattr fg "B" ;;
  sum <- add2 (ma_data h) (ma_data B) ;;
  h <- getattr fg "h" ;;
  ' (_, mapping) <-
    _prepare_var sum (ma_mask h) ["y"; "x"] "meters" nodata
                 "Maximum water surface elevation" ;;
  Ok (fg, dict_set data_vars "eta_max" mapping).

(** Lines 431-434 *)
Definition drop (data_vars : dict (variable F)) (drop_variables : list string)
  : dict (variable F) :=
  fold_left (fun data_vars var =>
               if str_in var (keys data_vars)
               then dict_del data_vars var
               else data_vars)
            drop_variables data_vars.

(** Lines 286-429: the [data_vars] dictionary before anything is
    dropped, and [fg] with the writes of [_prepare_var] in it. *)
Definition collect (fg : FGmaxGrid F) : result State :=
  st <- prepare "arrival_time" "arrival_time" "seconds" "Wave arrival time"
                (fg, []) ;;
  st <- prepare "h" "h_max" "meters" "Maximum water depth" st ;;
  st <- prepare_eta_max st ;;
  st <- prepare "h_time" "h_max_time" "seconds" "Time of maximum water depth"
                st ;;
  st <- (if hasattr_data (fst st) "s"
         then
           st <- prepare "s" "s_max" "meters per second" "Maximum velocity"
                         st ;;
           prepare "s_time" "s_max_time" "seconds" "Time of maximum velocity"
                   st
         else Ok st) ;;
  if hasattr_data (fst st) "hs"
  then
    st <- prepare "hs" "hs_max" "meters squared per second"
                  "Maximum momentum" st ;;
    st <- prepare "hs_time" "hs_max_time" "seconds"
                  "Time of maximum momentum" st ;;
    st <- prepare "hss" "hss_max" "meters cubed per second squared"
                  "Maximum momentum flux" st ;;
    st <- prepare "hss_time" "hss_max_time" "seconds"
                  "Time of maximum momentum flux" st ;;
    st <- prepare "hmin" "h_min" "meters" "Minimum depth" st ;;
    prepare "hmin_time" "h_min_time" "seconds" "Time of minimum depth" st
  else Ok st.

(** [xr.Dataset(...)] of line 439 compares the sizes of the dimensions:
    every variable on [(y, x)] that is left must be as long on each of
    the two as the coordinate of that name. *)
Definition sizes_agree (data_vars : dict (variable F)) (ny nx : nat) : bool :=
  forallb (fun kv : string * variable F =>
             match shape (v_data (snd kv)) with
             | [r; c] => (r =? ny) && (c =? nx)
             | _ => false
             end)
          data_vars.

(** Lines 277-446: from the grid read by [read_output] to the dataset. *)
Definition build (fg : FGmaxGrid F) (drop_variables : list string)
  : result (Dataset F) :=
  let x := fg_x fg in
  let y := flipud1 (fg_y fg) in
  st <- collect fg ;;
  let data_vars := drop (snd st) drop_variables in
  let ds_attrs := [("description", "D-Claw model output")] in
  if sizes_agree data_vars (length y) (length x)
  then Ok (Dataset_ data_vars
             (Coord ["x"] x [("units", "meters")])
             (Coord ["y"] y [("units", "meters")])
             None
             None
             ds_attrs
             None)
  else Err (ValueError "conflicting sizes for dimension").

Definition open_dataset (w : world F) (filename : string)
           (epsg : option Z) (drop_variables : option (list string))
  : M (Dataset F) :=
  let drop_variables := default_drop drop_variables in
  stem <~ lift (getitem_first (split_on "." (basename filename))) ;;
  fgno <~ lift (int (str_suffix 4 stem)) ;;
  point_style <~ call (EvReadFgmaxGridsData fgno)
                      (read_fgmax_grids_data w fgno) ;;
  if negb (point_style =? 2)%Z
  then raise (ValueError "FGMaxBackend only works with fg.point_style=2")
  else
    fg <~ call EvReadOutput (read_output w fgno) ;;
    ds <~ lift (build fg drop_variables) ;;
    tag_crs w epsg ds.
End WithFloat.
End FGMaxBackend.

(** ** A concrete instance

    A float that is NaN or a multiple of 0.0001, which is enough to hold the
    dry tolerance 0.001 exactly, and one run directory with a few grids. *)

Module Sample.
Inductive num : Type := NaN | Num (z : Z).

#[export] Instance num_float : Float num := {|
  nan := NaN;
  lt_tol := fun a => match a with Num z => (z <? 10)%Z | NaN => false end;
  fadd := fun a b =>
    match a, b with Num u, Num v => Num (u + v) | _, _ => NaN end;
  flt := fun a b =>
    match a, b with Num u, Num v => (u <? v)%Z | _, _ => false end
|}.

(** [m] metres *)
Definition metres (m : Z) : num := Num (m * 10000).

Definition xs : list num := [metres 0; metres 1; metres 2].
Definition ys : list num := [metres 0; metres 1; metres 2].

(** The 3 x 3 field [base + 0.0001 * k] at offset [k], with [v0] at
    [(0, 0)]. *)
Definition ramp (base : Z) : list num :=
  map (fun k => Num (base * 10000 + Z.of_nat k)) (seq 0 9).
Definition field (v0 : num) (base : Z) : list num := v0 :: tl (ramp base).

(** Depth about 1.0 with one dry cell; the other channels about 2.0, 3.0
    and so on. *)
Definition q_geoclaw : array3 num :=
  Array3 4 3 3 (field (metres 0) 1 ++ ramp 2 ++ ramp 3 ++ ramp 4).

Definition q_dclaw : array3 num :=
  Array3 8 3 3
    (field (metres 0) 1 ++ ramp 2 ++ ramp 3 ++ ramp 4
     ++ ramp 5 ++ ramp 6 ++ ramp 7 ++ ramp 8).

Definition q_three : array3 num :=
  Array3 3 3 3 (field (metres 0) 1 ++ ramp 2 ++ ramp 3).

Definition frame (q : array3 num) : FGoutFrame num :=
  FGoutFrame_ (metres 5) xs ys q.

Definition masked_field (v0 : num) (base : Z) (dry : bool) : masked num :=
  Masked (Array2 3 3 (field v0 base)) (Array2 3 3 (dry :: repeat false 8)).

(** An fgmax grid with the four fields of [num_fgmax_val = 1] and the
    topography; cell [(0, 0)] never got wet. *)
Definition fgmax_grid : FGmaxGrid num :=
  FGmaxGrid_ xs ys
    [("arrival_time", masked_field (metres 0) 60 true);
     ("h", masked_field (metres 0) 2 true);
     ("B", masked_field (metres 9) (-1) false);
     ("h_time", masked_field (metres 0) 90 true)].

Definition starts_with_slash (p : string) : bool :=
  match p with String "/" _ => true | _ => false end.

(** Grid 1 is a GeoClaw run, grid 2 a D-Claw run, grid 3 a frame with
    three channels; the description of grid 4 declares point style 1,
    which the grid object shows once the description is loaded, and grid 9
    does not have point style 2 from the start. *)
Definition run : world num := {|
  abspath := fun p =>
    if starts_with_slash p then p else ("/home/run/" ++ p)%string;
  FGoutGrid := fun fgno _ _ => Ok (if (fgno =? 9)%Z then 1 else 2)%Z;
  read_fgout_grids_data := fun fgno _ _ =>
    Ok (if (fgno =? 4)%Z then 1 else 2)%Z;
  read_frame := fun fgno _ _ _ =>
    if (fgno =? 1)%Z || (fgno =? 4)%Z then Ok (frame q_geoclaw)
    else if (fgno =? 2)%Z then Ok (frame q_dclaw)
    else if (fgno =? 3)%Z then Ok (frame q_three)
    else Err (ExternalError "no such frame");
  read_fgmax_grids_data := fun fgno => Ok (if (fgno =? 9)%Z then 0 else 2)%Z;
  read_output := fun fgno =>
    if (fgno =? 1)%Z then Ok fgmax_grid
    else Err (ExternalError "no such grid");
  write_crs := fun _ => Ok tt;
  set_spatial_dims := Ok tt;
  write_coordinate_system := fun _ x_attrs y_attrs =>
    Ok (dict_set x_attrs "axis" "X", dict_set y_attrs "axis" "Y")
|}.

Definition geoclaw_file : string := "_output/fgout0001.b0001".
Definition dclaw_file : string := "_output/fgout0002.b0001".
Definition three_file : string := "_output/fgout0003.q0001".
Definition fgmax_file : string := "_output/fgmax0001.txt".
End Sample.

(** ** Vocabulary of the statements *)

(** [out] has element [(i, j)] equal to element [(j, c - 1 - i)] of [data]
    after the cells selected by [mask] were overwritten with [fill], where
    [c] is the number of columns of [data]: the masked field, transposed,
    then flipped top to bottom. *)
Definition masked_transposed_flipped {A} (data : array2 A) (mask : array2 bool)
           (fill : A) (out : ndarray A) : Prop :=
  forall i j, i < cols2 data -> j < rows2 data ->
    exists m d,
      get2 mask j (cols2 data - 1 - i) = Some m /\
      get2 data j (cols2 data - 1 - i) = Some d /\
      nd_get out i j = Some (if m then fill else d).

(** [out] has element [(i, j)] equal to element [(j, c - 1 - i)] of [data]:
    the field transposed, then flipped top to bottom, and nothing
    overwritten. *)
Definition transposed_flipped {A} (data : array2 A) (out : ndarray A) : Prop :=
  forall i j, i < cols2 data -> j < rows2 data ->
    exists d,
      get2 data j (cols2 data - 1 - i) = Some d /\
      nd_get out i j = Some d.

Definition same_shape {A B} (a : array2 A) (b : array2 B) : Prop :=
  rows2 a = rows2 b /\ cols2 a = cols2 b.

(** What the channel loop of [FGOutBackend.open_dataset] is expected to do
    with a frame whose buffer is [q] when the loop starts. *)
Section FGOutVocabulary.
Context {F : Type} `{Float F}.

(** The dry mask of line 183, taken from the depth channel of [q]. *)
Definition dry_mask (q : array3 F) : array2 bool :=
  lt_scalar (Array2 (rows3 q) (cols3 q) (chan_buf q 0)).

(** Channel [i] once the loop has passed it. *)
Definition out_buf (q : array3 F) (i : nat) : list F :=
  if i <? 7
  then map (fun mv : bool * F => if fst mv then nodata else snd mv)
           (combine (buf2 (dry_mask q)) (chan_buf q i))
  else chan_buf q i.

Definition out_var (q : array3 F) (ni nj : nat) (name : string) (i : nat)
  : variable F :=
  Variable_ ["time"; "y"; "x"]
    (NdArray [1; ni; nj]
       (buf2 (flipud (transpose
                        (Array2 (rows3 q) (cols3 q) (out_buf q i))))))
    [("units", AStr (match dict_get name _qunits with
                     | Some u => u
                     | None => EmptyString
                     end));
     ("_FillValue", ANum nodata)].

Definition out_step (q : array3 F) (ni nj : nat) (_qelements : list string)
           (drop_variables : list string) (data_vars : dict (variable F))
           (i : nat) : dict (variable F) :=
  match nth_error _qelements i with
  | Some name =>
      if str_in name drop_variables then data_vars
      else dict_set data_vars name (out_var q ni nj name i)
  | None => data_vars
  end.

(** The buffer of [fgout.q] after [k] rounds of the loop over [q0]. *)
Definition store_after (q0 : array3 F) (k : nat) (q : array3 F) : Prop :=
  chans3 q = chans3 q0 /\ rows3 q = rows3 q0 /\ cols3 q = cols3 q0 /\
  wf3 q /\
  forall i, chan_buf q i = if i <? k then out_buf q0 i else chan_buf q0 i.
End FGOutVocabulary.

(** The frame a call of [FGOutBackend.open_dataset] decodes (lines 149-173,
    without the call record), and the shape the solver's tools give it:
    [q] is indexed [(channel, ix, iy)]. *)
Section FrameVocabulary.
Context {F : Type} `{Float F}.

Definition frame_of (w : world F) (filename : string)
  : result (FGoutFrame F) :=
  let full_path := abspath w filename in
  ' (fgno, frameno, output_format) <-
    FGOutBackend.parse_filename (basename full_path) ;;
  read_frame w fgno (basename (dirname full_path)) output_format frameno.

Definition wf_frame (fgout : FGoutFrame F) : Prop :=
  wf3 (fgout_q fgout) /\
  length (fgout_x fgout) = rows3 (fgout_q fgout) /\
  length (fgout_y fgout) = cols3 (fgout_q fgout).

(** The names line 187-190 select for a frame. *)
Definition names_of (q : array3 F) : list string :=
  if chans3 q =? 8 then _qelements_dclaw else _qelements_geoclaw.
End FrameVocabulary.

(** The grid a call of [FGMaxBackend.open_dataset] reads (lines 268-275,
    without the call record and the point-style check), and what the
    statements need to say about coordinate vectors. *)
Section GridVocabulary.
Context {F : Type} `{Float F}.

Definition fgmax_fgno (filename : string) : result Z :=
  stem <- getitem_first (split_on "." (basename filename)) ;;
  int (str_suffix 4 stem).

Definition grid_of (w : world F) (filename : string)
  : result (FGmaxGrid F) :=
  fgno <- fgmax_fgno filename ;;
  read_output w fgno.

(** [v[i] < v[i+1]] for all [i], and [v[i] > v[i+1]] for all [i] *)
Definition ascending (v : list F) : Prop :=
  forall i a b,
    nth_error v i = Some a -> nth_error v (S i) = Some b -> flt a b = true.

Definition descending (v : list F) : Prop :=
  forall i a b,
    nth_error v i = Some a -> nth_error v (S i) = Some b -> flt b a = true.

Definition description (ds : Dataset F) : option string :=
  dict_get "description" (attrs ds).
End GridVocabulary.

(** What the stages of [FGMaxBackend.collect] after the elevation leave
    alone. *)
Definition tail_keeps {F : Type} (st st' : FGMaxBackend.State (F := F)) : Prop :=
  (NoDup (keys (snd st)) -> NoDup (keys (snd st'))) /\
  dict_get "eta_max" (snd st') = dict_get "eta_max" (snd st) /\
  dict_get "h_max" (snd st') = dict_get "h_max" (snd st).

(** File names of the form [fgoutNNNN.cMMMM]: four decimal digits, a dot, one
    character and four decimal digits. *)
Definition digit_char (d : nat) : ascii := ascii_of_nat (48 + d).

Definition str4 (a b c d : nat) : string :=
  String (digit_char a) (String (digit_char b)
    (String (digit_char c) (String (digit_char d) EmptyString))).

Definition decimal4 (a b c d : nat) : Z :=
  Z.of_nat (1000 * a + 100 * b + 10 * c + d).

Definition fgout_name (n1 n2 n3 n4 : nat) (c : ascii) (m1 m2 m3 m4 : nat)
  : string :=
  ("fgout" ++ str4 n1 n2 n3 n4 ++ "." ++ String c (str4 m1 m2 m3 m4))%string.

Definition int4_agrees (a b c d : nat) : bool :=
  match int (str4 a b c d) with
  | Ok z => (z =? decimal4 a b c d)%Z
  | Err _ => false
  end.

Definition all_digits (p : nat -> bool) : bool := forallb p (seq 0 10).


(** ** Further vocabulary *)

(** The mask that selects nothing, in the shape of [a]. *)
Definition no_mask {A} (a : array2 A) : array2 bool :=
  Array2 (rows2 a) (cols2 a) (repeat false (rows2 a * cols2 a)).

(** The calls [tag_crs] makes for an EPSG code. *)
Definition crs_events (epsg : option Z) : list event :=
  match epsg with
  | Some code => [EvWriteCrs code; EvSetSpatialDims; EvWriteCoordinateSystem]
  | None => []
  end.

(** The fields [FGMaxBackend.collect] turns into variables, as (attribute of
    [fg], name of the variable); [eta_max] is the one variable that is not
    a field. *)
Definition fgmax_fields : list (string * string) :=
  [("arrival_time", "arrival_time"); ("h", "h_max"); ("h_time", "h_max_time");
   ("s", "s_max"); ("s_time", "s_max_time");
   ("hs", "hs_max"); ("hs_time", "hs_max_time");
   ("hss", "hss_max"); ("hss_time", "hss_max_time");
   ("hmin", "h_min"); ("hmin_time", "h_min_time")].

Section FGMaxVocabulary.
Context {F : Type} `{Float F}.

(** The variable names [collect] produces for a grid, in order. *)
Definition fgmax_names (fg : FGmaxGrid F) : list string :=
  ["arrival_time"; "h_max"; "eta_max"; "h_max_time"]
  ++ (if FGMaxBackend.hasattr_data fg "s"
      then ["s_max"; "s_max_time"] else [])
  ++ (if FGMaxBackend.hasattr_data fg "hs"
      then ["hs_max"; "hs_max_time"; "hss_max"; "hss_max_time";
            "h_min"; "h_min_time"]
      else []).

(** [v] is the field [fg.<name>], masked by its own mask, transposed and
    flipped. *)
Definition oriented_field (fg : FGmaxGrid F) (name : string) (v : variable F)
  : Prop :=
  exists m d0,
    FGMaxBackend.getattr fg name = Ok m /\
    setitem_mask (ma_data m) (ma_mask m) nodata = Ok d0 /\
    v_data v = as_ndarray (flipud (transpose d0)) /\
    v_dims v = ["y"; "x"] /\
    dict_get "_FillValue" (v_attrs v) = Some (ANum nodata).

(** The state of [collect] once the variables [ks] are made. *)
Definition collected (fg : FGmaxGrid F) (ks : list string)
           (st : FGMaxBackend.State (F := F)) : Prop :=
  keys (snd st) = ks /\
  (forall n, dict_mem n (fg_fields (fst st)) = dict_mem n (fg_fields fg)) /\
  (In "eta_max" ks -> FGMaxBackend.hasattr_data fg "B" = true) /\
  (forall name key, In (name, key) fgmax_fields ->
     match dict_get key (snd st) with
     | Some v => oriented_field fg name v
     | None => FGMaxBackend.getattr (fst st) name = FGMaxBackend.getattr fg name
     end).
End FGMaxVocabulary.

(** Every name [FGMaxBackend.collect] can give a variable. *)
Definition fgmax_all_names : list string :=
  ["arrival_time"; "h_max"; "eta_max"; "h_max_time"; "s_max"; "s_max_time";
   "hs_max"; "hs_max_time"; "hss_max"; "hss_max_time"; "h_min"; "h_min_time"].

(** [c in s] for a character *)
Fixpoint contains (c : ascii) (s : string) : bool :=
  match s with
  | EmptyString => false
  | String c' rest => Ascii.eqb c' c || contains c rest
  end.
(** ** Facts about buffers *)

Unset Implicit Arguments.

Section ArrayFacts.
Context {A : Type}.

Lemma nth_error_concat_uniform (m : nat) (l : list (list A)) :
  Forall (fun r => length r = m) l ->
  forall i j, j < m ->
  nth_error (concat l) (i * m + j) =
  match nth_error l i with Some r => nth_error r j | None => None end.
Proof.
  induction 1 as [|r l Hr Hl IH]; intros i j Hj.
  - simpl. destruct i; simpl; now rewrite nth_error_nil.
  - destruct i as [|i]; simpl.
    + rewrite nth_error_app1 by lia. reflexivity.
    + rewrite nth_error_app2 by nia.
      replace (m + i * m + j - length r) with (i * m + j) by lia.
      now apply IH.
Qed.

Lemma length_concat_uniform (m : nat) (l : list (list A)) :
  Forall (fun r => length r = m) l ->
  length (concat l) = length l * m.
Proof.
  induction 1 as [|r l Hr Hl IH]; simpl; [reflexivity|].
  rewrite length_app, IH, Hr. reflexivity.
Qed.

Lemma tabulate2_total (r c : nat) (f : nat -> nat -> option A)
      (g : nat -> nat -> A) :
  (forall i j, i < r -> j < c -> f i j = Some (g i j)) ->
  tabulate2 r c f = concat (map (fun i => map (g i) (seq 0 c)) (seq 0 r)).
Proof.
  intros Hf. unfold tabulate2. rewrite flat_map_concat_map.
  f_equal. apply map_ext_in. intros i Hi. apply in_seq in Hi.
  rewrite flat_map_concat_map.
  assert (Hsing : forall l, (forall j, In j l -> j < c) ->
            concat (map (fun j => option_list (f i j)) l) = map (g i) l).
  { induction l as [|j l IH]; intros Hl; simpl; [reflexivity|].
    rewrite Hf by (try apply Hl; simpl; auto; lia). simpl.
    f_equal. apply IH. intros; apply Hl; now right. }
  apply Hsing. intros j Hj. apply in_seq in Hj. lia.
Qed.

Lemma tabulate2_length (r c : nat) f (g : nat -> nat -> A) :
  (forall i j, i < r -> j < c -> f i j = Some (g i j)) ->
  length (tabulate2 r c f) = r * c.
Proof.
  intros Hf. rewrite (tabulate2_total r c f g Hf).
  rewrite (length_concat_uniform c).
  - now rewrite length_map, length_seq.
  - apply Forall_forall. intros x Hx. apply in_map_iff in Hx.
    destruct Hx as [i [<- _]]. now rewrite length_map, length_seq.
Qed.

Lemma tabulate2_nth (r c : nat) f (g : nat -> nat -> A) i j :
  (forall i j, i < r -> j < c -> f i j = Some (g i j)) ->
  i < r -> j < c ->
  nth_error (tabulate2 r c f) (i * c + j) = Some (g i j).
Proof.
  intros Hf Hi Hj. rewrite (tabulate2_total r c f g Hf).
  rewrite (nth_error_concat_uniform c) by
    (try assumption; apply Forall_forall; intros x Hx;
     apply in_map_iff in Hx; destruct Hx as [k [<- _]];
     now rewrite length_map, length_seq).
  rewrite nth_error_map.
  rewrite (nth_error_nth' _ 0) by (rewrite length_seq; lia).
  rewrite seq_nth by lia. simpl.
  rewrite nth_error_map.
  rewrite (nth_error_nth' _ 0) by (rewrite length_seq; lia).
  rewrite seq_nth by lia. reflexivity.
Qed.

Lemma tabulate2_nth_error (r c : nat) (f : nat -> nat -> option A) i j :
  (forall i j, i < r -> j < c -> f i j <> None) ->
  i < r -> j < c ->
  nth_error (tabulate2 r c f) (i * c + j) = f i j.
Proof.
  intros Hf Hi Hj.
  destruct (f i j) as [d|] eqn:Hd; [|now apply Hf in Hd].
  rewrite <- Hd.
  rewrite (tabulate2_nth r c f
             (fun i j => match f i j with Some v => v | None => d end));
    try assumption.
  - now rewrite Hd.
  - intros i' j' Hi' Hj'. specialize (Hf i' j' Hi' Hj').
    now destruct (f i' j').
Qed.

Lemma tabulate2_length_some (r c : nat) (f : nat -> nat -> option A) :
  (forall i j, i < r -> j < c -> f i j <> None) ->
  length (tabulate2 r c f) = r * c.
Proof.
  intros Hf.
  destruct r as [|r']; [reflexivity|].
  destruct c as [|c'].
  - unfold tabulate2. simpl seq at 1. rewrite Nat.mul_0_r.
    induction (seq 0 (S r')); simpl; auto.
  - destruct (f 0 0) as [d|] eqn:Hd; [|apply Hf in Hd; [easy|lia|lia]].
    apply (tabulate2_length _ _ f
             (fun i j => match f i j with Some v => v | None => d end)).
    intros i' j' Hi' Hj'. specialize (Hf i' j' Hi' Hj').
    now destruct (f i' j').
Qed.

Lemma nth_error_combine {B : Type} (l : list B) (l' : list A) n b a :
  nth_error l n = Some b -> nth_error l' n = Some a ->
  nth_error (combine l l') n = Some (b, a).
Proof.
  revert l' n. induction l as [|x l IH]; intros [|y l'] [|n]; simpl;
    try discriminate.
  - now intros [= ->] [= ->].
  - apply IH.
Qed.

(** Shapes and elements of the array operations. *)

Lemma wf2_index (a : array2 A) i j :
  wf2 a -> i < rows2 a -> j < cols2 a ->
  nth_error (buf2 a) (i * cols2 a + j) <> None.
Proof.
  unfold wf2. intros Hwf Hi Hj. apply nth_error_Some. nia.
Qed.

Lemma transpose_wf (a : array2 A) : wf2 a -> wf2 (transpose a).
Proof.
  intros Hwf. unfold wf2, transpose; simpl.
  apply tabulate2_length_some. intros i j Hi Hj.
  now apply wf2_index.
Qed.

Lemma transpose_get (a : array2 A) i j :
  wf2 a -> get2 (transpose a) i j = get2 a j i.
Proof.
  intros Hwf. unfold get2, transpose; simpl.
  rewrite (andb_comm (j <? rows2 a)).
  destruct (i <? cols2 a) eqn:Hi, (j <? rows2 a) eqn:Hj; simpl; trivial.
  apply Nat.ltb_lt in Hi, Hj.
  rewrite tabulate2_nth_error; trivial.
  intros. now apply wf2_index.
Qed.

Lemma flipud_wf (a : array2 A) : wf2 a -> wf2 (flipud a).
Proof.
  intros Hwf. unfold wf2, flipud; simpl.
  apply tabulate2_length_some. intros i j Hi Hj.
  apply wf2_index; trivial. lia.
Qed.

Lemma flipud_get (a : array2 A) i j :
  wf2 a -> i < rows2 a ->
  get2 (flipud a) i j = get2 a (rows2 a - 1 - i) j.
Proof.
  intros Hwf Hi. unfold get2, flipud; simpl.
  assert (Hi' : rows2 a - 1 - i < rows2 a) by lia.
  apply Nat.ltb_lt in Hi, Hi'. rewrite Hi, Hi'. simpl.
  destruct (j <? cols2 a) eqn:Hj; trivial.
  apply Nat.ltb_lt in Hi, Hj.
  rewrite tabulate2_nth_error; trivial.
  intros. apply wf2_index; trivial. lia.
Qed.

Lemma setitem_mask_shape (data : array2 A) mask fill data' :
  setitem_mask data mask fill = Ok data' ->
  rows2 data' = rows2 data /\ cols2 data' = cols2 data /\
  rows2 mask = rows2 data /\ cols2 mask = cols2 data.
Proof.
  unfold setitem_mask.
  destruct (rows2 mask =? rows2 data) eqn:Hr; simpl; [|discriminate].
  destruct (cols2 mask =? cols2 data) eqn:Hc; simpl; [|discriminate].
  apply Nat.eqb_eq in Hr, Hc. intros [= <-]. simpl. auto.
Qed.

Lemma setitem_mask_wf (data : array2 A) mask fill data' :
  wf2 data -> wf2 mask ->
  setitem_mask data mask fill = Ok data' -> wf2 data'.
Proof.
  intros Hd Hm H. pose proof (setitem_mask_shape _ _ _ _ H) as (_ & _ & Hr & Hc).
  revert H. unfold setitem_mask.
  destruct (_ && _); [|discriminate]. intros [= <-].
  unfold wf2 in *; simpl. rewrite length_map, length_combine.
  rewrite Hm, Hd, Hr, Hc. apply Nat.min_id.
Qed.

Lemma setitem_mask_get (data : array2 A) mask fill data' i j m v :
  setitem_mask data mask fill = Ok data' ->
  get2 mask i j = Some m -> get2 data i j = Some v ->
  get2 data' i j = Some (if m then fill else v).
Proof.
  intros H. pose proof (setitem_mask_shape _ _ _ _ H) as (_ & _ & Hr & Hc).
  revert H. unfold setitem_mask.
  destruct (_ && _); [|discriminate]. intros [= <-].
  unfold get2; simpl. rewrite Hr, Hc.
  destruct (_ && _); [|discriminate].
  intros Hm Hv. rewrite nth_error_map.
  now rewrite (nth_error_combine _ _ _ _ _ Hm Hv).
Qed.
End ArrayFacts.

Section OrientationFacts.
Context {A : Type}.

Lemma get2_some {B} (a : array2 B) i j :
  wf2 a -> i < rows2 a -> j < cols2 a -> exists v, get2 a i j = Some v.
Proof.
  intros Hwf Hi Hj. unfold get2.
  pose proof (wf2_index _ _ _ Hwf Hi Hj) as Hn.
  apply Nat.ltb_lt in Hi, Hj. rewrite Hi, Hj. simpl.
  destruct (nth_error _ _) as [v|]; [now exists v | easy].
Qed.

Lemma orient_get (a : array2 A) i j :
  wf2 a -> i < cols2 a ->
  get2 (flipud (transpose a)) i j = get2 a j (cols2 a - 1 - i).
Proof.
  intros Hwf Hi.
  rewrite flipud_get by (try apply transpose_wf; assumption).
  now rewrite transpose_get.
Qed.

Lemma nd_get_as_ndarray (a : array2 A) i j :
  nd_get (as_ndarray a) i j = get2 a i j.
Proof. reflexivity. Qed.

Lemma nd_get_reshape3 (a : array2 A) out i j :
  reshape3 a 1 (rows2 a) (cols2 a) = Ok out ->
  nd_get out i j = get2 a i j.
Proof.
  unfold reshape3. destruct (_ =? _); [|discriminate].
  now intros [= <-].
Qed.

Lemma masked_oriented (data : array2 A) mask fill d0 out :
  wf2 data -> wf2 mask ->
  setitem_mask data mask fill = Ok d0 ->
  (forall i j, nd_get out i j = get2 (flipud (transpose d0)) i j) ->
  masked_transposed_flipped data mask fill out.
Proof.
  intros Hd Hm Hset Hout i j Hi Hj.
  pose proof (setitem_mask_shape _ _ _ _ Hset) as (Hr' & Hc' & Hr & Hc).
  pose proof (setitem_mask_wf _ _ _ _ Hd Hm Hset) as Hwf0.
  destruct (get2_some mask j (cols2 data - 1 - i)) as [m Hgm];
    try assumption; try lia.
  destruct (get2_some data j (cols2 data - 1 - i)) as [d Hgd];
    try assumption; try lia.
  exists m, d. repeat split; trivial.
  rewrite Hout, orient_get by (trivial; lia).
  rewrite Hc'. now apply (setitem_mask_get _ _ _ _ _ _ _ _ Hset).
Qed.

Lemma chan_buf_length (q : array3 A) i :
  wf3 q -> i < chans3 q -> length (chan_buf q i) = rows3 q * cols3 q.
Proof.
  unfold wf3, chan_buf. intros Hwf Hi.
  rewrite length_firstn, length_skipn, Hwf. nia.
Qed.

Lemma slice3_ok (q : array3 A) i Q :
  slice3 q i = Ok Q ->
  i < chans3 q /\ Q = Array2 (rows3 q) (cols3 q) (chan_buf q i).
Proof.
  unfold slice3. destruct (i <? chans3 q) eqn:Hi; [|discriminate].
  apply Nat.ltb_lt in Hi. now intros [= <-].
Qed.

Lemma slice3_wf (q : array3 A) i Q :
  wf3 q -> slice3 q i = Ok Q -> wf2 Q.
Proof.
  intros Hwf HQ. apply slice3_ok in HQ as [Hi ->].
  unfold wf2; simpl. now apply chan_buf_length.
Qed.

Lemma chan_buf_nth (q : array3 A) j o :
  nth_error (chan_buf q j) o =
  if o <? rows3 q * cols3 q
  then nth_error (buf3 q) (j * (rows3 q * cols3 q) + o)
  else None.
Proof.
  unfold chan_buf. rewrite nth_error_firstn.
  destruct (o <? _); trivial. apply nth_error_skipn.
Qed.

Lemma store3_nth (q : array3 A) i b p :
  wf3 q -> i < chans3 q -> length b = rows3 q * cols3 q ->
  nth_error (buf3 (store3 q i b)) p =
  if (i * (rows3 q * cols3 q) <=? p) &&
     (p <? i * (rows3 q * cols3 q) + rows3 q * cols3 q)
  then nth_error b (p - i * (rows3 q * cols3 q))
  else nth_error (buf3 q) p.
Proof.
  unfold wf3, store3. simpl. set (n := rows3 q * cols3 q).
  intros Hwf Hi Hb.
  assert (Hle : i * n + n <= length (buf3 q)) by nia.
  rewrite nth_error_app, length_firstn, Nat.min_l by lia.
  rewrite nth_error_firstn.
  destruct (Nat.ltb_spec p (i * n)) as [Hp|Hp].
  - destruct (Nat.leb_spec (i * n) p); [lia|]. reflexivity.
  - destruct (Nat.leb_spec (i * n) p); [|lia]. simpl.
    rewrite nth_error_app, Hb.
    destruct (Nat.ltb_spec (p - i * n) n) as [Hp'|Hp'];
      destruct (Nat.ltb_spec p (i * n + n)); try lia; trivial.
    rewrite nth_error_skipn. f_equal. lia.
Qed.

Lemma store3_wf (q : array3 A) i b :
  wf3 q -> i < chans3 q -> length b = rows3 q * cols3 q ->
  wf3 (store3 q i b).
Proof.
  unfold wf3, store3. simpl. set (n := rows3 q * cols3 q).
  intros Hwf Hi Hb.
  rewrite !length_app, length_firstn, length_skipn, Hb. nia.
Qed.

Lemma chan_buf_store3 (q : array3 A) i b j :
  wf3 q -> i < chans3 q -> length b = rows3 q * cols3 q ->
  chan_buf (store3 q i b) j = if j =? i then b else chan_buf q j.
Proof.
  intros Hwf Hi Hb. apply nth_error_ext. intros o.
  rewrite chan_buf_nth. change (rows3 (store3 q i b)) with (rows3 q).
  change (cols3 (store3 q i b)) with (cols3 q).
  rewrite store3_nth by assumption.
  set (n := rows3 q * cols3 q) in *.
  destruct (Nat.eqb_spec j i) as [->|Hne].
  - destruct (Nat.ltb_spec o n) as [Ho|Ho].
    + destruct (Nat.leb_spec (i * n) (i * n + o)); [|lia].
      destruct (Nat.ltb_spec (i * n + o) (i * n + n)); [|lia]. simpl.
      f_equal. lia.
    + symmetry. apply nth_error_None. lia.
  - rewrite chan_buf_nth. fold n.
    destruct (Nat.ltb_spec o n) as [Ho|Ho]; trivial.
    destruct (Nat.leb_spec (i * n) (j * n + o));
      destruct (Nat.ltb_spec (j * n + o) (i * n + n)); simpl; trivial.
    exfalso. assert (j < i \/ i < j) as [Hlt|Hlt] by lia; nia.
Qed.

Lemma get3_chan_buf (q : array3 A) k i j :
  k < chans3 q -> i < rows3 q -> j < cols3 q ->
  get3 q k i j = nth_error (chan_buf q k) (i * cols3 q + j).
Proof.
  intros Hk Hi Hj. unfold get3. rewrite chan_buf_nth.
  apply Nat.ltb_lt in Hk as Hk', Hi as Hi', Hj as Hj'.
  rewrite Hk', Hi', Hj'. simpl.
  destruct (Nat.ltb_spec (i * cols3 q + j) (rows3 q * cols3 q)); [easy|nia].
Qed.

Lemma dict_get_set_same {B} (d : dict B) k v :
  dict_get k (dict_set d k v) = Some v.
Proof.
  induction d as [|[k' v'] d IH]; simpl.
  - now rewrite String.eqb_refl.
  - destruct (String.eqb k k') eqn:E; simpl; rewrite ?E, ?String.eqb_refl;
      trivial.
Qed.

Lemma dict_get_set_other {B} (d : dict B) k k' v :
  k' <> k -> dict_get k' (dict_set d k v) = dict_get k' d.
Proof.
  intros Hne. induction d as [|[k0 v0] d IH]; simpl.
  - apply String.eqb_neq in Hne. now rewrite Hne.
  - destruct (String.eqb k k0) eqn:E; simpl.
    + apply String.eqb_eq in E. subst k0.
      apply String.eqb_neq in Hne. now rewrite Hne.
    + now rewrite IH.
Qed.
End OrientationFacts.

Section Orientation.
Context {F : Type} `{Float F}.

(** C1 (as the code has it). The orientation-and-masking transform:
    [_prepare_var], given a field and a mask of the same shape, returns
    the field in which every cell selected by the mask holds the fill
    value and every other cell its own value, transposed and then flipped
    top to bottom.  The transform written inline in the channel loop of
    [FGOutBackend.open_dataset] stores the same thing under the channel's
    name for a channel with index below 7; for a channel with index 7 or
    more it leaves the buffer alone and stores the channel transposed and
    flipped, with no cell overwritten, whatever the mask. *)
Theorem orientation_and_masking_transform :
  (forall (data : array2 F) (mask : array2 bool) dims units fill long_name,
      wf2 data -> wf2 mask -> same_shape mask data ->
      exists data' v,
        _prepare_var data mask dims units fill long_name = Ok (data', v) /\
        shape (v_data v) = [cols2 data; rows2 data] /\
        masked_transposed_flipped data mask fill (v_data v))
  /\
  (forall (q : array3 F) (mask : array2 bool) _qelements drop_variables i
          data_vars q' data_vars' Q varname,
      wf3 q -> wf2 mask -> i < 7 ->
      slice3 q i = Ok Q ->
      getitem _qelements i = Ok varname ->
      str_in varname drop_variables = false ->
      FGOutBackend.channel mask _qelements (cols3 q) (rows3 q) drop_variables
                           i (q, data_vars) = Ok (q', data_vars') ->
      exists v,
        dict_get varname data_vars' = Some v /\
        shape (v_data v) = [1; cols3 q; rows3 q] /\
        masked_transposed_flipped Q mask nodata (v_data v))
  /\
  (forall (q : array3 F) (mask : array2 bool) _qelements drop_variables i
          data_vars q' data_vars' Q varname,
      wf3 q -> 7 <= i ->
      slice3 q i = Ok Q ->
      getitem _qelements i = Ok varname ->
      str_in varname drop_variables = false ->
      FGOutBackend.channel mask _qelements (cols3 q) (rows3 q) drop_variables
                           i (q, data_vars) = Ok (q', data_vars') ->
      q' = q /\
      exists v,
        dict_get varname data_vars' = Some v /\
        shape (v_data v) = [1; cols3 q; rows3 q] /\
        transposed_flipped Q (v_data v)).
Proof.
  split; [|split].
  - intros data mask dims units fill long_name Hd Hm [Hr Hc].
    unfold _prepare_var.
    destruct (setitem_mask data mask fill) as [d0|e] eqn:Hset.
    + simpl. eexists _, _. split; [reflexivity|]. simpl.
      pose proof (setitem_mask_shape _ _ _ _ Hset) as (Hr' & Hc' & _).
      split; [now rewrite Hr', Hc'|].
      eapply masked_oriented; eauto.
    + exfalso. revert Hset. unfold setitem_mask.
      rewrite Hr, Hc, !Nat.eqb_refl. discriminate.
  - intros q mask qel drops i dv q' dv' Q varname Hq Hm Hi HQ Hname Hdrop.
    unfold FGOutBackend.channel. rewrite HQ. simpl.
    apply Nat.ltb_lt in Hi. rewrite Hi.
    pose proof (slice3_wf _ _ _ Hq HQ) as HwfQ.
    destruct (setitem_mask Q mask nodata) as [Q'|e] eqn:Hset; simpl;
      [|discriminate].
    pose proof (setitem_mask_shape _ _ _ _ Hset) as (Hr' & Hc' & _).
    pose proof (setitem_mask_wf _ _ _ _ HwfQ Hm Hset) as HwfQ'.
    apply slice3_ok in HQ as [Hlt HQeq].
    assert (HrQ : rows2 Q = rows3 q) by now subst Q.
    assert (HcQ : cols2 Q = cols3 q) by now subst Q.
    destruct (reshape3 _ 1 (cols3 q) (rows3 q)) as [out|e] eqn:Hre; simpl;
      [|discriminate].
    rewrite Hname. simpl.
    destruct (getitem_key _qunits varname) as [units|e]; simpl;
      [|discriminate].
    rewrite Hdrop. simpl. intros [= _ <-].
    eexists. split; [apply dict_get_set_same|]. simpl.
    split.
    + revert Hre. unfold reshape3. destruct (_ =? _); [|discriminate].
      now intros [= <-].
    + eapply masked_oriented; eauto.
      intros a b. apply nd_get_reshape3.
      simpl. now rewrite Hc', Hr', HcQ, HrQ.
  - intros q mask qel drops i dv q' dv' Q varname Hq Hi HQ Hname Hdrop.
    unfold FGOutBackend.channel. rewrite HQ. simpl.
    assert (Hi7 : (i <? 7) = false) by (apply Nat.ltb_ge; exact Hi).
    rewrite Hi7. simpl.
    pose proof (slice3_wf _ _ _ Hq HQ) as HwfQ.
    apply slice3_ok in HQ as [Hlt HQeq].
    assert (HrQ : rows2 Q = rows3 q) by now subst Q.
    assert (HcQ : cols2 Q = cols3 q) by now subst Q.
    destruct (reshape3 _ 1 (cols3 q) (rows3 q)) as [out|e] eqn:Hre; simpl;
      [|discriminate].
    rewrite Hname. simpl.
    destruct (getitem_key _qunits varname) as [units|e]; simpl;
      [|discriminate].
    rewrite Hdrop. simpl. intros [= <- <-]. split; [reflexivity|].
    eexists. split; [apply dict_get_set_same|]. simpl.
    split.
    + revert Hre. unfold reshape3. destruct (_ =? _); [|discriminate].
      now intros [= <-].
    + intros a b Ha Hb.
      destruct (get2_some Q b (cols2 Q - 1 - a)) as [d Hd];
        try assumption; try lia.
      exists d. split; [exact Hd|].
      rewrite (nd_get_reshape3 (flipud (transpose Q)) out)
        by (simpl; now rewrite HcQ, HrQ).
      now rewrite orient_get.
Qed.
End Orientation.

(** ** The channel loop of [FGOutBackend.open_dataset] *)

Section ChannelLoop.
Context {F : Type} `{Float F}.

Lemma store_after_start (q0 : array3 F) : wf3 q0 -> store_after q0 0 q0.
Proof. intros Hwf. repeat split; trivial. Qed.

Lemma out_buf_length (q0 : array3 F) i :
  wf3 q0 -> 0 < chans3 q0 -> i < chans3 q0 ->
  length (out_buf q0 i) = rows3 q0 * cols3 q0.
Proof.
  intros Hwf H0 Hi. unfold out_buf.
  destruct (i <? 7).
  - rewrite length_map, length_combine. simpl. rewrite length_map.
    rewrite !chan_buf_length by assumption. apply Nat.min_id.
  - now apply chan_buf_length.
Qed.

(** One round of the loop. *)
Lemma channel_step (q0 q : array3 F) _qelements ni nj drop_variables k
      data_vars q' data_vars' :
  wf3 q0 -> store_after q0 k q -> k < chans3 q0 ->
  FGOutBackend.channel (dry_mask q0) _qelements ni nj drop_variables k
                       (q, data_vars) = Ok (q', data_vars') ->
  store_after q0 (S k) q' /\
  rows3 q0 * cols3 q0 = ni * nj /\
  nth_error _qelements k <> None /\
  data_vars' = out_step q0 ni nj _qelements drop_variables data_vars k.
Proof.
  intros Hwf0 (Hn & Hr & Hc & Hwf & Hbuf) Hk.
  unfold FGOutBackend.channel, slice3.
  assert (Hk' : (k <? chans3 q) = true) by (apply Nat.ltb_lt; lia).
  rewrite Hk'. simpl.
  assert (Hcur : chan_buf q k = chan_buf q0 k).
  { rewrite Hbuf. now rewrite Nat.ltb_irrefl. }
  assert (Hlen : length (chan_buf q0 k) = rows3 q0 * cols3 q0)
    by now apply chan_buf_length.
  set (Q := Array2 (rows3 q) (cols3 q) (chan_buf q k)).
  assert (Hmasked :
            match (if k <? 7
                   then Q' <- setitem_mask Q (dry_mask q0) nodata ;;
                        Ok (store3 q k (buf2 Q'), Q')
                   else Ok (q, Q)) with
            | Ok (q1, Q1) =>
                store_after q0 (S k) q1 /\
                Q1 = Array2 (rows3 q0) (cols3 q0) (out_buf q0 k)
            | Err _ => True
            end).
  { unfold out_buf. destruct (k <? 7) eqn:Hk7.
    - unfold setitem_mask, dry_mask, lt_scalar, Q. simpl.
      rewrite Hr, Hc, !Nat.eqb_refl. simpl. rewrite Hcur. split.
      + repeat split; trivial.
        * apply store3_wf; trivial; try lia.
          rewrite length_map, length_combine, length_map, Hr, Hc.
          rewrite chan_buf_length, Hlen by (trivial; lia).
          apply Nat.min_id.
        * intros i. rewrite chan_buf_store3; trivial; try lia.
          -- destruct (Nat.eqb_spec i k) as [->|Hne].
             ++ destruct (Nat.ltb_spec k (S k)); [|lia].
                unfold out_buf, dry_mask, lt_scalar. simpl.
                now rewrite Hk7.
             ++ rewrite Hbuf.
                destruct (Nat.ltb_spec i k), (Nat.ltb_spec i (S k));
                  trivial; lia.
          -- rewrite length_map, length_combine, length_map, Hr, Hc.
             rewrite chan_buf_length, Hlen by (trivial; lia).
             apply Nat.min_id.
      + reflexivity.
    - split.
      + repeat split; trivial. intros i. rewrite Hbuf.
        destruct (Nat.eqb_spec i k) as [->|Hne].
        * rewrite Nat.ltb_irrefl. destruct (Nat.ltb_spec k (S k)); [|lia].
          unfold out_buf. now rewrite Hk7.
        * destruct (Nat.ltb_spec i k), (Nat.ltb_spec i (S k));
            trivial; lia.
      + unfold Q. now rewrite Hr, Hc, Hcur. }
  destruct (if k <? 7 then _ else _) as [[q1 Q1]|e]; simpl; [|discriminate].
  destruct Hmasked as [Hafter ->].
  unfold reshape3. cbn [rows2 cols2 buf2 flipud transpose].
  destruct (_ =? _) eqn:Hsize; simpl; [|discriminate].
  apply Nat.eqb_eq in Hsize.
  unfold getitem, out_step.
  destruct (nth_error _qelements k) as [name|]; simpl; [|discriminate].
  unfold getitem_key, out_var.
  destruct (dict_get name _qunits) as [units|]; simpl; [|discriminate].
  destruct (str_in name drop_variables); simpl; intros [= <- <-];
    (split; [assumption|]); (split; [lia|]); (split; [discriminate|]);
    reflexivity.
Qed.

(** The whole loop, started anywhere. *)
Lemma channel_loop (q0 : array3 F) _qelements ni nj drop_variables len :
  wf3 q0 ->
  forall k q data_vars q' data_vars',
    store_after q0 k q -> k + len <= chans3 q0 ->
    for_each (seq k len)
             (FGOutBackend.channel (dry_mask q0) _qelements ni nj
                                   drop_variables)
             (q, data_vars) = Ok (q', data_vars') ->
    store_after q0 (k + len) q' /\
    (0 < len -> rows3 q0 * cols3 q0 = ni * nj) /\
    (forall i, k <= i < k + len -> nth_error _qelements i <> None) /\
    data_vars' =
      fold_left (out_step q0 ni nj _qelements drop_variables) (seq k len)
                data_vars.
Proof.
  intros Hwf0. induction len as [|len IH]; intros k q dv q' dv' Hq Hle.
  - simpl. intros [= <- <-]. rewrite Nat.add_0_r.
    split; [assumption|]. split; [intros; lia|].
    split; [intros; lia|reflexivity].
  - cbn [seq for_each fold_left].
    destruct (FGOutBackend.channel (dry_mask q0) _qelements ni nj
                drop_variables k (q, dv)) as [[q1 dv1]|e]
      eqn:Hstep; cbn [rbind]; [|discriminate].
    apply channel_step in Hstep as (Hq1 & Hsize & Hname & ->);
      trivial; try lia.
    intros Hrest. apply IH in Hrest as (Hq' & _ & Hnames & ->);
      trivial; try lia.
    replace (k + S len) with (S k + len) by lia.
    split; [assumption|]. split; [trivial|]. split; [|reflexivity].
    intros i Hi. destruct (Nat.eq_dec i k) as [->|]; trivial.
    apply Hnames. lia.
Qed.
End ChannelLoop.

(** ** Dictionaries *)

Section DictFacts.
Context {B : Type}.

Lemma str_in_In name names : str_in name names = true <-> In name names.
Proof.
  unfold str_in. rewrite existsb_exists. split.
  - intros [x [Hx E]]. apply String.eqb_eq in E. now subst.
  - intros Hin. exists name. split; trivial. apply String.eqb_refl.
Qed.

Lemma dict_get_keys (d : dict B) k :
  dict_get k d = None <-> ~ In k (keys d).
Proof.
  induction d as [|[k' v] d IH]; simpl; [tauto|].
  destruct (String.eqb_spec k k') as [->|Hne].
  - split; [discriminate | intros Hn; exfalso; apply Hn; now left].
  - rewrite IH. split.
    + intros Hn [E|Hin]; [now symmetry in E | now apply Hn].
    + intros Hn Hin. apply Hn. now right.
Qed.

Lemma keys_dict_set (d : dict B) k v :
  keys (dict_set d k v) = if str_in k (keys d) then keys d else keys d ++ [k].
Proof.
  unfold keys, str_in.
  induction d as [|[k' v'] d IH]; simpl; trivial.
  destruct (String.eqb_spec k k') as [->|Hne]; simpl; trivial.
  rewrite IH. now destruct (existsb _ _).
Qed.

Lemma keys_dict_del (d : dict B) k :
  NoDup (keys d) ->
  keys (dict_del d k) = filter (fun x => negb (String.eqb k x)) (keys d).
Proof.
  unfold keys.
  induction d as [|[k' v'] d IH]; simpl; trivial.
  intros Hnd. inversion Hnd as [|? ? Hnotin Hnd']; subst.
  destruct (String.eqb_spec k k') as [->|Hne]; simpl.
  - symmetry. apply forallb_filter_id. apply forallb_forall.
    intros x Hx. destruct (String.eqb_spec k' x); trivial. now subst.
  - now rewrite IH.
Qed.
End DictFacts.

Section AssembledVariables.
Context {F : Type} `{Float F}.
Variables (q : array3 F) (ni nj : nat) (_qelements drop_variables : list string).
Hypothesis Hnodup : NoDup _qelements.


Lemma out_step_keys k :
  k <= length _qelements ->
  keys (fold_left (out_step q ni nj _qelements drop_variables) (seq 0 k) []) =
  filter (fun name => negb (str_in name drop_variables)) (firstn k _qelements).
Proof.
  induction k as [|k IH]; intros Hk; [reflexivity|].
  rewrite seq_S, fold_left_app. cbn [fold_left Nat.add].
  destruct (nth_error _qelements k) as [name|] eqn:Hname;
    [|apply nth_error_None in Hname; lia].
  assert (Hfirst : firstn (S k) _qelements = firstn k _qelements ++ [name]).
  { apply nth_error_ext. intros n.
    rewrite nth_error_firstn, nth_error_app, length_firstn, nth_error_firstn.
    rewrite Nat.min_l by lia.
    destruct (Nat.ltb_spec n k), (Nat.ltb_spec n (S k)); try lia; trivial.
    - replace n with k by lia. now rewrite Nat.sub_diag.
    - destruct (n - k) as [|[|m]] eqn:E; try lia; reflexivity. }
  rewrite Hfirst, filter_app. unfold out_step at 1. rewrite Hname.
  simpl. destruct (str_in name drop_variables) eqn:Hdrop; simpl.
  - rewrite app_nil_r. apply IH. lia.
  - rewrite keys_dict_set, IH by lia.
    destruct (str_in name (filter _ _)) eqn:Hin; trivial.
    exfalso. apply str_in_In, filter_In in Hin as [Hin _].
    apply In_nth_error in Hin as [n Hn].
    rewrite nth_error_firstn in Hn.
    destruct (Nat.ltb_spec n k) as [Hlt|]; [|discriminate].
    pose proof (proj1 (NoDup_nth_error _) Hnodup n k) as Hnd.
    rewrite Hn, Hname in Hnd.
    assert (Hn' : n < length _qelements) by lia.
    specialize (Hnd Hn' eq_refl). lia.
Qed.

Lemma out_step_get k i name :
  nth_error _qelements i = Some name -> i < k ->
  str_in name drop_variables = false ->
  dict_get name (fold_left (out_step q ni nj _qelements drop_variables) (seq 0 k) []) = Some (out_var q ni nj name i).
Proof.
  intros Hname Hik Hdrop. induction k as [|k IH]; [lia|].
  rewrite seq_S, fold_left_app. simpl. unfold out_step at 1.
  destruct (Nat.eq_dec i k) as [->|Hne].
  - rewrite Hname, Hdrop. apply dict_get_set_same.
  - destruct (nth_error _qelements k) as [name'|] eqn:Hname';
      [|apply IH; lia].
    destruct (str_in name' drop_variables); [apply IH; lia|].
    rewrite dict_get_set_other; [apply IH; lia|].
    intros ->. apply Hne.
    apply (proj1 (NoDup_nth_error _) Hnodup); [|congruence].
    apply nth_error_Some. congruence.
Qed.

Lemma out_step_dropped k name :
  str_in name drop_variables = true ->
  dict_get name (fold_left (out_step q ni nj _qelements drop_variables) (seq 0 k) []) = None.
Proof.
  intros Hdrop. induction k as [|k IH]; [reflexivity|].
  rewrite seq_S, fold_left_app. simpl. unfold out_step at 1.
  destruct (nth_error _qelements k) as [name'|]; trivial.
  destruct (str_in name' drop_variables) eqn:Hdrop'; trivial.
  rewrite dict_get_set_other; trivial. intros ->. congruence.
Qed.
End AssembledVariables.

Lemma NoDup_qelements_dclaw : NoDup _qelements_dclaw.
Proof.
  unfold _qelements_dclaw.
  repeat (apply NoDup_cons; [simpl; intuition discriminate|]).
  apply NoDup_nil.
Qed.

Lemma NoDup_qelements_geoclaw : NoDup _qelements_geoclaw.
Proof.
  unfold _qelements_geoclaw.
  repeat (apply NoDup_cons; [simpl; intuition discriminate|]).
  apply NoDup_nil.
Qed.

(** ** Inversion of the two monads *)

Lemma mbind_ok {A B} (c : M A) (k : A -> M B) tr b :
  mbind c k = (tr, Ok b) ->
  exists tr1 a tr2, c = (tr1, Ok a) /\ k a = (tr2, Ok b) /\ tr = tr1 ++ tr2.
Proof.
  unfold mbind. destruct c as [tr1 [a|e]]; [|discriminate].
  destruct (k a) as [tr2 r] eqn:Hk. intros [= <- ->].
  now exists tr1, a, tr2.
Qed.

Section TagCrs.
Context {F : Type} `{Float F}.

Lemma tag_crs_ok (w : world F) epsg ds0 tr ds :
  tag_crs w epsg ds0 = (tr, Ok ds) ->
  data_vars ds = data_vars ds0 /\
  c_values (coord_x ds) = c_values (coord_x ds0) /\
  c_values (coord_y ds) = c_values (coord_y ds0) /\
  coord_time ds = coord_time ds0 /\
  attrs ds = attrs ds0.
Proof.
  unfold tag_crs. destruct epsg as [code|].
  - unfold mbind, call, mret. destruct (write_crs w code); [|discriminate].
    destruct (set_spatial_dims w); [|discriminate].
    destruct (write_coordinate_system w code _ _) as [[x_attrs y_attrs]|e];
      [|discriminate].
    intros [= _ <-]. simpl. auto.
  - intros [= _ <-]. auto.
Qed.
End TagCrs.

(** ** From [open_dataset] back to the frame and the loop *)

Section FGOutInversion.
Context {F : Type} `{Float F}.

Lemma names_of_NoDup (q : array3 F) : NoDup (names_of q).
Proof.
  unfold names_of. destruct (_ =? _);
    [apply NoDup_qelements_dclaw | apply NoDup_qelements_geoclaw].
Qed.

Lemma build_ok (fgout : FGoutFrame F) drop_variables ds :
  wf3 (fgout_q fgout) ->
  FGOutBackend.build fgout drop_variables = Ok ds ->
  let q := fgout_q fgout in
  let ni := length (flipud1 (fgout_y fgout)) in
  let nj := length (fgout_x fgout) in
  0 < chans3 q /\
  rows3 q * cols3 q = ni * nj /\
  chans3 q <= length (names_of q) /\
  data_vars ds =
    fold_left (out_step q ni nj (names_of q) drop_variables)
              (seq 0 (chans3 q)) [] /\
  coord_y ds = Coord ["y"] (flipud1 (fgout_y fgout)) [("units", space_unit)] /\
  coord_x ds = Coord ["x"] (fgout_x fgout) [("units", space_unit)] /\
  attrs ds = [("description", "Clawpack model output")].
Proof.
  intros Hwf. unfold FGOutBackend.build, slice3.
  destruct (Nat.ltb_spec 0 (chans3 (fgout_q fgout))) as [H0|H0];
    [|discriminate].
  cbn [rbind].
  change (lt_scalar _) with (dry_mask (fgout_q fgout)).
  fold (names_of (fgout_q fgout)). unfold range.
  destruct (for_each _ _ _) as [[q' dv]|e] eqn:Hloop; [|discriminate].
  cbn [rbind]. intros [= <-]. cbn [data_vars coord_y coord_x attrs].
  apply channel_loop in Hloop as (_ & Hsize & Hnames & ->);
    trivial; [|now apply store_after_start].
  repeat split; trivial.
  - apply Hsize. lia.
  - destruct (Nat.le_gt_cases (chans3 (fgout_q fgout))
                              (length (names_of (fgout_q fgout))))
      as [Hle|Hgt]; trivial.
    exfalso. apply (Hnames (length (names_of (fgout_q fgout)))); [lia|].
    apply nth_error_None. lia.
Qed.

Lemma open_dataset_ok (w : world F) filename epsg drop_variables tr ds :
  FGOutBackend.open_dataset w filename epsg drop_variables = (tr, Ok ds) ->
  exists fgout ds0,
    frame_of w filename = Ok fgout /\
    FGOutBackend.build fgout (default_drop drop_variables) = Ok ds0 /\
    data_vars ds = data_vars ds0 /\
    c_values (coord_x ds) = c_values (coord_x ds0) /\
    c_values (coord_y ds) = c_values (coord_y ds0) /\
    coord_time ds = coord_time ds0 /\
    attrs ds = attrs ds0.
Proof.
  unfold FGOutBackend.open_dataset, frame_of. intros Hrun.
  apply mbind_ok in Hrun as (tr1 & [[fgno frameno] fmt] & tr2 & Hparse & Hrun & _).
  unfold lift in Hparse. injection Hparse as _ Hparse. rewrite Hparse.
  cbn [rbind].
  apply mbind_ok in Hrun as (tr3 & ps & tr4 & _ & Hrun & _).
  destruct (negb (ps =? 2)%Z); [discriminate|].
  apply mbind_ok in Hrun as (tr5 & u & tr6 & _ & Hrun & _).
  apply mbind_ok in Hrun as (tr7 & fgout & tr8 & Hframe & Hrun & _).
  unfold call in Hframe. injection Hframe as _ Hframe.
  apply mbind_ok in Hrun as (tr9 & ds0 & tr10 & Hbuild & Hrun & _).
  unfold lift in Hbuild. injection Hbuild as _ Hbuild.
  exists fgout, ds0. split; [assumption|]. split; [assumption|].
  eapply tag_crs_ok; eassumption.
Qed.

Lemma out_buf_nth (q : array3 F) k p :
  wf3 q -> k < chans3 q -> p < rows3 q * cols3 q ->
  exists depth val,
    nth_error (chan_buf q 0) p = Some depth /\
    nth_error (chan_buf q k) p = Some val /\
    nth_error (out_buf q k) p =
    Some (if (k <? 7) && lt_tol depth then nodata else val).
Proof.
  intros Hwf Hk Hp.
  assert (H0 : 0 < chans3 q) by lia.
  destruct (nth_error (chan_buf q 0) p) as [depth|] eqn:Hd;
    [|apply nth_error_None in Hd; rewrite chan_buf_length in Hd; trivial; lia].
  destruct (nth_error (chan_buf q k) p) as [val|] eqn:Hv;
    [|apply nth_error_None in Hv; rewrite chan_buf_length in Hv; trivial; lia].
  exists depth, val. split; [reflexivity|]. split; [reflexivity|].
  unfold out_buf. destruct (k <? 7); simpl; [|assumption].
  rewrite nth_error_map, (nth_error_combine _ _ _ (lt_tol depth) val).
  - reflexivity.
  - now rewrite nth_error_map, Hd.
  - assumption.
Qed.

(** Element [(i, j)] of the variable made from channel [k]. *)
Lemma out_var_get (q : array3 F) name k i j :
  wf3 q -> k < chans3 q -> i < cols3 q -> j < rows3 q ->
  exists depth val,
    get3 q 0 j (cols3 q - 1 - i) = Some depth /\
    get3 q k j (cols3 q - 1 - i) = Some val /\
    nd_get (v_data (out_var q (cols3 q) (rows3 q) name k)) i j =
    Some (if (k <? 7) && lt_tol depth then nodata else val).
Proof.
  intros Hwf Hk Hi Hj.
  assert (H0 : 0 < chans3 q) by lia.
  set (p := j * cols3 q + (cols3 q - 1 - i)).
  assert (Hp : p < rows3 q * cols3 q) by (unfold p; nia).
  destruct (out_buf_nth q k p Hwf Hk Hp) as (depth & val & Hd & Hv & Hout).
  exists depth, val.
  rewrite !get3_chan_buf by (trivial; lia). fold p.
  split; [assumption|]. split; [assumption|].
  set (a := Array2 (rows3 q) (cols3 q) (out_buf q k)).
  assert (Hwfa : wf2 a) by (unfold wf2, a; simpl; now apply out_buf_length).
  change (nd_get _ i j) with
    (if (i <? cols3 q) && (j <? rows3 q)
     then nth_error (buf2 (flipud (transpose a))) (i * rows3 q + j)
     else None).
  change (if (i <? cols3 q) && (j <? rows3 q)
     then nth_error (buf2 (flipud (transpose a))) (i * rows3 q + j)
     else None) with (get2 (flipud (transpose a)) i j).
  rewrite orient_get by (trivial; simpl; lia).
  unfold get2, a. simpl.
  apply Nat.ltb_lt in Hj as Hj'. rewrite Hj'.
  assert (Hi' : (cols3 q - 1 - i <? cols3 q) = true)
    by (apply Nat.ltb_lt; lia).
  rewrite Hi'. simpl. fold p. assumption.
Qed.

Lemma frame_names (q : array3 F) k name :
  k < chans3 q -> chans3 q <= length (names_of q) ->
  nth_error (names_of q) k = Some name ->
  (name <> "eta" -> k < 7) /\
  (chans3 q = 8 -> name = "eta" -> k = 7).
Proof.
  unfold names_of. intros Hk Hle Hname.
  destruct (Nat.eqb_spec (chans3 q) 8) as [E|E].
  - split; [intros Hne | intros _ ->].
    + assert (k <> 7); [|lia]. intros ->. simpl in Hname.
      now injection Hname as <-.
    + do 7 (destruct k as [|k]; [discriminate|]). simpl in Hle. lia.
  - simpl in Hle. split; [lia | contradiction].
Qed.
End FGOutInversion.

(** ** When the channel loop goes through *)

Section ChannelLoopRuns.
Context {F : Type} `{Float F}.

Lemma channel_runs (q0 q : array3 F) _qelements ni nj drop_variables k
      data_vars name :
  store_after q0 k q -> k < chans3 q0 ->
  rows3 q0 * cols3 q0 = ni * nj ->
  nth_error _qelements k = Some name ->
  dict_get name _qunits <> None ->
  exists st,
    FGOutBackend.channel (dry_mask q0) _qelements ni nj drop_variables k
                         (q, data_vars) = Ok st.
Proof.
  intros (Hn & Hr & Hc & Hwf & Hbuf) Hk Hsize Hname Hunits.
  unfold FGOutBackend.channel, slice3.
  assert (Hk' : (k <? chans3 q) = true) by (apply Nat.ltb_lt; lia).
  rewrite Hk'. cbn [rbind].
  assert (Hmasked :
            exists q1 Q1,
              (if k <? 7
               then Q' <- setitem_mask
                            (Array2 (rows3 q) (cols3 q) (chan_buf q k))
                            (dry_mask q0) nodata ;;
                    Ok (store3 q k (buf2 Q'), Q')
               else Ok (q, Array2 (rows3 q) (cols3 q) (chan_buf q k)))
              = Ok (q1, Q1) /\ rows2 Q1 = rows3 q0 /\ cols2 Q1 = cols3 q0).
  { destruct (k <? 7).
    - unfold setitem_mask, dry_mask, lt_scalar. simpl.
      rewrite Hr, Hc, !Nat.eqb_refl. simpl. eauto.
    - eexists _, _. split; [reflexivity|]. simpl. auto. }
  destruct Hmasked as (q1 & Q1 & -> & HrQ & HcQ). cbn [rbind].
  unfold reshape3. cbn [rows2 cols2 buf2 flipud transpose].
  rewrite HrQ, HcQ.
  assert (Hsz : (cols3 q0 * rows3 q0 =? 1 * (ni * nj)) = true)
    by (apply Nat.eqb_eq; lia).
  rewrite Hsz. cbn [rbind]. unfold getitem. rewrite Hname. cbn [rbind].
  unfold getitem_key.
  destruct (dict_get name _qunits) as [units|]; [|contradiction].
  cbn [rbind]. destruct (negb _); eauto.
Qed.

Lemma channel_loop_runs (q0 : array3 F) _qelements ni nj drop_variables len :
  wf3 q0 ->
  rows3 q0 * cols3 q0 = ni * nj ->
  forall k q data_vars,
    store_after q0 k q -> k + len <= chans3 q0 ->
    (forall i, k <= i < k + len ->
               exists name, nth_error _qelements i = Some name /\
                            dict_get name _qunits <> None) ->
    exists st,
      for_each (seq k len)
               (FGOutBackend.channel (dry_mask q0) _qelements ni nj
                                     drop_variables)
               (q, data_vars) = Ok st.
Proof.
  intros Hwf0 Hsize. induction len as [|len IH]; intros k q dv Hq Hle Hnames.
  - simpl. eauto.
  - cbn [seq for_each].
    destruct (Hnames k) as (name & Hname & Hunits); [lia|].
    destruct (channel_runs q0 q _qelements ni nj drop_variables k dv name)
      as [[q1 dv1] Hstep]; trivial; try lia.
    rewrite Hstep. cbn [rbind].
    apply channel_step in Hstep as (Hq1 & _); trivial; try lia.
    apply IH; trivial; try lia.
    intros i Hi. apply Hnames. lia.
Qed.

Lemma names_have_units (q : array3 F) i :
  i < length (names_of q) ->
  exists name, nth_error (names_of q) i = Some name /\
               dict_get name _qunits <> None.
Proof.
  unfold names_of. destruct (_ =? _); simpl; intros Hi.
  - do 8 (destruct i as [|i];
          [eexists; split; [reflexivity|discriminate]|]). lia.
  - do 4 (destruct i as [|i];
          [eexists; split; [reflexivity|discriminate]|]). lia.
Qed.

Lemma build_runs (fgout : FGoutFrame F) drop_variables :
  wf_frame fgout ->
  0 < chans3 (fgout_q fgout) <= length (names_of (fgout_q fgout)) ->
  exists ds, FGOutBackend.build fgout drop_variables = Ok ds.
Proof.
  intros (Hwf & Hx & Hy) [H0 Hle]. unfold FGOutBackend.build, slice3.
  cbv zeta. apply Nat.ltb_lt in H0 as H0'. rewrite H0'. cbn [rbind].
  change (lt_scalar _) with (dry_mask (fgout_q fgout)).
  fold (names_of (fgout_q fgout)). unfold range.
  assert (Hloop :
            exists st,
              for_each (seq 0 (chans3 (fgout_q fgout)))
                (FGOutBackend.channel (dry_mask (fgout_q fgout))
                   (names_of (fgout_q fgout))
                   (length (flipud1 (fgout_y fgout)))
                   (length (fgout_x fgout)) drop_variables)
                (fgout_q fgout, []) = Ok st).
  { apply channel_loop_runs; trivial.
    - unfold flipud1. rewrite length_rev. lia.
    - now apply store_after_start.
    - intros i Hi. apply names_have_units. lia. }
  destruct Hloop as [[q' dv] Hloop].
  rewrite Hloop. cbn [rbind]. eauto.
Qed.
Lemma for_each_app {S} (f : nat -> S -> result S) l1 l2 s :
  for_each (l1 ++ l2) f s = (s' <- for_each l1 f s ;; for_each l2 f s').
Proof.
  revert s. induction l1 as [|i l1 IH]; intros s; simpl; trivial.
  destruct (f i s); simpl; auto.
Qed.

Lemma channel_out_of_names (q0 q : array3 F) _qelements ni nj drop_variables k
      data_vars :
  store_after q0 k q -> k < chans3 q0 ->
  rows3 q0 * cols3 q0 = ni * nj ->
  nth_error _qelements k = None ->
  FGOutBackend.channel (dry_mask q0) _qelements ni nj drop_variables k
                       (q, data_vars)
  = Err (IndexError "list index out of range").
Proof.
  intros (Hn & Hr & Hc & Hwf & Hbuf) Hk Hsize Hname.
  unfold FGOutBackend.channel, slice3.
  assert (Hk' : (k <? chans3 q) = true) by (apply Nat.ltb_lt; lia).
  rewrite Hk'. cbn [rbind].
  assert (Hmasked :
            exists q1 Q1,
              (if k <? 7
               then Q' <- setitem_mask
                            (Array2 (rows3 q) (cols3 q) (chan_buf q k))
                            (dry_mask q0) nodata ;;
                    Ok (store3 q k (buf2 Q'), Q')
               else Ok (q, Array2 (rows3 q) (cols3 q) (chan_buf q k)))
              = Ok (q1, Q1) /\ rows2 Q1 = rows3 q0 /\ cols2 Q1 = cols3 q0).
  { destruct (k <? 7).
    - unfold setitem_mask, dry_mask, lt_scalar. simpl.
      rewrite Hr, Hc, !Nat.eqb_refl. simpl. eauto.
    - eexists _, _. split; [reflexivity|]. simpl. auto. }
  destruct Hmasked as (q1 & Q1 & -> & HrQ & HcQ). cbn [rbind].
  unfold reshape3. cbn [rows2 cols2 buf2 flipud transpose].
  rewrite HrQ, HcQ.
  assert (Hsz : (cols3 q0 * rows3 q0 =? 1 * (ni * nj)) = true)
    by (apply Nat.eqb_eq; lia).
  rewrite Hsz. cbn [rbind]. unfold getitem. rewrite Hname. reflexivity.
Qed.

(** A frame with no channel, or with more channels than names. *)
Lemma build_index_error (fgout : FGoutFrame F) drop_variables :
  wf_frame fgout ->
  ~ (chans3 (fgout_q fgout) = 8 \/ 1 <= chans3 (fgout_q fgout) <= 4) ->
  exists msg, FGOutBackend.build fgout drop_variables = Err (IndexError msg).
Proof.
  intros (Hwf & Hx & Hy) Hcount. unfold FGOutBackend.build, slice3.
  cbv zeta.
  destruct (Nat.ltb_spec 0 (chans3 (fgout_q fgout))) as [H0|H0];
    [|eexists; reflexivity].
  cbn [rbind]. change (lt_scalar _) with (dry_mask (fgout_q fgout)).
  destruct (Nat.eqb_spec (chans3 (fgout_q fgout)) 8) as [E|E]; [tauto|].
  set (q := fgout_q fgout) in *.
  set (ni := length (flipud1 (fgout_y fgout))).
  set (nj := length (fgout_x fgout)).
  assert (Hsize : rows3 q * cols3 q = ni * nj).
  { unfold ni, nj, flipud1. rewrite length_rev. lia. }
  unfold range.
  replace (chans3 q) with (4 + S (chans3 q - 5)) by lia.
  rewrite seq_app, for_each_app.
  assert (Hruns :
            exists st,
              for_each (seq 0 4)
                (FGOutBackend.channel (dry_mask q) _qelements_geoclaw ni nj
                   drop_variables) (q, []) = Ok st).
  { apply channel_loop_runs; trivial.
    - now apply store_after_start.
    - lia.
    - intros i Hi. simpl.
      do 4 (destruct i as [|i];
            [eexists; split; [reflexivity|discriminate]|]). lia. }
  destruct Hruns as [[q4 dv4] Hfirst].
  match goal with
  | |- context [for_each (seq 0 4) ?f ?s] =>
      destruct (for_each (seq 0 4) f s) as [[q4' dv4']|e] eqn:Hgo
  end.
  - clear Hfirst. cbn [rbind seq for_each Nat.add].
    apply channel_loop in Hgo as (Hq4 & _); trivial;
      [|now apply store_after_start|lia].
    rewrite (channel_out_of_names q q4' _qelements_geoclaw ni nj
               drop_variables 4 dv4'); trivial; try lia.
    eexists. reflexivity.
  - discriminate Hfirst.
Qed.
End ChannelLoopRuns.

(** ** Claims about [FGOutBackend.open_dataset] *)

Section FGOutClaims.
Context {F : Type} `{Float F}.
Variable w : world F.

(** C2 (as the code has it). For a frame that
    [FGOutBackend.open_dataset] turns into a dataset, and every channel
    whose variable is kept: in each cell whose depth is below the dry
    tolerance, the variable of every channel other than elevation holds
    the fill value; in each cell whose depth is not below the tolerance,
    the variable of every channel holds the channel's own value; and with
    eight channels the elevation variable holds the channel's own value in
    every cell, dry or not.  Cells are addressed after the transpose and
    the flip: cell [(i, j)] of a variable is cell [(j, ny - 1 - i)] of the
    frame. *)
Theorem dry_cells_hold_fill_value filename epsg drop_variables tr ds fgout :
  FGOutBackend.open_dataset w filename epsg drop_variables = (tr, Ok ds) ->
  frame_of w filename = Ok fgout ->
  wf_frame fgout ->
  let q := fgout_q fgout in
  forall k name,
    k < chans3 q ->
    nth_error (names_of q) k = Some name ->
    str_in name (default_drop drop_variables) = false ->
    exists v,
      dict_get name (data_vars ds) = Some v /\
      forall i j, i < cols3 q -> j < rows3 q ->
        exists depth val,
          get3 q 0 j (cols3 q - 1 - i) = Some depth /\
          get3 q k j (cols3 q - 1 - i) = Some val /\
          (lt_tol depth = true -> name <> "eta" ->
           nd_get (v_data v) i j = Some nodata) /\
          (lt_tol depth = false -> nd_get (v_data v) i j = Some val) /\
          (chans3 q = 8 -> name = "eta" ->
           nd_get (v_data v) i j = Some val).
Proof.
  intros Hrun Hframe (Hwf & Hx & Hy) q k name Hk Hname Hdrop.
  apply open_dataset_ok in Hrun
    as (fgout' & ds0 & Hframe' & Hbuild & -> & _).
  rewrite Hframe in Hframe'. injection Hframe' as <-.
  apply build_ok in Hbuild as (H0 & Hsize & Hle & -> & _); trivial.
  fold q in Hle |- *.
  unfold flipud1. rewrite length_rev, Hx, Hy. fold q.
  exists (out_var q (cols3 q) (rows3 q) name k). split.
  - apply out_step_get; trivial. apply names_of_NoDup.
  - intros i j Hi Hj.
    destruct (out_var_get q name k i j Hwf Hk Hi Hj)
      as (depth & val & Hd & Hv & Hget).
    destruct (frame_names q k name Hk Hle Hname) as [Hnoteta Heta].
    exists depth, val. split; [assumption|]. split; [assumption|].
    rewrite Hget. split; [|split].
    + intros -> Hne. apply Hnoteta, Nat.ltb_lt in Hne. now rewrite Hne.
    + intros ->. now rewrite andb_false_r.
    + intros E8 E. rewrite (Heta E8 E). reflexivity.
Qed.

(** C4 (as the code has it). For a decoded frame: with four channels the
    variables are named [h, hu, hv, eta]; with eight channels they are
    named [h, hu, hv, hm, pb, hchi, delta_a, eta]; with one, two or three
    channels no exception is raised and the variables are named by the
    first names of the four-name list; with any other number of channels
    the assembler raises [IndexError] and no dataset is returned.  Names on
    the drop list are left out in every case. *)
Theorem schema_follows_channel_count filename epsg drop_variables fgout :
  frame_of w filename = Ok fgout ->
  wf_frame fgout ->
  let q := fgout_q fgout in
  let kept := filter (fun name =>
                        negb (str_in name (default_drop drop_variables))) in
  (forall tr ds,
      FGOutBackend.open_dataset w filename epsg drop_variables = (tr, Ok ds) ->
      (chans3 q = 4 -> keys (data_vars ds) = kept _qelements_geoclaw) /\
      (chans3 q = 8 -> keys (data_vars ds) = kept _qelements_dclaw) /\
      (chans3 q <> 4 -> chans3 q <> 8 ->
       1 <= chans3 q <= 3 /\
       keys (data_vars ds) = kept (firstn (chans3 q) _qelements_geoclaw)))
  /\
  (chans3 q = 8 \/ 1 <= chans3 q <= 4 ->
   exists ds, FGOutBackend.build fgout (default_drop drop_variables) = Ok ds)
  /\
  (~ (chans3 q = 8 \/ 1 <= chans3 q <= 4) ->
   (exists msg,
       FGOutBackend.build fgout (default_drop drop_variables)
       = Err (IndexError msg)) /\
   exists tr e,
     FGOutBackend.open_dataset w filename epsg drop_variables = (tr, Err e)).
Proof.
  intros Hframe Hwff q kept.
  assert (Hnames :
            forall tr ds,
              FGOutBackend.open_dataset w filename epsg drop_variables
              = (tr, Ok ds) ->
              0 < chans3 q <= length (names_of q) /\
              keys (data_vars ds) = kept (firstn (chans3 q) (names_of q))).
  { intros tr ds Hrun.
    apply open_dataset_ok in Hrun
      as (fgout' & ds0 & Hframe' & Hbuild & -> & _).
    rewrite Hframe in Hframe'. injection Hframe' as <-.
    destruct Hwff as (Hwf & _).
    apply build_ok in Hbuild as (H0 & _ & Hle & -> & _); trivial.
    split; [split; assumption|].
    apply out_step_keys; trivial. apply names_of_NoDup. }
  split; [|split].
  - intros tr ds Hrun. apply Hnames in Hrun as [[H0 Hle] ->].
    unfold names_of in *.
    destruct (Nat.eqb_spec (chans3 q) 8) as [E|E].
    + rewrite E. split; [discriminate|]. split; [reflexivity|].
      intros _ Hne. now contradiction Hne.
    + simpl in Hle. split; [now intros ->|]. split; [contradiction|].
      intros. split; [lia|reflexivity].
  - intros Hcount. apply build_runs; trivial. unfold names_of.
    fold q. destruct (Nat.eqb_spec (chans3 q) 8); simpl; lia.
  - intros Hcount. split; [now apply build_index_error|].
    destruct (FGOutBackend.open_dataset w filename epsg drop_variables)
      as [tr [ds|e]] eqn:Hrun; [|eauto].
    exfalso. destruct (Hnames tr ds eq_refl) as [[H0 Hle] _]. apply Hcount.
    unfold names_of in Hle.
    destruct (Nat.eqb_spec (chans3 q) 8); simpl in Hle; lia.
Qed.

End FGOutClaims.


(** ** From [FGMaxBackend.open_dataset] back to the grid *)

Ltac invert_rbind H :=
  match type of H with
  | rbind ?c _ = Ok _ =>
      let E := fresh "Hstep" in
      destruct c eqn:E; [cbn [rbind] in H | discriminate H]
  end.

Section FGMaxInversion.
Context {F : Type} `{Float F}.

Lemma prepare_ok name key units long_name (st st' : FGMaxBackend.State) :
  FGMaxBackend.prepare name key units long_name st = Ok st' ->
  exists m data' v,
    FGMaxBackend.getattr (fst st) name = Ok m /\
    _prepare_var (ma_data m) (ma_mask m) ["y"; "x"] units nodata long_name
    = Ok (data', v) /\
    fg_fields (fst st') =
      dict_set (fg_fields (fst st)) name (Masked data' (ma_mask m)) /\
    snd st' = dict_set (snd st) key v.
Proof.
  unfold FGMaxBackend.prepare. destruct st as [fg dv]. intros Hrun.
  invert_rbind Hrun. invert_rbind Hrun. destruct a0 as [data' v].
  injection Hrun as <-. exists a, data', v. simpl. auto.
Qed.

Lemma build_collect_max (fg : FGmaxGrid F) drop_variables ds :
  FGMaxBackend.build fg drop_variables = Ok ds ->
  exists st,
    FGMaxBackend.collect fg = Ok st /\
    FGMaxBackend.sizes_agree (FGMaxBackend.drop (snd st) drop_variables)
      (length (flipud1 (fg_y fg))) (length (fg_x fg)) = true /\
    ds = Dataset_ (FGMaxBackend.drop (snd st) drop_variables)
           (Coord ["x"] (fg_x fg) [("units", "meters")])
           (Coord ["y"] (flipud1 (fg_y fg)) [("units", "meters")])
           None None [("description", "D-Claw model output")] None.
Proof.
  unfold FGMaxBackend.build. intros Hrun. invert_rbind Hrun.
  destruct (FGMaxBackend.sizes_agree _ _ _) eqn:Hsizes; [|discriminate].
  injection Hrun as <-. eauto.
Qed.

Lemma build_ok_max (fg : FGmaxGrid F) drop_variables ds :
  FGMaxBackend.build fg drop_variables = Ok ds ->
  exists dv,
    data_vars ds = FGMaxBackend.drop dv drop_variables /\
    coord_y ds = Coord ["y"] (flipud1 (fg_y fg)) [("units", "meters")] /\
    coord_x ds = Coord ["x"] (fg_x fg) [("units", "meters")] /\
    attrs ds = [("description", "D-Claw model output")].
Proof.
  intros Hrun. apply build_collect_max in Hrun as (st & _ & _ & ->).
  simpl. eauto.
Qed.

Lemma open_dataset_ok_max (w : world F) filename epsg drop_variables tr ds :
  FGMaxBackend.open_dataset w filename epsg drop_variables = (tr, Ok ds) ->
  exists fg ds0,
    grid_of w filename = Ok fg /\
    FGMaxBackend.build fg (default_drop drop_variables) = Ok ds0 /\
    data_vars ds = data_vars ds0 /\
    c_values (coord_x ds) = c_values (coord_x ds0) /\
    c_values (coord_y ds) = c_values (coord_y ds0) /\
    coord_time ds = coord_time ds0 /\
    attrs ds = attrs ds0.
Proof.
  unfold FGMaxBackend.open_dataset, grid_of, fgmax_fgno. intros Hrun.
  apply mbind_ok in Hrun as (tr1 & stem & tr2 & Hstem & Hrun & _).
  unfold lift in Hstem. injection Hstem as _ Hstem. rewrite Hstem.
  cbn [rbind].
  apply mbind_ok in Hrun as (tr3 & fgno & tr4 & Hfgno & Hrun & _).
  unfold lift in Hfgno. injection Hfgno as _ Hfgno. rewrite Hfgno.
  cbn [rbind].
  apply mbind_ok in Hrun as (tr5 & ps & tr6 & _ & Hrun & _).
  destruct (negb (ps =? 2)%Z); [discriminate|].
  apply mbind_ok in Hrun as (tr7 & fg & tr8 & Hfg & Hrun & _).
  unfold call in Hfg. injection Hfg as _ Hfg.
  apply mbind_ok in Hrun as (tr9 & ds0 & tr10 & Hbuild & Hrun & _).
  unfold lift in Hbuild. injection Hbuild as _ Hbuild.
  exists fg, ds0. split; [assumption|]. split; [assumption|].
  eapply tag_crs_ok; eassumption.
Qed.
End FGMaxInversion.

(** ** The stages of [FGMaxBackend.build] *)

Section FGMaxStages.
Context {F : Type} `{Float F}.

Lemma prepare_var_ok (data : array2 F) mask dims units fill long_name
      data' v :
  _prepare_var data mask dims units fill long_name = Ok (data', v) ->
  setitem_mask data mask fill = Ok data' /\
  v_data v = as_ndarray (flipud (transpose data')).
Proof.
  unfold _prepare_var. intros Hrun. invert_rbind Hrun.
  injection Hrun as <- <-. auto.
Qed.

Lemma add2_same_shape (a b : array2 F) :
  wf2 a -> wf2 b -> same_shape b a ->
  exists s,
    add2 a b = Ok s /\ rows2 s = rows2 a /\ cols2 s = cols2 a /\ wf2 s /\
    forall i j u v,
      get2 a i j = Some u -> get2 b i j = Some v ->
      get2 s i j = Some (fadd u v).
Proof.
  intros Ha Hb [Hr Hc]. unfold add2. rewrite Hr, Hc, !Nat.eqb_refl.
  cbn [orb andb].
  assert (Hout : forall m, (if m =? 1 then m else m) = m)
    by (intros m; now destruct (m =? 1)).
  assert (Hix : forall m i, i < m -> (if m =? 1 then 0 else i) = i).
  { intros m i Hi. destruct (Nat.eqb_spec m 1); lia. }
  rewrite !Hout.
  set (f := fun i j : nat => match nth_error (buf2 a) _ with
                             | Some u => _ | None => None end).
  assert (Hf : forall i j, i < rows2 a -> j < cols2 a ->
                 exists u v,
                   nth_error (buf2 a) (i * cols2 a + j) = Some u /\
                   nth_error (buf2 b) (i * cols2 a + j) = Some v /\
                   f i j = Some (fadd u v)).
  { intros i j Hi Hj. unfold f. rewrite !Hix by assumption.
    destruct (nth_error (buf2 a) (i * cols2 a + j)) as [u|] eqn:Hu;
      [|now apply wf2_index in Hu].
    destruct (nth_error (buf2 b) (i * cols2 a + j)) as [v|] eqn:Hv.
    - now exists u, v.
    - rewrite <- Hc in Hv. apply wf2_index in Hv; trivial; lia. }
  assert (Hsome : forall i j, i < rows2 a -> j < cols2 a -> f i j <> None).
  { intros i j Hi Hj. destruct (Hf i j Hi Hj) as (u & v & _ & _ & ->).
    discriminate. }
  eexists. split; [reflexivity|]. simpl.
  split; [reflexivity|]. split; [reflexivity|]. split.
  - unfold wf2. simpl. now apply tabulate2_length_some.
  - intros i j u v. unfold get2. simpl. rewrite Hr, Hc.
    destruct (i <? rows2 a) eqn:Hi; [|discriminate].
    destruct (j <? cols2 a) eqn:Hj; [|discriminate]. simpl.
    apply Nat.ltb_lt in Hi, Hj. intros Hu Hv.
    rewrite tabulate2_nth_error by assumption.
    destruct (Hf i j Hi Hj) as (u' & v' & Hu' & Hv' & ->). congruence.
Qed.

Lemma dict_set_NoDup {B} (d : dict B) k v :
  NoDup (keys d) -> NoDup (keys (dict_set d k v)).
Proof.
  intros Hnd. rewrite keys_dict_set.
  destruct (str_in k (keys d)) eqn:Hin; trivial.
  apply NoDup_app; trivial.
  - repeat constructor. simpl. tauto.
  - intros x Hx [<-|[]]. apply str_in_In in Hx. congruence.
Qed.

(** What a [prepare] leaves alone. *)
Lemma prepare_frame name key units long_name (st st' : FGMaxBackend.State) :
  FGMaxBackend.prepare name key units long_name st = Ok st' ->
  (NoDup (keys (snd st)) -> NoDup (keys (snd st'))) /\
  (forall k, k <> key -> dict_get k (snd st') = dict_get k (snd st)) /\
  (forall n, n <> name ->
             FGMaxBackend.getattr (fst st') n = FGMaxBackend.getattr (fst st) n).
Proof.
  intros Hrun. apply prepare_ok in Hrun as (m & data' & v & _ & _ & Hf & Hdv).
  rewrite Hdv. split; [apply dict_set_NoDup|]. split.
  - intros k Hk. now apply dict_get_set_other.
  - intros n Hn. unfold FGMaxBackend.getattr. rewrite Hf.
    now rewrite dict_get_set_other.
Qed.

Lemma prepare_eta_max_ok (st st' : FGMaxBackend.State) :
  FGMaxBackend.prepare_eta_max st = Ok st' ->
  exists h B sum data' v,
    FGMaxBackend.getattr (fst st) "h" = Ok h /\
    FGMaxBackend.getattr (fst st) "B" = Ok B /\
    add2 (ma_data h) (ma_data B) = Ok sum /\
    _prepare_var sum (ma_mask h) ["y"; "x"] "meters" nodata
                 "Maximum water surface elevation" = Ok (data', v) /\
    fst st' = fst st /\
    snd st' = dict_set (snd st) "eta_max" v.
Proof.
  unfold FGMaxBackend.prepare_eta_max. destruct st as [fg dv].
  intros Hrun. repeat invert_rbind Hrun. destruct a2 as [data' v].
  injection Hrun as <-. exists a, a0, a1, data', v. simpl. auto 10.
Qed.

(** From the elevation onwards nothing touches [eta_max] or [h_max]. *)
Lemma tail_keeps_refl (st : FGMaxBackend.State (F := F)) : tail_keeps st st.
Proof. repeat split; auto. Qed.

Lemma tail_keeps_step name key units long_name
      (st st' st'' : FGMaxBackend.State (F := F)) :
  tail_keeps st st' ->
  FGMaxBackend.prepare name key units long_name st' = Ok st'' ->
  key <> "eta_max" -> key <> "h_max" ->
  tail_keeps st st''.
Proof.
  intros (Hnd & He & Hh) Hrun Hk1 Hk2.
  apply prepare_frame in Hrun as (Hnd' & Hget & _).
  split; [auto|]. split.
  - rewrite Hget; [assumption | congruence].
  - rewrite Hget; [assumption | congruence].
Qed.

Lemma collect_stages (fg : FGmaxGrid F) st :
  FGMaxBackend.collect fg = Ok st ->
  exists st1 st2 st3,
    FGMaxBackend.prepare "arrival_time" "arrival_time" "seconds"
                         "Wave arrival time" (fg, []) = Ok st1 /\
    FGMaxBackend.prepare "h" "h_max" "meters" "Maximum water depth" st1
    = Ok st2 /\
    FGMaxBackend.prepare_eta_max st2 = Ok st3 /\
    tail_keeps st3 st.
Proof.
  unfold FGMaxBackend.collect. intros Hrun.
  invert_rbind Hrun. rename a into st1, Hstep into H1.
  invert_rbind Hrun. rename a into st2, Hstep into H2.
  invert_rbind Hrun. rename a into st3, Hstep into H3.
  invert_rbind Hrun. rename a into st4, Hstep into H4.
  invert_rbind Hrun. rename a into st5, Hstep into H5.
  exists st1, st2, st3.
  split; [first [exact H1|reflexivity]|]. split; [exact H2|].
  split; [exact H3|].
  assert (K4 : tail_keeps st3 st4).
  { eapply tail_keeps_step; [apply tail_keeps_refl|exact H4|..]; discriminate. }
  assert (K5 : tail_keeps st3 st5).
  { destruct (FGMaxBackend.hasattr_data (fst st4) "s").
    - invert_rbind H5.
      eapply tail_keeps_step; [|exact H5|..]; try discriminate.
      eapply tail_keeps_step; [exact K4|exact Hstep|..]; discriminate.
    - now injection H5 as <-. }
  destruct (FGMaxBackend.hasattr_data (fst st5) "hs").
  - do 5 invert_rbind Hrun.
    repeat (eapply tail_keeps_step;
            [|eassumption|discriminate|discriminate]).
    exact K5.
  - now injection Hrun as <-.
Qed.

Lemma drop_filter (dv : dict (variable F)) drop_variables :
  NoDup (keys dv) ->
  FGMaxBackend.drop dv drop_variables =
  filter (fun kv => negb (str_in (fst kv) drop_variables)) dv.
Proof.
  unfold FGMaxBackend.drop. revert dv.
  induction drop_variables as [|var rest IH]; intros dv Hnd.
  - simpl. symmetry. apply forallb_filter_id. now apply forallb_forall.
  - cbn [fold_left].
    assert (Hstep : (if str_in var (keys dv) then dict_del dv var else dv)
                    = filter (fun kv => negb (String.eqb var (fst kv))) dv).
    { clear IH. unfold keys in *. induction dv as [|[k v] dv IHdv]; simpl.
      - reflexivity.
      - inversion Hnd as [|? ? Hnotin Hnd']; subst.
        unfold str_in in *. simpl.
        destruct (String.eqb_spec var k) as [->|Hne]; simpl.
        + symmetry. apply forallb_filter_id. apply forallb_forall.
          intros [k' v'] Hin. simpl.
          destruct (String.eqb_spec k k') as [->|]; trivial.
          exfalso. apply Hnotin. apply in_map_iff. now exists (k', v').
        + specialize (IHdv Hnd').
          destruct (existsb (String.eqb var) (map fst dv)); simpl.
          * now rewrite IHdv.
          * now rewrite <- IHdv. }
    rewrite Hstep, IH.
    + clear. unfold str_in.
      induction dv as [|[k v] dv IHdv]; simpl; trivial.
      rewrite (String.eqb_sym k var).
      destruct (String.eqb var k); simpl; trivial.
      now destruct (existsb _ _); simpl; rewrite IHdv.
    + unfold keys in *. clear -Hnd.
      induction dv as [|[k v] dv IHdv]; simpl; trivial.
      inversion Hnd as [|? ? Hnotin Hnd']; subst.
      destruct (negb _); simpl; auto.
      constructor; auto. intros Hin. apply Hnotin.
      apply in_map_iff in Hin as [[k' v'] [E Hin]]. simpl in E. subst.
      apply filter_In in Hin as [Hin _]. apply in_map_iff. now exists (k, v').
Qed.

Lemma dict_get_filter {B} (d : dict B) (p : string -> bool) k :
  dict_get k (filter (fun kv => p (fst kv)) d) =
  if p k then dict_get k d else None.
Proof.
  induction d as [|[k' v] d IH]; simpl.
  - now destruct (p k).
  - destruct (p k') eqn:Hp; simpl.
    + destruct (String.eqb_spec k k') as [->|]; [now rewrite Hp | exact IH].
    + rewrite IH. destruct (String.eqb_spec k k') as [->|]; trivial.
      now rewrite Hp.
Qed.
End FGMaxStages.

(** ** The drop list *)

Section DropList.
Context {F : Type} `{Float F}.



Lemma for_each_ext {S} (f g : nat -> S -> result S) l :
  (forall i s, f i s = g i s) ->
  forall s, for_each l f s = for_each l g s.
Proof.
  intros Hfg. induction l as [|i l IH]; intros s; simpl; trivial.
  rewrite Hfg. destruct (g i s); simpl; auto.
Qed.




Lemma collect_NoDup (fg : FGmaxGrid F) st :
  FGMaxBackend.collect fg = Ok st -> NoDup (keys (snd st)).
Proof.
  intros Hrun.
  apply collect_stages in Hrun as (st1 & st2 & st3 & H1 & H2 & H3 & K & _).
  apply K.
  apply prepare_frame in H1 as [N1 _]. apply prepare_frame in H2 as [N2 _].
  apply prepare_eta_max_ok in H3 as (h & B & sum & d & v & _ & _ & _ & _ & _ & E).
  rewrite E. apply dict_set_NoDup, N2, N1. constructor.
Qed.

Variable w : world F.

End DropList.

(** ** The elevation of [FGMaxBackend.open_dataset] *)

Section FGMaxClaims.
Context {F : Type} `{Float F}.
Variable w : world F.

(** C6. In the dataset of [FGMaxBackend.open_dataset] the variable
    [eta_max] holds, in every cell where the depth field [fg.h] is not
    masked, the depth plus the topography [fg.B] of that cell, and the
    depth there is what [h_max] holds; in every cell where the depth field
    is masked it holds the fill value.  Cells are addressed after the
    transpose and the flip.  That [_prepare_var] has already written the
    fill value into [fg.h.data] when the sum is taken does not show. *)
Theorem eta_max_is_depth_plus_topography filename epsg drop_variables tr ds
        fg mh mB :
  FGMaxBackend.open_dataset w filename epsg drop_variables = (tr, Ok ds) ->
  grid_of w filename = Ok fg ->
  FGMaxBackend.getattr fg "h" = Ok mh ->
  FGMaxBackend.getattr fg "B" = Ok mB ->
  wf2 (ma_data mh) -> wf2 (ma_mask mh) -> wf2 (ma_data mB) ->
  same_shape (ma_data mB) (ma_data mh) ->
  str_in "eta_max" (default_drop drop_variables) = false ->
  exists eta_max,
    dict_get "eta_max" (data_vars ds) = Some eta_max /\
    forall i j, i < cols2 (ma_data mh) -> j < rows2 (ma_data mh) ->
      exists masked depth topo,
        get2 (ma_mask mh) j (cols2 (ma_data mh) - 1 - i) = Some masked /\
        get2 (ma_data mh) j (cols2 (ma_data mh) - 1 - i) = Some depth /\
        get2 (ma_data mB) j (cols2 (ma_data mh) - 1 - i) = Some topo /\
        (masked = true -> nd_get (v_data eta_max) i j = Some nodata) /\
        (masked = false ->
         nd_get (v_data eta_max) i j = Some (fadd depth topo) /\
         forall h_max,
           dict_get "h_max" (data_vars ds) = Some h_max ->
           nd_get (v_data h_max) i j = Some depth).
Proof.
  intros Hrun Hgrid Hh HB Hwfh Hwfm HwfB Hshape Hdrop.
  apply open_dataset_ok_max in Hrun as (fg' & ds0 & Hgrid' & Hbuild & -> & _).
  rewrite Hgrid in Hgrid'. injection Hgrid' as <-.
  apply build_collect_max in Hbuild as (st & Hst & _ & ->).
  cbn [data_vars].
  rewrite drop_filter by (eapply collect_NoDup; eassumption).
  rewrite !(dict_get_filter _
              (fun k => negb (str_in k (default_drop drop_variables)))).
  rewrite Hdrop. cbn [negb].
  apply collect_stages in Hst as (st1 & st2 & st3 & H1 & H2 & H3 & _ & Ke & Kh).
  rewrite Ke, Kh.
  apply prepare_frame in H1 as (_ & _ & G1). simpl in G1.
  apply prepare_ok in H2 as (m & data' & vh & Hm & Hvh & Hf2 & Hdv2).
  rewrite G1, Hh in Hm by discriminate. injection Hm as <-.
  apply prepare_eta_max_ok in H3
    as (h' & B' & sum & d & ve & Hh' & HB' & Hsum & Hve & _ & Hdv3).
  unfold FGMaxBackend.getattr in Hh', HB'. rewrite Hf2 in Hh', HB'.
  rewrite dict_get_set_same in Hh'. injection Hh' as <-.
  rewrite dict_get_set_other in HB' by discriminate.
  fold (FGMaxBackend.getattr (fst st1) "B") in HB'.
  rewrite G1, HB in HB' by discriminate. injection HB' as <-.
  cbn [ma_data ma_mask] in Hsum, Hve.
  rewrite Hdv3, dict_get_set_same.
  rewrite dict_get_set_other by discriminate.
  rewrite Hdv2, dict_get_set_same.
  exists ve. split; [reflexivity|].
  apply prepare_var_ok in Hvh as [Hset Hvh].
  apply prepare_var_ok in Hve as [Hset' Hve].
  pose proof (setitem_mask_shape _ _ _ _ Hset) as (Hr' & Hc' & Hrm & Hcm).
  pose proof (setitem_mask_wf _ _ _ _ Hwfh Hwfm Hset) as Hwf'.
  destruct Hshape as [HrB HcB].
  destruct (add2_same_shape data' (ma_data mB)) as (sum' & Hsum' & Hrs & Hcs & Hwfs & Hadd);
    trivial; [split; congruence|].
  rewrite Hsum in Hsum'. injection Hsum' as <-.
  assert (Heta : masked_transposed_flipped sum (ma_mask mh) nodata (v_data ve)).
  { eapply masked_oriented; eauto. intros. now rewrite Hve. }
  assert (Hmax : masked_transposed_flipped (ma_data mh) (ma_mask mh) nodata
                   (v_data vh)).
  { eapply masked_oriented; eauto. intros. now rewrite Hvh. }
  intros i j Hi Hj.
  destruct (Heta i j) as (masked & dsum & Hgm & Hgs & Hget);
    [congruence | congruence |].
  destruct (Hmax i j Hi Hj) as (masked' & depth & Hgm' & Hgd & Hgeth).
  rewrite Hcs, Hc' in Hgm, Hgs.
  rewrite Hgm in Hgm'. injection Hgm' as <-.
  destruct (get2_some (ma_data mB) j (cols2 (ma_data mh) - 1 - i))
    as [topo Hgb]; trivial; try lia.
  exists masked, depth, topo.
  split; [assumption|]. split; [assumption|]. split; [assumption|].
  pose proof (setitem_mask_get _ _ _ _ _ _ _ _ Hset Hgm Hgd) as Hgd'.
  pose proof (Hadd _ _ _ _ Hgd' Hgb) as Hgs'.
  rewrite Hgs in Hgs'. injection Hgs' as ->.
  split.
  - intros ->. exact Hget.
  - intros ->. split; [exact Hget|].
    intros h_max Hlook.
    destruct (negb (str_in "h_max" (default_drop drop_variables)));
      [|discriminate].
    injection Hlook as <-. exact Hgeth.
Qed.
End FGMaxClaims.

(** ** Claims about both backends *)

Section BothBackends.
Context {F : Type} `{Float F}.
Variable w : world F.

Lemma flipud1_descending (y : list F) : ascending y -> descending (flipud1 y).
Proof.
  unfold ascending, descending, flipud1. intros Hasc i a b.
  rewrite !nth_error_rev.
  destruct (Nat.ltb_spec (S i) (length y)) as [Hi|Hi]; [|discriminate].
  destruct (Nat.ltb_spec i (length y)) as [_|]; [|lia].
  intros Ha Hb. apply (Hasc (length y - S (S i))); trivial.
  replace (S (length y - S (S i))) with (length y - S i) by lia.
  assumption.
Qed.

(** C3 (as the code has it). The y coordinate vector of the dataset, for
    both backends, is the solver's y vector reversed once; so when the
    solver's vector is ascending the dataset's is descending:
    [y[i] > y[i+1]] for all [i]. *)
Theorem y_coordinate_reversed_once filename epsg drop_variables tr ds :
  (forall fgout,
      FGOutBackend.open_dataset w filename epsg drop_variables = (tr, Ok ds) ->
      frame_of w filename = Ok fgout ->
      c_values (coord_y ds) = rev (fgout_y fgout) /\
      (ascending (fgout_y fgout) -> descending (c_values (coord_y ds))))
  /\
  (forall fg,
      FGMaxBackend.open_dataset w filename epsg drop_variables = (tr, Ok ds) ->
      grid_of w filename = Ok fg ->
      c_values (coord_y ds) = rev (fg_y fg) /\
      (ascending (fg_y fg) -> descending (c_values (coord_y ds)))).
Proof.
  split.
  - intros fgout Hrun Hframe.
    apply open_dataset_ok in Hrun
      as (fgout' & ds0 & Hframe' & Hbuild & _ & _ & -> & _).
    rewrite Hframe in Hframe'. injection Hframe' as <-.
    unfold FGOutBackend.build in Hbuild.
    do 2 invert_rbind Hbuild. destruct a0. injection Hbuild as <-.
    simpl. split; [reflexivity | apply flipud1_descending].
  - intros fg Hrun Hgrid.
    apply open_dataset_ok_max in Hrun
      as (fg' & ds0 & Hgrid' & Hbuild & _ & _ & -> & _).
    rewrite Hgrid in Hgrid'. injection Hgrid' as <-.
    apply build_ok_max in Hbuild as (dv & _ & -> & _).
    simpl. split; [reflexivity | apply flipud1_descending].
Qed.


(** C9 (as the code has it). The description attribute does not depend
    on the frame: every dataset [FGOutBackend.open_dataset] returns is
    described as "Clawpack model output", whatever the number of
    channels, and every dataset [FGMaxBackend.open_dataset] returns as
    "D-Claw model output". *)
Theorem description_is_constant filename epsg drop_variables tr ds :
  (FGOutBackend.open_dataset w filename epsg drop_variables = (tr, Ok ds) ->
   description ds = Some "Clawpack model output")
  /\
  (FGMaxBackend.open_dataset w filename epsg drop_variables = (tr, Ok ds) ->
   description ds = Some "D-Claw model output").
Proof.
  unfold description. split; intros Hrun.
  - apply open_dataset_ok in Hrun
      as (fgout & ds0 & _ & Hbuild & _ & _ & _ & _ & ->).
    unfold FGOutBackend.build in Hbuild.
    do 2 invert_rbind Hbuild. destruct a0. now injection Hbuild as <-.
  - apply open_dataset_ok_max in Hrun
      as (fg & ds0 & _ & Hbuild & _ & _ & _ & _ & ->).
    apply build_ok_max in Hbuild as (dv & _ & _ & _ & ->). reflexivity.
Qed.
End BothBackends.

(** ** File names *)

Section FileNames.
Lemma all_digits_spec (p : nat -> bool) :
  all_digits p = true -> forall d, d < 10 -> p d = true.
Proof.
  unfold all_digits. rewrite forallb_forall. intros Hall d Hd.
  apply Hall, in_seq. lia.
Qed.

Lemma int_str4 a b c d :
  a < 10 -> b < 10 -> c < 10 -> d < 10 ->
  int (str4 a b c d) = Ok (decimal4 a b c d).
Proof.
  intros Ha Hb Hc Hd.
  assert (Hall : all_digits (fun a => all_digits (fun b =>
                   all_digits (fun c => all_digits (fun d =>
                     int4_agrees a b c d)))) = true)
    by (vm_compute; reflexivity).
  pose proof (all_digits_spec _ Hall a Ha) as H1. cbv beta in H1.
  pose proof (all_digits_spec _ H1 b Hb) as H2. cbv beta in H2.
  pose proof (all_digits_spec _ H2 c Hc) as H3. cbv beta in H3.
  pose proof (all_digits_spec _ H3 d Hd) as H4. cbv beta in H4.
  unfold int4_agrees in H4.
  destruct (int (str4 a b c d)) as [z|e]; [|discriminate].
  apply Z.eqb_eq in H4. now subst.
Qed.

Lemma digit_char_plain d :
  d < 10 ->
  Ascii.eqb (digit_char d) "." = false /\
  Ascii.eqb (digit_char d) "q" = false /\
  Ascii.eqb (digit_char d) "b" = false.
Proof.
  intros Hd. do 10 (destruct d as [|d]; [now vm_compute|]). lia.
Qed.

Lemma split_on_other sep ch s :
  Ascii.eqb ch sep = false ->
  split_on sep (String ch s) =
  match split_on sep s with
  | p :: ps => String ch p :: ps
  | [] => [String ch EmptyString]
  end.
Proof. intros Hne. simpl. now rewrite Hne. Qed.

Lemma split_on_str4 a b c d :
  a < 10 -> b < 10 -> c < 10 -> d < 10 ->
  split_on "." (str4 a b c d) = [str4 a b c d].
Proof.
  intros Ha Hb Hc Hd. unfold str4.
  rewrite !split_on_other by now apply digit_char_plain.
  reflexivity.
Qed.

Lemma split_on_fgout_name n1 n2 n3 n4 c m1 m2 m3 m4 :
  n1 < 10 -> n2 < 10 -> n3 < 10 -> n4 < 10 ->
  m1 < 10 -> m2 < 10 -> m3 < 10 -> m4 < 10 ->
  split_on "." (fgout_name n1 n2 n3 n4 c m1 m2 m3 m4) =
  if Ascii.eqb c "."
  then [("fgout" ++ str4 n1 n2 n3 n4)%string; EmptyString; str4 m1 m2 m3 m4]
  else [("fgout" ++ str4 n1 n2 n3 n4)%string; String c (str4 m1 m2 m3 m4)].
Proof.
  intros. unfold fgout_name.
  assert (Hext : split_on "." (String c (str4 m1 m2 m3 m4)) =
                 if Ascii.eqb c "."
                 then [EmptyString; str4 m1 m2 m3 m4]
                 else [String c (str4 m1 m2 m3 m4)]).
  { cbn [split_on]. rewrite split_on_str4 by assumption.
    now destruct (Ascii.eqb c "."). }
  unfold str4 at 1. cbn [String.append].
  rewrite !split_on_other by (reflexivity || now apply digit_char_plain).
  change (split_on "." (String "." ?s)) with (EmptyString :: split_on "." s).
  cbn [split_on] in Hext |- *. rewrite split_on_str4 in Hext |- * by assumption.
  now destruct (Ascii.eqb c ".").
Qed.

(** C5. [FGOutBackend.open_dataset] reads a base name [fgoutNNNN.cMMMM]
    as grid number [NNNN] and frame number [MMMM], both in decimal, and the
    character [c] after the dot selects the encoding: [q] is text, [b] is
    32-bit binary, and any other character raises the [ValueError] that
    names the invalid format; so for the three names of the
    specification.  When the character is not accepted the solver's tools
    are not called at all, and when it is the grid is loaded under the
    number and encoding read off the name. *)
Theorem filename_parsed n1 n2 n3 n4 c m1 m2 m3 m4 :
  n1 < 10 -> n2 < 10 -> n3 < 10 -> n4 < 10 ->
  m1 < 10 -> m2 < 10 -> m3 < 10 -> m4 < 10 ->
  let name := fgout_name n1 n2 n3 n4 c m1 m2 m3 m4 in
  let fgno := decimal4 n1 n2 n3 n4 in
  let frameno := decimal4 m1 m2 m3 m4 in
  let invalid :=
    ValueError "Invalid FGout output format. Must be ascii or binary." in
  FGOutBackend.parse_filename name =
  (if Ascii.eqb c "q" then Ok (fgno, frameno, ascii_format)
   else if Ascii.eqb c "b" then Ok (fgno, frameno, binary32)
   else Err invalid)
  /\
  FGOutBackend.parse_filename "fgout0007.b0123" = Ok (7%Z, 123%Z, binary32) /\
  FGOutBackend.parse_filename "fgout0007.q0123" = Ok (7%Z, 123%Z, ascii_format) /\
  FGOutBackend.parse_filename "fgout0007.x0123" = Err invalid
  /\
  forall (F : Type) (Fl : Float F) (w : world F) filename epsg drop_variables,
    basename (abspath w filename) = name ->
    (Ascii.eqb c "q" = false -> Ascii.eqb c "b" = false ->
     FGOutBackend.open_dataset w filename epsg drop_variables
     = ([], Err invalid)) /\
    (forall fmt,
        (Ascii.eqb c "q" = true /\ fmt = ascii_format) \/
        (Ascii.eqb c "q" = false /\ Ascii.eqb c "b" = true /\ fmt = binary32) ->
        exists tr r,
          FGOutBackend.open_dataset w filename epsg drop_variables =
          (EvFGoutGrid fgno (basename (dirname (abspath w filename))) fmt
             :: tr, r) /\
          (forall ds, r = Ok ds -> In (EvReadFrame frameno) tr)).
Proof.
  intros Hn1 Hn2 Hn3 Hn4 Hm1 Hm2 Hm3 Hm4 name fgno frameno invalid.
  assert (Hparse :
            FGOutBackend.parse_filename name =
            (if Ascii.eqb c "q" then Ok (fgno, frameno, ascii_format)
             else if Ascii.eqb c "b" then Ok (fgno, frameno, binary32)
             else Err invalid)).
  { unfold FGOutBackend.parse_filename, name.
    rewrite split_on_fgout_name by assumption.
    destruct (Ascii.eqb_spec c ".") as [->|Hdot].
    - cbn [getitem_last rev app rbind str_first getitem_first str4].
      change (str_suffix 4 ("fgout" ++ str4 n1 n2 n3 n4))
        with (str4 n1 n2 n3 n4).
      change (str_suffix 4 (str4 m1 m2 m3 m4)) with (str4 m1 m2 m3 m4).
      fold (str4 m1 m2 m3 m4).
      rewrite !int_str4 by assumption. cbn [rbind].
      destruct (digit_char_plain m1 Hm1) as (_ & -> & ->). reflexivity.
    - cbn [getitem_last rev app rbind str_first getitem_first].
      change (str_suffix 4 ("fgout" ++ str4 n1 n2 n3 n4))
        with (str4 n1 n2 n3 n4).
      change (str_suffix 4 (String c (str4 m1 m2 m3 m4)))
        with (str4 m1 m2 m3 m4).
      rewrite !int_str4 by assumption. reflexivity. }
  split; [exact Hparse|].
  split; [reflexivity|]. split; [reflexivity|]. split; [reflexivity|].
  intros F Fl w filename epsg drop_variables Hbase.
  unfold FGOutBackend.open_dataset. rewrite Hbase, Hparse. split.
  - intros -> ->. reflexivity.
  - intros fmt Hfmt.
    assert (Hsel : (if Ascii.eqb c "q" then Ok (fgno, frameno, ascii_format)
                    else if Ascii.eqb c "b" then Ok (fgno, frameno, binary32)
                    else Err invalid) = Ok (fgno, frameno, fmt)).
    { destruct Hfmt as [[-> ->]|(-> & -> & ->)]; reflexivity. }
    rewrite Hsel. unfold lift, call. cbn [mbind app].
    destruct (FGoutGrid w fgno _ fmt) as [ps|e]; cbn [mbind];
      [|eexists _, _; split; [reflexivity|discriminate]].
    destruct (negb (ps =? 2)%Z);
      [eexists _, _; split; [reflexivity|discriminate]|].
    destruct (read_fgout_grids_data w fgno _ fmt) as [u|e]; cbn [mbind];
      [|eexists _, _; split; [reflexivity|discriminate]].
    destruct (read_frame w fgno _ fmt frameno) as [fgout|e]; cbn [mbind];
      [|eexists _, _; split; [reflexivity|discriminate]].
    destruct (FGOutBackend.build fgout _) as [ds0|e]; cbn [mbind];
      [|eexists _, _; split; [reflexivity|discriminate]].
    destruct (tag_crs w epsg ds0) as [tr' r'].
    eexists _, _. split; [reflexivity|]. intros _ _. simpl. auto.
Qed.
End FileNames.

(** ** The sample run *)

Section SampleRun.
Import Sample.

Lemma ascending_ys : ascending ys.
Proof.
  intros i a b Ha Hb. destruct i as [|[|[|i]]]; simpl in *.
  - injection Ha as <-. injection Hb as <-. reflexivity.
  - injection Ha as <-. injection Hb as <-. reflexivity.
  - discriminate.
  - destruct i; discriminate.
Qed.

Lemma orientation_and_masking_transform_witness :
  (exists data' v,
      _prepare_var (Array2 3 3 (ramp 2)) (Array2 3 3 (true :: repeat false 8))
                   ["y"; "x"] "meters" NaN "Maximum water depth"
      = Ok (data', v) /\
      shape (v_data v) = [3; 3] /\
      masked_transposed_flipped (Array2 3 3 (ramp 2))
        (Array2 3 3 (true :: repeat false 8)) NaN (v_data v))
  /\
  (exists q' dv' v,
      FGOutBackend.channel (dry_mask q_geoclaw) _qelements_geoclaw 3 3 [] 1
                           (q_geoclaw, []) = Ok (q', dv') /\
      dict_get "hu" dv' = Some v /\
      shape (v_data v) = [1; 3; 3] /\
      masked_transposed_flipped (Array2 3 3 (chan_buf q_geoclaw 1))
        (dry_mask q_geoclaw) nodata (v_data v))
  /\
  (exists dv' v,
      FGOutBackend.channel (dry_mask q_dclaw) _qelements_dclaw 3 3 [] 7
                           (q_dclaw, []) = Ok (q_dclaw, dv') /\
      dict_get "eta" dv' = Some v /\
      transposed_flipped (Array2 3 3 (chan_buf q_dclaw 7)) (v_data v)).
Proof.
  split; [|split].
  - apply (proj1 (@orientation_and_masking_transform num num_float));
      [reflexivity | reflexivity | split; reflexivity].
  - destruct (FGOutBackend.channel (dry_mask q_geoclaw) _qelements_geoclaw
                3 3 [] 1 (q_geoclaw, [])) as [[q' dv']|e] eqn:E;
      [|vm_compute in E; discriminate E].
    exists q', dv'.
    destruct (proj1 (proj2 (@orientation_and_masking_transform num
                                                                num_float))
                q_geoclaw (dry_mask q_geoclaw) _qelements_geoclaw [] 1 []
                q' dv' (Array2 3 3 (chan_buf q_geoclaw 1)) "hu")
      as (v & Hv & Hshape & Hcells);
      [reflexivity | reflexivity | lia | reflexivity | reflexivity
       | reflexivity | exact E |].
    exists v. split; [reflexivity|]. repeat split; assumption.
  - destruct (FGOutBackend.channel (dry_mask q_dclaw) _qelements_dclaw
                3 3 [] 7 (q_dclaw, [])) as [[q' dv']|e] eqn:E;
      [|vm_compute in E; discriminate E].
    destruct (proj2 (proj2 (@orientation_and_masking_transform num
                                                                num_float))
                q_dclaw (dry_mask q_dclaw) _qelements_dclaw [] 7 []
                q' dv' (Array2 3 3 (chan_buf q_dclaw 7)) "eta")
      as (Hq & v & Hv & _ & Hcells);
      [reflexivity | lia | reflexivity | reflexivity | reflexivity
       | exact E |].
    exists dv', v. rewrite Hq. split; [reflexivity|].
    split; assumption.
Defined.

Lemma inline_transform_skips_channel_seven :
  (exists q' dv' v,
      FGOutBackend.channel (dry_mask q_dclaw) _qelements_dclaw 3 3 [] 7
                           (q_dclaw, []) = Ok (q', dv') /\
      dict_get "eta" dv' = Some v /\
      get2 (dry_mask q_dclaw) 0 0 = Some true /\
      nd_get (v_data v) 2 0 = Some (Num 80000) /\
      ~ masked_transposed_flipped (Array2 3 3 (chan_buf q_dclaw 7))
          (dry_mask q_dclaw) nodata (v_data v))
  /\
  _prepare_var (Array2 3 3 (ramp 2)) (Array2 2 2 (repeat true 4))
               ["y"; "x"] "meters" NaN "Maximum water depth"
  = Err (IndexError "boolean index did not match indexed array").
Proof.
  split; [|reflexivity].
  eexists _, _, _.
  split; [vm_compute; reflexivity|].
  split; [reflexivity|]. split; [reflexivity|]. split; [reflexivity|].
  intros Hall. destruct (Hall 2 0) as (m & d & Hm & Hd & Hget);
    [simpl; lia | simpl; lia |].
  vm_compute in Hm, Hd, Hget. injection Hm as <-. discriminate Hget.
Qed.

Lemma dry_cells_hold_fill_value_witness :
  exists tr ds v,
    FGOutBackend.open_dataset run dclaw_file None None = (tr, Ok ds) /\
    dict_get "hu" (data_vars ds) = Some v /\
    forall i j, i < 3 -> j < 3 ->
      exists depth val,
        get3 q_dclaw 0 j (3 - 1 - i) = Some depth /\
        get3 q_dclaw 1 j (3 - 1 - i) = Some val /\
        (lt_tol depth = true -> "hu" <> "eta" ->
         nd_get (v_data v) i j = Some nodata) /\
        (lt_tol depth = false -> nd_get (v_data v) i j = Some val) /\
        (8 = 8 -> "hu" = "eta" -> nd_get (v_data v) i j = Some val).
Proof.
  destruct (FGOutBackend.open_dataset run dclaw_file None None)
    as [tr [ds|e]] eqn:E; [|vm_compute in E; discriminate E].
  exists tr, ds.
  destruct (dry_cells_hold_fill_value run dclaw_file None None tr ds
              (frame q_dclaw) E) with (k := 1) (name := "hu")
    as (v & Hv & Hcells);
    [reflexivity | repeat split; reflexivity | vm_compute; lia
     | reflexivity | reflexivity |].
  exists v. split; [reflexivity|]. split; [exact Hv | exact Hcells].
Defined.

Lemma eta_not_masked_with_eight_channels :
  exists tr ds v,
    FGOutBackend.open_dataset run dclaw_file None None = (tr, Ok ds) /\
    dict_get "eta" (data_vars ds) = Some v /\
    get3 q_dclaw 0 0 0 = Some (metres 0) /\
    lt_tol (metres 0) = true /\
    nd_get (v_data v) 2 0 = Some (Num 80000) /\
    Num 80000 <> nodata.
Proof.
  eexists _, _, _.
  split; [vm_compute; reflexivity|].
  split; [vm_compute; reflexivity|].
  split; [reflexivity|]. split; [reflexivity|]. split; [reflexivity|].
  discriminate.
Qed.

Lemma y_coordinate_reversed_once_witness :
  exists tr ds,
    FGOutBackend.open_dataset run geoclaw_file None None = (tr, Ok ds) /\
    c_values (coord_y ds) = rev ys /\
    descending (c_values (coord_y ds)).
Proof.
  destruct (FGOutBackend.open_dataset run geoclaw_file None None)
    as [tr [ds|e]] eqn:E; [|vm_compute in E; discriminate E].
  exists tr, ds. split; [reflexivity|].
  destruct (proj1 (y_coordinate_reversed_once run geoclaw_file None None
                     tr ds) (frame q_geoclaw) E eq_refl) as [Hrev Hdesc].
  split; [exact Hrev | exact (Hdesc ascending_ys)].
Defined.

Lemma y_coordinate_not_ascending :
  exists tr ds,
    FGOutBackend.open_dataset run geoclaw_file None None = (tr, Ok ds) /\
    frame_of run geoclaw_file = Ok (frame q_geoclaw) /\
    ascending (fgout_y (frame q_geoclaw)) /\
    ~ ascending (c_values (coord_y ds)).
Proof.
  eexists _, _.
  split; [vm_compute; reflexivity|]. split; [reflexivity|].
  split; [exact ascending_ys|].
  intros Hasc.
  specialize (Hasc 0 (metres 2) (metres 1) eq_refl eq_refl).
  discriminate Hasc.
Qed.

Lemma schema_follows_channel_count_witness :
  exists ds, FGOutBackend.build (frame q_geoclaw) [] = Ok ds.
Proof.
  apply (proj1 (proj2 (schema_follows_channel_count run geoclaw_file None
                         None (frame q_geoclaw) eq_refl
                         (conj eq_refl (conj eq_refl eq_refl))))).
  right. vm_compute. lia.
Defined.

Lemma three_channels_accepted :
  exists tr ds,
    FGOutBackend.open_dataset run three_file None None = (tr, Ok ds) /\
    frame_of run three_file = Ok (frame q_three) /\
    chans3 (fgout_q (frame q_three)) = 3 /\
    keys (data_vars ds) = ["h"; "hu"; "hv"].
Proof.
  eexists _, _.
  split; [vm_compute; reflexivity|]. repeat split; reflexivity.
Qed.

Lemma filename_parsed_witness :
  FGOutBackend.parse_filename (fgout_name 0 0 0 7 "b" 0 1 2 3) =
  Ok (decimal4 0 0 0 7, decimal4 0 1 2 3, binary32).
Proof.
  apply (proj1 (filename_parsed 0 0 0 7 "b" 0 1 2 3
                  ltac:(lia) ltac:(lia) ltac:(lia) ltac:(lia)
                  ltac:(lia) ltac:(lia) ltac:(lia) ltac:(lia))).
Defined.

Lemma eta_max_is_depth_plus_topography_witness :
  exists tr ds eta_max,
    FGMaxBackend.open_dataset run fgmax_file None None = (tr, Ok ds) /\
    dict_get "eta_max" (data_vars ds) = Some eta_max /\
    nd_get (v_data eta_max) 0 0 = Some (Num 10004) /\
    nd_get (v_data eta_max) 2 0 = Some nodata.
Proof.
  destruct (FGMaxBackend.open_dataset run fgmax_file None None)
    as [tr [ds|e]] eqn:E; [|vm_compute in E; discriminate E].
  exists tr, ds.
  destruct (eta_max_is_depth_plus_topography run fgmax_file None None tr ds
              fgmax_grid (masked_field (metres 0) 2 true)
              (masked_field (metres 9) (-1) false) E)
    as (eta_max & Hlook & Hcells);
    [reflexivity | reflexivity | reflexivity | reflexivity | reflexivity
     | reflexivity | split; reflexivity | reflexivity |].
  exists eta_max. split; [reflexivity|]. split; [exact Hlook|].
  split.
  - destruct (Hcells 0 0) as (m & d & t & Hm & Hd & Ht & _ & Hwet);
      [simpl; lia | simpl; lia |].
    injection Hm as <-. injection Hd as <-. injection Ht as <-.
    exact (proj1 (Hwet eq_refl)).
  - destruct (Hcells 2 0) as (m & d & t & Hm & _ & _ & Hdry & _);
      [simpl; lia | simpl; lia |].
    injection Hm as <-. exact (Hdry eq_refl).
Defined.



Lemma description_is_constant_witness :
  exists tr ds,
    FGOutBackend.open_dataset run dclaw_file None None = (tr, Ok ds) /\
    description ds = Some "Clawpack model output".
Proof.
  destruct (FGOutBackend.open_dataset run dclaw_file None None)
    as [tr [ds|e]] eqn:E; [|vm_compute in E; discriminate E].
  exists tr, ds. split; [reflexivity|].
  exact (proj1 (description_is_constant run dclaw_file None None tr ds) E).
Defined.

Lemma one_description_for_both_schemas :
  exists tr4 ds4 tr8 ds8,
    FGOutBackend.open_dataset run geoclaw_file None None = (tr4, Ok ds4) /\
    keys (data_vars ds4) = _qelements_geoclaw /\
    FGOutBackend.open_dataset run dclaw_file None None = (tr8, Ok ds8) /\
    keys (data_vars ds8) = _qelements_dclaw /\
    description ds4 = description ds8.
Proof.
  eexists _, _, _, _.
  split; [vm_compute; reflexivity|]. split; [reflexivity|].
  split; [vm_compute; reflexivity|]. split; reflexivity.
Qed.

End SampleRun.


(** * Further properties of the module *)

(** ** [_prepare_var] *)

Section PrepareVar.
Context {F : Type} `{Float F}.

Lemma mask_twice (fill : F) (mb : list bool) (db : list F) :
  map (fun mv : bool * F => if fst mv then fill else snd mv)
      (combine mb (map (fun mv : bool * F => if fst mv then fill else snd mv)
                       (combine mb db))) =
  map (fun mv : bool * F => if fst mv then fill else snd mv) (combine mb db).
Proof.
  revert db. induction mb as [|m mb IH]; intros [|d db]; simpl; trivial.
  rewrite IH. now destruct m.
Qed.

Lemma prepare_var_runs (data : array2 F) mask dims units fill long_name :
  same_shape mask data ->
  exists data' v,
    _prepare_var data mask dims units fill long_name = Ok (data', v).
Proof.
  unfold _prepare_var, setitem_mask, same_shape.
  intros [-> ->]. rewrite !Nat.eqb_refl. simpl. eauto.
Qed.

(** X1. What [_prepare_var] does to the array it is given: [data[mask] =
    nodata] writes into the caller's array, which keeps its shape and is
    neither transposed nor flipped; its masked cells hold the fill value
    afterwards and the others their own value.  The mapping carries the
    dimension names and the three attributes as passed. *)
Theorem prepare_var_writes_callers_array (data : array2 F) mask dims units
        fill long_name data' v :
  wf2 data -> wf2 mask ->
  _prepare_var data mask dims units fill long_name = Ok (data', v) ->
  rows2 data' = rows2 data /\ cols2 data' = cols2 data /\
  (forall i j, i < rows2 data -> j < cols2 data ->
     exists m d,
       get2 mask i j = Some m /\ get2 data i j = Some d /\
       get2 data' i j = Some (if m then fill else d)) /\
  v_dims v = dims /\
  v_attrs v = [("units", AStr units); ("_FillValue", ANum fill);
               ("long_name", AStr long_name)].
Proof.
  intros Hd Hm Hrun.
  assert (Hmeta : v_dims v = dims /\
                  v_attrs v = [("units", AStr units); ("_FillValue", ANum fill);
                               ("long_name", AStr long_name)]).
  { unfold _prepare_var in Hrun. invert_rbind Hrun.
    now injection Hrun as _ <-. }
  apply prepare_var_ok in Hrun as [Hset _].
  pose proof (setitem_mask_shape _ _ _ _ Hset) as (Hr' & Hc' & Hr & Hc).
  split; [assumption|]. split; [assumption|]. split; [|assumption].
  intros i j Hi Hj.
  destruct (get2_some mask i j) as [m Hgm]; trivial; try lia.
  destruct (get2_some data i j) as [d Hgd]; trivial.
  exists m, d. split; [assumption|]. split; [assumption|].
  now apply (setitem_mask_get _ _ _ _ _ _ _ _ Hset).
Qed.

(** X2. [_prepare_var] and the shape of the mask: with a mask of the
    shape of the data it returns a mapping; with a mask one of whose axes
    has a length that is neither 0 nor the length of that axis of the data
    it raises the [IndexError] of the boolean index and returns nothing.
    (An axis of the mask of length 0 is the one numpy does not compare.) *)
Theorem prepare_var_needs_matching_mask (data : array2 F) mask dims units
        fill long_name :
  (same_shape mask data ->
   exists data' v,
     _prepare_var data mask dims units fill long_name = Ok (data', v)) /\
  ((rows2 mask <> 0 /\ rows2 mask <> rows2 data) \/
   (cols2 mask <> 0 /\ cols2 mask <> cols2 data) ->
   _prepare_var data mask dims units fill long_name =
   Err (IndexError "boolean index did not match indexed array")).
Proof.
  split; [apply prepare_var_runs|].
  unfold _prepare_var, setitem_mask. intros Hne.
  destruct (Nat.eqb_spec (rows2 mask) (rows2 data)) as [Hr|Hr];
    destruct (Nat.eqb_spec (cols2 mask) (cols2 data)) as [Hc|Hc];
    simpl; trivial.
  exfalso. destruct Hne as [[_ Hne]|[_ Hne]]; contradiction.
Qed.

(** X3. Applying the transform a second time does not undo it.  Given the
    array of the first mapping and a mask that selects nothing,
    [_prepare_var] returns the first call's masked field turned by half a
    turn: cell [(i, j)] holds what cell [(r - 1 - i, c - 1 - j)] held. *)
Theorem prepare_var_twice_is_half_turn (data : array2 F) mask dims units fill
        long_name data' v :
  wf2 data -> wf2 mask ->
  _prepare_var data mask dims units fill long_name = Ok (data', v) ->
  let once := flipud (transpose data') in
  v_data v = as_ndarray once /\
  exists once' v2,
    _prepare_var once (no_mask once) dims units fill long_name
    = Ok (once', v2) /\
    shape (v_data v2) = [rows2 data; cols2 data] /\
    forall i j, i < rows2 data -> j < cols2 data ->
      nd_get (v_data v2) i j =
      get2 data' (rows2 data - 1 - i) (cols2 data - 1 - j) /\
      nd_get (v_data v2) i j <> None.
Proof.
  intros Hd Hm Hrun once.
  apply prepare_var_ok in Hrun as [Hset Hv].
  pose proof (setitem_mask_shape _ _ _ _ Hset) as (Hr' & Hc' & Hr & Hc).
  pose proof (setitem_mask_wf _ _ _ _ Hd Hm Hset) as Hwf'.
  assert (Hwf1 : wf2 once) by (apply flipud_wf, transpose_wf, Hwf').
  assert (Hr1 : rows2 once = cols2 data) by (simpl; assumption).
  assert (Hc1 : cols2 once = rows2 data) by (simpl; assumption).
  assert (Hwfn : wf2 (no_mask once))
    by (unfold wf2, no_mask; simpl; apply repeat_length).
  split; [exact Hv|].
  destruct (prepare_var_runs once (no_mask once) dims units fill long_name)
    as (once' & v2 & Hrun2); [split; reflexivity|].
  exists once', v2. split; [exact Hrun2|].
  apply prepare_var_ok in Hrun2 as [Hset2 Hv2].
  pose proof (setitem_mask_shape _ _ _ _ Hset2) as (Hr2 & Hc2 & _).
  split.
  - rewrite Hv2. unfold as_ndarray. simpl. now rewrite Hc2, Hr2, Hc1, Hr1.
  - intros i j Hi Hj.
    assert (Hcells : masked_transposed_flipped once (no_mask once) fill
                       (v_data v2)).
    { eapply masked_oriented; eauto. intros. now rewrite Hv2. }
    destruct (Hcells i j) as (m & d & Hgm & Hgd & Hget); try lia.
    assert (m = false) as ->.
    { revert Hgm. unfold get2, no_mask. simpl.
      destruct (_ && _); [|discriminate].
      intros Hnth. apply nth_error_In, repeat_spec in Hnth. congruence. }
    rewrite Hget. split; [|discriminate].
    rewrite Hc1 in Hgd. rewrite <- Hgd. unfold once.
    rewrite orient_get by (trivial; lia). now rewrite Hc'.
Qed.

(** X4. Masking in place is idempotent: called again with the array it has
    already written into and the same mask, [_prepare_var] returns the same
    array and the same mapping. *)
Theorem prepare_var_again_is_the_same (data : array2 F) mask dims units fill
        long_name data' v :
  _prepare_var data mask dims units fill long_name = Ok (data', v) ->
  _prepare_var data' mask dims units fill long_name = Ok (data', v).
Proof.
  unfold _prepare_var, setitem_mask. intros Hrun.
  destruct (_ && _) eqn:Hshape; [|discriminate]. cbn [rbind] in Hrun.
  injection Hrun as <- <-. cbn [rows2 cols2 buf2].
  rewrite Hshape. cbn [rbind]. now rewrite mask_twice.
Qed.
End PrepareVar.

(** ** The variables and labels of [FGOutBackend.open_dataset] *)

Section FGOutLayout.
Context {F : Type} `{Float F}.

Lemma out_step_found (q : array3 F) ni nj _qelements drop_variables k name v :
  dict_get name
    (fold_left (out_step q ni nj _qelements drop_variables) (seq 0 k) [])
  = Some v ->
  exists i,
    i < k /\ nth_error _qelements i = Some name /\
    str_in name drop_variables = false /\ v = out_var q ni nj name i.
Proof.
  induction k as [|k IH]; [discriminate|].
  rewrite seq_S, fold_left_app. cbn [fold_left Nat.add].
  unfold out_step at 1.
  assert (Hold :
            dict_get name
              (fold_left (out_step q ni nj _qelements drop_variables)
                         (seq 0 k) []) = Some v ->
            exists i,
              i < S k /\ nth_error _qelements i = Some name /\
              str_in name drop_variables = false /\ v = out_var q ni nj name i).
  { intros Hget. destruct (IH Hget) as (i & Hi & Hrest). exists i.
    split; [lia | exact Hrest]. }
  destruct (nth_error _qelements k) as [name'|] eqn:Hname'; trivial.
  destruct (str_in name' drop_variables) eqn:Hdrop; trivial.
  destruct (String.eqb_spec name name') as [->|Hne].
  - rewrite dict_get_set_same. intros [= <-]. exists k. auto.
  - now rewrite dict_get_set_other.
Qed.

Lemma out_var_buffer_length (q : array3 F) ni nj name i :
  wf3 q -> i < chans3 q ->
  length (nd_buf (v_data (out_var q ni nj name i))) = rows3 q * cols3 q.
Proof.
  intros Hwf Hi. simpl.
  set (a := Array2 (rows3 q) (cols3 q) (out_buf q i)).
  assert (Hwfa : wf2 a).
  { unfold wf2, a. simpl. apply out_buf_length; trivial. lia. }
  pose proof (flipud_wf _ (transpose_wf _ Hwfa)) as Hlen.
  unfold wf2 in Hlen. simpl in Hlen. fold a in Hlen. simpl. lia.
Qed.

Variable w : world F.

(** X5. Every variable of a dataset returned by
    [FGOutBackend.open_dataset] is named by the list the channel count
    selects and is not on the drop list; it has the dimensions
    [(time, y, x)], the shape [(1, len(y), len(x))] with a buffer of that
    size, the units the table [_qunits] gives for its name, and the fill
    value as [_FillValue]. *)
Theorem fgout_variables_layout filename epsg drop_variables tr ds fgout :
  FGOutBackend.open_dataset w filename epsg drop_variables = (tr, Ok ds) ->
  frame_of w filename = Ok fgout ->
  wf3 (fgout_q fgout) ->
  forall name v,
    dict_get name (data_vars ds) = Some v ->
    In name (names_of (fgout_q fgout)) /\
    str_in name (default_drop drop_variables) = false /\
    v_dims v = ["time"; "y"; "x"] /\
    shape (v_data v) = [1; length (fgout_y fgout); length (fgout_x fgout)] /\
    length (nd_buf (v_data v)) =
      length (fgout_y fgout) * length (fgout_x fgout) /\
    exists units,
      dict_get name _qunits = Some units /\
      v_attrs v = [("units", AStr units); ("_FillValue", ANum nodata)].
Proof.
  intros Hrun Hframe Hwf name v Hget.
  apply open_dataset_ok in Hrun as (fgout' & ds0 & Hframe' & Hbuild & Hdv & _).
  rewrite Hframe in Hframe'. injection Hframe' as <-.
  apply build_ok in Hbuild as (H0 & Hsize & Hle & Hdv0 & _); trivial.
  rewrite Hdv, Hdv0 in Hget.
  apply out_step_found in Hget as (i & Hi & Hname & Hdrop & ->).
  unfold flipud1 in *. rewrite length_rev in *.
  split; [eapply nth_error_In; eassumption|].
  split; [assumption|]. split; [reflexivity|]. split; [reflexivity|].
  split; [rewrite out_var_buffer_length by assumption; exact Hsize|].
  destruct (names_have_units (fgout_q fgout) i) as (name' & Hname' & Hunits);
    [lia|].
  rewrite Hname in Hname'. injection Hname' as <-.
  destruct (dict_get name _qunits) as [units|] eqn:Hu; [|contradiction].
  exists units. split; [reflexivity|].
  unfold out_var. cbn [v_attrs]. now rewrite Hu.
Qed.

(** X6. Labels stay with their values.  In a dataset returned by
    [FGOutBackend.open_dataset] the time coordinate is the frame's time
    alone, the x coordinate is the frame's x vector, and row [i] of the y
    coordinate is entry [ny - 1 - i] of the frame's y vector; cell [(i, j)]
    of every variable holds either the fill value or the value the frame
    has for that channel at x index [j] and y index [ny - 1 - i], that is
    at the very point the two labels of the cell name. *)
Theorem fgout_labels_stay_with_values filename epsg drop_variables tr ds
        fgout :
  FGOutBackend.open_dataset w filename epsg drop_variables = (tr, Ok ds) ->
  frame_of w filename = Ok fgout ->
  wf_frame fgout ->
  let q := fgout_q fgout in
  c_values (coord_x ds) = fgout_x fgout /\
  option_map (fun c => c_values c) (coord_time ds) = Some [fgout_t fgout] /\
  forall k name v i j,
    nth_error (names_of q) k = Some name -> k < chans3 q ->
    dict_get name (data_vars ds) = Some v ->
    i < cols3 q -> j < rows3 q ->
    exists ylabel xlabel val,
      nth_error (c_values (coord_y ds)) i = Some ylabel /\
      nth_error (fgout_y fgout) (cols3 q - 1 - i) = Some ylabel /\
      nth_error (c_values (coord_x ds)) j = Some xlabel /\
      nth_error (fgout_x fgout) j = Some xlabel /\
      get3 q k j (cols3 q - 1 - i) = Some val /\
      (nd_get (v_data v) i j = Some val \/
       nd_get (v_data v) i j = Some nodata).
Proof.
  intros Hrun Hframe (Hwf & Hx & Hy) q.
  apply open_dataset_ok in Hrun
    as (fgout' & ds0 & Hframe' & Hbuild & Hdv & Hcx & Hcy & Hct & _).
  rewrite Hframe in Hframe'. injection Hframe' as <-.
  assert (Hcoords : coord_time ds0 =
                    Some (Coord ["time"] [fgout_t fgout] [("units", "seconds")])).
  { unfold FGOutBackend.build in Hbuild. do 2 invert_rbind Hbuild.
    destruct a0. now injection Hbuild as <-. }
  apply build_ok in Hbuild as (H0 & Hsize & Hle & Hdv0 & Hy0 & Hx0 & _);
    trivial.
  rewrite Hcx, Hx0, Hct, Hcoords, Hcy, Hy0, Hdv, Hdv0.
  split; [reflexivity|]. split; [reflexivity|].
  intros k name v i j Hname Hk Hget Hi Hj. fold q in Hget.
  apply out_step_found in Hget as (k' & Hk' & Hname' & Hdrop & ->).
  assert (k' = k) as ->.
  { apply (proj1 (NoDup_nth_error _) (names_of_NoDup q)); [|congruence].
    apply nth_error_Some. congruence. }
  unfold flipud1. rewrite length_rev, Hx, Hy. fold q.
  destruct (out_var_get q name k i j Hwf Hk Hi Hj)
    as (depth & val & _ & Hval & Hcell).
  destruct (nth_error (fgout_y fgout) (cols3 q - 1 - i)) as [ylabel|] eqn:Hyl;
    [|apply nth_error_None in Hyl; fold q in Hy; lia].
  destruct (nth_error (fgout_x fgout) j) as [xlabel|] eqn:Hxl;
    [|apply nth_error_None in Hxl; fold q in Hx; lia].
  exists ylabel, xlabel, val. simpl c_values.
  split.
  { rewrite nth_error_rev. fold q in Hy. rewrite Hy.
    apply Nat.ltb_lt in Hi as Hi'. rewrite Hi'.
    replace (cols3 q - S i) with (cols3 q - 1 - i) by lia. exact Hyl. }
  split; [reflexivity|]. split; [exact Hxl|]. split; [reflexivity|].
  split; [exact Hval|].
  rewrite Hcell. destruct ((k <? 7) && lt_tol depth); auto.
Qed.

(** X7. When [FGOutBackend.open_dataset] can assemble a frame: the number
    of channels is 8 or between 1 and 4, and one channel has as many cells
    as [len(y) * len(x)].  Only the product is compared (by [reshape]), so
    a frame whose two axes have the lengths of x and y the other way round
    is assembled as well. *)
Theorem fgout_build_goes_through_iff (fgout : FGoutFrame F) drop_variables :
  wf3 (fgout_q fgout) ->
  let q := fgout_q fgout in
  (exists ds, FGOutBackend.build fgout drop_variables = Ok ds) <->
  (chans3 q = 8 \/ 1 <= chans3 q <= 4) /\
  rows3 q * cols3 q = length (fgout_y fgout) * length (fgout_x fgout).
Proof.
  intros Hwf q. split.
  - intros [ds Hbuild].
    apply build_ok in Hbuild as (H0 & Hsize & Hle & _); trivial.
    fold q in H0, Hsize, Hle. unfold flipud1 in Hsize.
    rewrite length_rev in Hsize. split; [|exact Hsize].
    unfold names_of in Hle.
    destruct (Nat.eqb_spec (chans3 q) 8); simpl in Hle; lia.
  - intros [Hcount Hsize]. unfold FGOutBackend.build, slice3. cbv zeta.
    fold q.
    assert (H0 : (0 <? chans3 q) = true) by (apply Nat.ltb_lt; lia).
    rewrite H0. cbn [rbind].
    change (lt_scalar _) with (dry_mask q). fold (names_of q). unfold range.
    assert (Hloop :
              exists st,
                for_each (seq 0 (chans3 q))
                  (FGOutBackend.channel (dry_mask q) (names_of q)
                     (length (flipud1 (fgout_y fgout)))
                     (length (fgout_x fgout)) drop_variables)
                  (q, []) = Ok st).
    { apply channel_loop_runs; trivial.
      - unfold flipud1. now rewrite length_rev.
      - now apply store_after_start.
      - intros i Hi. apply names_have_units. unfold names_of.
        destruct (Nat.eqb_spec (chans3 q) 8); simpl; lia. }
    destruct Hloop as [[q' dv] Hloop].
    rewrite Hloop. cbn [rbind]. eauto.
Qed.
End FGOutLayout.

(** ** The channel loop on a buffer it has already written *)

Section LoopAgain.
Context {F : Type} `{Float F}.

Lemma array3_ext (a b : array3 F) :
  wf3 a -> wf3 b ->
  chans3 b = chans3 a -> rows3 b = rows3 a -> cols3 b = cols3 a ->
  (forall i, i < chans3 a -> chan_buf b i = chan_buf a i) ->
  b = a.
Proof.
  intros Ha Hb Hn Hr Hc Hbufs.
  assert (Hbuf : buf3 b = buf3 a).
  { apply nth_error_ext. intros p.
    set (n := rows3 a * cols3 a).
    destruct (Nat.lt_ge_cases p (chans3 a * n)) as [Hp|Hp].
    - assert (Hn0 : n <> 0) by lia.
      pose proof (Nat.div_mod_eq p n) as Hdiv.
      pose proof (Nat.mod_upper_bound p n Hn0) as Hmod.
      assert (Hi : p / n < chans3 a) by (apply Nat.Div0.div_lt_upper_bound; lia).
      pose proof (f_equal (fun l => nth_error l (p mod n)) (Hbufs _ Hi)) as E.
      cbv beta in E. rewrite !chan_buf_nth, Hr, Hc in E. fold n in E.
      apply Nat.ltb_lt in Hmod. rewrite Hmod in E.
      replace (p / n * n + p mod n) with p in E by lia. exact E.
    - unfold wf3 in Ha, Hb. rewrite Hn, Hr, Hc in Hb. fold n in Ha, Hb.
      transitivity (@None F); [|symmetry]; apply nth_error_None; lia. }
  destruct a, b. simpl in *. now subst.
Qed.

Lemma mask_of_masked_depth (c : list F) :
  lt_tol nodata = false ->
  map lt_tol
      (map (fun mv : bool * F => if fst mv then nodata else snd mv)
           (combine (map lt_tol c) c)) = repeat false (length c).
Proof.
  intros Hnan. induction c as [|d c IH]; simpl; trivial.
  rewrite IH. f_equal. destruct (lt_tol d) eqn:Hd; assumption.
Qed.

Lemma mask_nothing (l : list F) :
  map (fun mv : bool * F => if fst mv then nodata else snd mv)
      (combine (repeat false (length l)) l) = l.
Proof. induction l as [|d l IH]; simpl; [|rewrite IH]; reflexivity. Qed.

Lemma fold_left_ext_in {A B} (f g : A -> B -> A) l a :
  (forall a i, In i l -> f a i = g a i) ->
  fold_left f l a = fold_left g l a.
Proof.
  revert a. induction l as [|i l IH]; intros a Hfg; simpl; trivial.
  rewrite Hfg by now left. apply IH. intros; apply Hfg; now right.
Qed.

Lemma loop_names_have_units mask _qelements ni nj drop_variables len :
  forall k (st st' : array3 F * dict (variable F)),
    for_each (seq k len)
             (FGOutBackend.channel mask _qelements ni nj drop_variables) st
    = Ok st' ->
    forall i, k <= i < k + len ->
      exists name, nth_error _qelements i = Some name /\
                   dict_get name _qunits <> None.
Proof.
  induction len as [|len IH]; intros k st st' Hrun i Hi; [lia|].
  cbn [seq for_each] in Hrun. invert_rbind Hrun.
  destruct (Nat.eq_dec i k) as [->|Hne].
  - clear Hrun IH. unfold FGOutBackend.channel in Hstep.
    destruct st as [q dv]. cbn beta iota in Hstep.
    do 2 invert_rbind Hstep. destruct a1 as [q1 Q1]. cbn beta iota in Hstep.
    invert_rbind Hstep. unfold getitem, getitem_key in Hstep.
    destruct (nth_error _qelements k) as [name|]; [|discriminate].
    cbn [rbind] in Hstep. exists name. split; [reflexivity|].
    destruct (dict_get name _qunits); discriminate.
  - eapply IH; [eassumption|lia].
Qed.

(** X8. The loop settles.  Provided the fill value is not below the dry
    tolerance (a NaN compares false), running the channel loop a second
    time, on the buffer the first run has written into and with the mask
    recomputed from it, assembles the same variables and leaves the buffer
    as it is. *)
Theorem fgout_loop_settles (q0 : array3 F) _qelements ni nj drop_variables
        q' data_vars :
  wf3 q0 -> lt_tol nodata = false ->
  for_each (range (chans3 q0))
           (FGOutBackend.channel (dry_mask q0) _qelements ni nj drop_variables)
           (q0, []) = Ok (q', data_vars) ->
  for_each (range (chans3 q'))
           (FGOutBackend.channel (dry_mask q') _qelements ni nj drop_variables)
           (q', []) = Ok (q', data_vars).
Proof.
  intros Hwf Hnan Hrun. unfold range in *.
  pose proof (loop_names_have_units _ _ _ _ _ _ _ _ _ Hrun) as Hunits.
  apply channel_loop in Hrun
    as ((Hn & Hr & Hc & Hwf' & Hbuf) & Hsize & _ & ->);
    trivial; [|now apply store_after_start].
  simpl in Hbuf. rewrite Hn.
  destruct (Nat.eq_dec (chans3 q0) 0) as [E0|E0].
  { rewrite E0. reflexivity. }
  assert (Hsz : rows3 q0 * cols3 q0 = ni * nj) by (apply Hsize; lia).
  assert (Hsame : forall i, i < chans3 q0 ->
                    out_buf q' i = chan_buf q' i /\
                    out_buf q' i = out_buf q0 i).
  { intros i Hi.
    assert (Hi' : (i <? chans3 q0) = true) by now apply Nat.ltb_lt.
    assert (Hown : out_buf q' i = chan_buf q' i).
    { unfold out_buf at 1. destruct (i <? 7); trivial.
      unfold dry_mask, lt_scalar. cbn [buf2].
      rewrite (Hbuf 0).
      assert (H0 : (0 <? chans3 q0) = true) by (apply Nat.ltb_lt; lia).
      rewrite H0. unfold out_buf at 1. cbn [Nat.ltb Nat.leb].
      unfold dry_mask, lt_scalar. cbn [buf2].
      rewrite mask_of_masked_depth by assumption.
      replace (length (chan_buf q0 0)) with (length (chan_buf q' i));
        [apply mask_nothing|].
      rewrite !chan_buf_length by (trivial; lia). now rewrite Hr, Hc. }
    split; [exact Hown|]. rewrite Hown, Hbuf, Hi'. reflexivity. }
  assert (Hloop :
            exists st,
              for_each (seq 0 (chans3 q0))
                (FGOutBackend.channel (dry_mask q') _qelements ni nj
                   drop_variables) (q', []) = Ok st).
  { rewrite <- Hn. apply channel_loop_runs; trivial; try lia.
    - now apply store_after_start.
    - intros i Hi. apply Hunits. lia. }
  destruct Hloop as [[q'' dv''] Hloop]. rewrite Hloop.
  rewrite <- Hn in Hloop.
  apply channel_loop in Hloop
    as ((Hn2 & Hr2 & Hc2 & Hwf2 & Hbuf2) & _ & _ & ->);
    trivial; [|now apply store_after_start].
  simpl in Hbuf2. f_equal. f_equal.
  - apply array3_ext; trivial. intros i Hi. rewrite Hbuf2.
    rewrite Hn in Hi |- *. apply Nat.ltb_lt in Hi as Hi'. rewrite Hi'.
    now apply Hsame.
  - rewrite Hn. apply fold_left_ext_in. intros a i Hi. apply in_seq in Hi.
    unfold out_step.
    destruct (nth_error _qelements i) as [name|]; trivial.
    destruct (str_in name drop_variables); trivial.
    f_equal. unfold out_var. rewrite Hr, Hc.
    now rewrite (proj2 (Hsame i ltac:(lia))).
Qed.
End LoopAgain.

(** ** The calls into the solver's tools *)

Section Calls.
Context {F : Type} `{Float F}.
Variable w : world F.

(** X9. Both readers call the solver's tools in one fixed order and each at
    most once: the calls made are always an initial part of (load the grid,
    read its data, read the frame) for fgout and of (read the grid data,
    read the output) for fgmax, followed by the three calls of the
    reference-system chain when an EPSG code was given; a dataset is
    returned only when every one of them was made. *)
Theorem tools_called_in_order filename epsg drop_variables :
  (exists fgno frameno fmt rest,
      [EvFGoutGrid fgno (basename (dirname (abspath w filename))) fmt;
       EvReadFgoutGridsData; EvReadFrame frameno] ++ crs_events epsg
      = fst (FGOutBackend.open_dataset w filename epsg drop_variables) ++ rest
      /\
      forall ds,
        snd (FGOutBackend.open_dataset w filename epsg drop_variables) = Ok ds ->
        rest = [])
  /\
  (exists fgno rest,
      [EvReadFgmaxGridsData fgno; EvReadOutput] ++ crs_events epsg
      = fst (FGMaxBackend.open_dataset w filename epsg drop_variables) ++ rest
      /\
      forall ds,
        snd (FGMaxBackend.open_dataset w filename epsg drop_variables) = Ok ds ->
        rest = []).
Proof.
  assert (Htag : forall ds0 : Dataset F,
             exists rest,
               crs_events epsg = fst (tag_crs w epsg ds0) ++ rest /\
               forall ds, snd (tag_crs w epsg ds0) = Ok ds -> rest = []).
  { intros ds0. unfold tag_crs, crs_events, call, mret.
    destruct epsg as [code|]; cbn [mbind]; [|exists []; simpl; auto].
    destruct (write_crs w code);
      [|eexists; split; [reflexivity|discriminate]].
    destruct (set_spatial_dims w);
      [|eexists; split; [reflexivity|discriminate]].
    destruct (write_coordinate_system w code _ _) as [[x_attrs y_attrs]|e];
      [|eexists; split; [reflexivity|discriminate]].
    exists []. simpl. auto. }
  split.
  - unfold FGOutBackend.open_dataset, lift, call, raise.
    destruct (FGOutBackend.parse_filename _) as [[[fgno frameno] fmt]|e];
      cbn [mbind];
      [|exists 0%Z, 0%Z, ascii_format; eexists; split;
        [reflexivity|discriminate]].
    exists fgno, frameno, fmt.
    destruct (FGoutGrid w fgno _ fmt) as [ps|e]; cbn [mbind];
      [|eexists; split; [reflexivity|discriminate]].
    destruct (negb (ps =? 2)%Z);
      [eexists; split; [reflexivity|discriminate]|].
    destruct (read_fgout_grids_data w fgno _ fmt) as [u|e]; cbn [mbind];
      [|eexists; split; [reflexivity|discriminate]].
    destruct (read_frame w fgno _ fmt frameno) as [fgout|e]; cbn [mbind];
      [|eexists; split; [reflexivity|discriminate]].
    destruct (FGOutBackend.build fgout _) as [ds0|e]; cbn [mbind];
      [|eexists; split; [reflexivity|discriminate]].
    destruct (Htag ds0) as (rest & Hrest & Hdone).
    destruct (tag_crs w epsg ds0) as [tr' r']. exists rest.
    simpl in *. split; [now rewrite Hrest | exact Hdone].
  - unfold FGMaxBackend.open_dataset, lift, call, raise.
    destruct (getitem_first _) as [stem|e]; cbn [mbind];
      [|exists 0%Z; eexists; split; [reflexivity|discriminate]].
    destruct (int _) as [fgno|e]; cbn [mbind];
      [|exists 0%Z; eexists; split; [reflexivity|discriminate]].
    exists fgno.
    destruct (read_fgmax_grids_data w fgno) as [ps|e]; cbn [mbind];
      [|eexists; split; [reflexivity|discriminate]].
    destruct (negb (ps =? 2)%Z);
      [eexists; split; [reflexivity|discriminate]|].
    destruct (read_output w fgno) as [fg|e]; cbn [mbind];
      [|eexists; split; [reflexivity|discriminate]].
    destruct (FGMaxBackend.build fg _) as [ds0|e]; cbn [mbind];
      [|eexists; split; [reflexivity|discriminate]].
    destruct (Htag ds0) as (rest & Hrest & Hdone).
    destruct (tag_crs w epsg ds0) as [tr' r']. exists rest.
    simpl in *. split; [now rewrite Hrest | exact Hdone].
Qed.



End Calls.

(** ** The variables of [FGMaxBackend.open_dataset] *)

Section FGMaxCollect.
Context {F : Type} `{Float F}.

Lemma dict_mem_set {B} (d : dict B) k v n :
  dict_mem n (dict_set d k v) = if String.eqb n k then true else dict_mem n d.
Proof.
  unfold dict_mem. destruct (String.eqb_spec n k) as [->|Hne].
  - now rewrite dict_get_set_same.
  - now rewrite dict_get_set_other.
Qed.

Lemma keys_filter {B} (d : dict B) (p : string -> bool) :
  keys (filter (fun kv => p (fst kv)) d) = filter p (keys d).
Proof.
  unfold keys. induction d as [|[k v] d IH]; simpl; trivial.
  destruct (p k); simpl; now rewrite IH.
Qed.

Lemma fgmax_fields_key_unique name name' key :
  In (name, key) fgmax_fields -> In (name', key) fgmax_fields -> name = name'.
Proof.
  unfold fgmax_fields. simpl. intros Hin Hin'.
  repeat (destruct Hin as [Hin|Hin]; [injection Hin as <- <-|]);
    try contradiction;
    repeat (destruct Hin' as [Hin'|Hin'];
            [first [injection Hin' as <-; reflexivity | discriminate Hin']|]);
    contradiction.
Qed.

Lemma fgmax_fields_name_unique name key key' :
  In (name, key) fgmax_fields -> In (name, key') fgmax_fields -> key = key'.
Proof.
  unfold fgmax_fields. simpl. intros Hin Hin'.
  repeat (destruct Hin as [Hin|Hin]; [injection Hin as <- <-|]);
    try contradiction;
    repeat (destruct Hin' as [Hin'|Hin'];
            [first [injection Hin' as <-; reflexivity | discriminate Hin']|]);
    contradiction.
Qed.

Lemma fgmax_fields_not_eta name key :
  In (name, key) fgmax_fields -> key <> "eta_max".
Proof.
  unfold fgmax_fields. simpl. intros Hin.
  repeat (destruct Hin as [Hin|Hin]; [injection Hin as <- <-; discriminate|]).
  contradiction.
Qed.

Lemma prepare_var_meta (data : array2 F) mask dims units fill long_name
      data' v :
  _prepare_var data mask dims units fill long_name = Ok (data', v) ->
  v_dims v = dims /\ dict_get "_FillValue" (v_attrs v) = Some (ANum fill).
Proof.
  unfold _prepare_var. intros Hrun. invert_rbind Hrun.
  now injection Hrun as _ <-.
Qed.

Lemma getattr_hasattr (fg : FGmaxGrid F) name m :
  FGMaxBackend.getattr fg name = Ok m ->
  FGMaxBackend.hasattr_data fg name = true.
Proof.
  unfold FGMaxBackend.getattr, FGMaxBackend.hasattr_data, dict_mem.
  now destruct (dict_get name (fg_fields fg)).
Qed.

Lemma collected_start (fg : FGmaxGrid F) : collected fg [] (fg, []).
Proof.
  split; [reflexivity|]. split; [reflexivity|]. split; [contradiction|].
  intros name key _. reflexivity.
Qed.

Lemma collected_prepare (fg : FGmaxGrid F) ks name key units long_name
      (st st' : FGMaxBackend.State) :
  collected fg ks st ->
  In (name, key) fgmax_fields -> ~ In key ks ->
  FGMaxBackend.prepare name key units long_name st = Ok st' ->
  collected fg (ks ++ [key]) st'.
Proof.
  intros (Hks & Hmem & HB & Htab) Hin Hnew Hrun.
  apply prepare_ok in Hrun as (m & data' & v & Hm & Hv & Hf & Hdv).
  assert (Hnone : dict_get key (snd st) = None)
    by (apply dict_get_keys; now rewrite Hks).
  assert (Hm' : FGMaxBackend.getattr fg name = Ok m).
  { specialize (Htab name key Hin). rewrite Hnone in Htab. congruence. }
  split; [|split; [|split]].
  - rewrite Hdv, keys_dict_set, Hks.
    destruct (str_in key ks) eqn:E; trivial.
    apply str_in_In in E. contradiction.
  - intros n. rewrite Hf, dict_mem_set, Hmem.
    destruct (String.eqb_spec n name) as [->|]; trivial.
    symmetry. exact (getattr_hasattr _ _ _ Hm').
  - intros Heta. apply in_app_or in Heta as [Heta|[Heq|[]]]; [now apply HB|].
    exfalso. now apply (fgmax_fields_not_eta _ _ Hin).
  - intros name' key' Hin'. rewrite Hdv.
    destruct (String.eqb_spec key' key) as [->|Hne].
    + rewrite dict_get_set_same.
      rewrite (fgmax_fields_key_unique _ _ _ Hin' Hin).
      apply prepare_var_ok in Hv as Hv'. destruct Hv' as [Hset Hdata].
      apply prepare_var_meta in Hv as [Hdims Hfill].
      exists m, data'. auto.
    + rewrite dict_get_set_other by assumption.
      specialize (Htab name' key' Hin').
      destruct (dict_get key' (snd st)); trivial.
      unfold FGMaxBackend.getattr in *. rewrite Hf.
      rewrite dict_get_set_other; trivial.
      intros ->. apply Hne. eapply fgmax_fields_name_unique; eassumption.
Qed.

Lemma collected_eta_max (fg : FGmaxGrid F) ks (st st' : FGMaxBackend.State) :
  collected fg ks st -> ~ In "eta_max" ks ->
  FGMaxBackend.prepare_eta_max st = Ok st' ->
  collected fg (ks ++ ["eta_max"]) st'.
Proof.
  intros (Hks & Hmem & HB & Htab) Hnew Hrun.
  apply prepare_eta_max_ok in Hrun
    as (h & B & sum & d & v & _ & HgB & _ & _ & Hfst & Hdv).
  split; [|split; [|split]].
  - rewrite Hdv, keys_dict_set, Hks.
    destruct (str_in "eta_max" ks) eqn:E; trivial.
    apply str_in_In in E. contradiction.
  - intros n. now rewrite Hfst.
  - intros _. apply getattr_hasattr in HgB.
    unfold FGMaxBackend.hasattr_data in *. now rewrite <- Hmem.
  - intros name key Hin. rewrite Hdv, Hfst.
    rewrite dict_get_set_other by now apply fgmax_fields_not_eta in Hin.
    now apply Htab.
Qed.
End FGMaxCollect.

Section FGMaxVariables.
Context {F : Type} `{Float F}.

Ltac in_fields := unfold fgmax_fields; simpl; tauto.
Ltac not_in :=
  simpl; intros Hin;
  repeat (destruct Hin as [Hin|Hin]; [discriminate Hin|]);
  exact Hin.

Lemma collected_hasattr (fg : FGmaxGrid F) ks (st : FGMaxBackend.State) name :
  collected fg ks st ->
  FGMaxBackend.hasattr_data (fst st) name = FGMaxBackend.hasattr_data fg name.
Proof. intros (_ & Hmem & _). apply Hmem. Qed.

Lemma collect_collected (fg : FGmaxGrid F) st :
  FGMaxBackend.collect fg = Ok st -> collected fg (fgmax_names fg) st.
Proof.
  unfold FGMaxBackend.collect, fgmax_names. intros Hrun.
  destruct (FGMaxBackend.prepare "arrival_time" "arrival_time" "seconds"
              "Wave arrival time" (fg, [])) as [st1|e] eqn:H1;
    [cbn [rbind] in Hrun | discriminate Hrun].
  invert_rbind Hrun. rename a into st2, Hstep into H2.
  invert_rbind Hrun. rename a into st3, Hstep into H3.
  invert_rbind Hrun. rename a into st4, Hstep into H4.
  invert_rbind Hrun. rename a into st5, Hstep into H5.
  pose proof (collected_prepare fg [] "arrival_time" "arrival_time" _ _ _ _
                (collected_start fg) ltac:(in_fields) ltac:(not_in) H1) as K1.
  cbn [app] in K1.
  pose proof (collected_prepare fg _ "h" "h_max" _ _ _ _ K1
                ltac:(in_fields) ltac:(not_in) H2) as K2.
  cbn [app] in K2.
  pose proof (collected_eta_max fg _ _ _ K2 ltac:(not_in) H3) as K3.
  cbn [app] in K3.
  pose proof (collected_prepare fg _ "h_time" "h_max_time" _ _ _ _ K3
                ltac:(in_fields) ltac:(not_in) H4) as K4.
  cbn [app] in K4.
  rewrite (collected_hasattr fg _ st4 "s" K4) in H5.
  assert (Htail :
            forall ks (sta : FGMaxBackend.State),
              collected fg ks sta ->
              ~ In "hs_max" ks -> ~ In "hs_max_time" ks ->
              ~ In "hss_max" ks -> ~ In "hss_max_time" ks ->
              ~ In "h_min" ks -> ~ In "h_min_time" ks ->
              (if FGMaxBackend.hasattr_data (fst sta) "hs"
               then
                 st <- FGMaxBackend.prepare "hs" "hs_max"
                         "meters squared per second" "Maximum momentum" sta ;;
                 st <- FGMaxBackend.prepare "hs_time" "hs_max_time" "seconds"
                         "Time of maximum momentum" st ;;
                 st <- FGMaxBackend.prepare "hss" "hss_max"
                         "meters cubed per second squared"
                         "Maximum momentum flux" st ;;
                 st <- FGMaxBackend.prepare "hss_time" "hss_max_time" "seconds"
                         "Time of maximum momentum flux" st ;;
                 st <- FGMaxBackend.prepare "hmin" "h_min" "meters"
                         "Minimum depth" st ;;
                 FGMaxBackend.prepare "hmin_time" "h_min_time" "seconds"
                   "Time of minimum depth" st
               else Ok sta) = Ok st ->
              collected fg
                (ks ++ (if FGMaxBackend.hasattr_data fg "hs"
                        then ["hs_max"; "hs_max_time"; "hss_max";
                              "hss_max_time"; "h_min"; "h_min_time"]
                        else [])) st).
  { intros ks sta K N1 N2 N3 N4 N5 N6 Htl.
    rewrite (collected_hasattr fg _ sta "hs" K) in Htl.
    destruct (FGMaxBackend.hasattr_data fg "hs").
    - do 5 invert_rbind Htl.
      assert (Hnot : forall (k : string) l x,
                       ~ In k l -> k <> x -> ~ In k (l ++ [x])).
      { intros k l x Hl Hx Hin. apply in_app_or in Hin as [Hin|[Hin|[]]]; auto. }
      pose proof (collected_prepare fg _ "hs" "hs_max" _ _ _ _ K
                    ltac:(in_fields) N1 Hstep) as L1.
      pose proof (collected_prepare fg _ "hs_time" "hs_max_time" _ _ _ _ L1
                    ltac:(in_fields)
                    ltac:(apply Hnot; [assumption|discriminate]) Hstep0) as L2.
      pose proof (collected_prepare fg _ "hss" "hss_max" _ _ _ _ L2
                    ltac:(in_fields)
                    ltac:(repeat (apply Hnot; [|discriminate]); assumption)
                    Hstep1) as L3.
      pose proof (collected_prepare fg _ "hss_time" "hss_max_time" _ _ _ _ L3
                    ltac:(in_fields)
                    ltac:(repeat (apply Hnot; [|discriminate]); assumption)
                    Hstep2) as L4.
      pose proof (collected_prepare fg _ "hmin" "h_min" _ _ _ _ L4
                    ltac:(in_fields)
                    ltac:(repeat (apply Hnot; [|discriminate]); assumption)
                    Hstep3) as L5.
      pose proof (collected_prepare fg _ "hmin_time" "h_min_time" _ _ _ _ L5
                    ltac:(in_fields)
                    ltac:(repeat (apply Hnot; [|discriminate]); assumption)
                    Htl) as L6.
      repeat rewrite <- app_assoc in L6. exact L6.
    - injection Htl as <-. now rewrite app_nil_r. }
  destruct (FGMaxBackend.hasattr_data fg "s").
  - invert_rbind H5. rename a into st4', Hstep into H5'.
    pose proof (collected_prepare fg _ "s" "s_max" _ _ _ _ K4
                  ltac:(in_fields) ltac:(not_in) H5') as K5'.
    cbn [app] in K5'.
    pose proof (collected_prepare fg _ "s_time" "s_max_time" _ _ _ _ K5'
                  ltac:(in_fields) ltac:(not_in) H5) as K5.
    cbn [app] in K5.
    apply (Htail _ _ K5) in Hrun; try not_in. exact Hrun.
  - injection H5 as <-.
    apply (Htail _ _ K4) in Hrun; try not_in. exact Hrun.
Qed.
Lemma collected_present (fg : FGmaxGrid F) ks (st : FGMaxBackend.State)
      name key :
  collected fg ks st -> In (name, key) fgmax_fields -> In key ks ->
  FGMaxBackend.hasattr_data fg name = true.
Proof.
  intros (Hks & _ & _ & Htab) Hin Hkey. specialize (Htab name key Hin).
  destruct (dict_get key (snd st)) as [v|] eqn:Hget.
  - destruct Htab as (m & d0 & Hm & _). eapply getattr_hasattr; eassumption.
  - apply dict_get_keys in Hget. rewrite Hks in Hget. contradiction.
Qed.

Variable w : world F.

Lemma fgmax_open_collected filename epsg drop_variables tr ds fg :
  FGMaxBackend.open_dataset w filename epsg drop_variables = (tr, Ok ds) ->
  grid_of w filename = Ok fg ->
  exists st,
    collected fg (fgmax_names fg) st /\
    data_vars ds =
      filter (fun kv => negb (str_in (fst kv) (default_drop drop_variables)))
             (snd st).
Proof.
  intros Hrun Hgrid.
  apply open_dataset_ok_max in Hrun as (fg' & ds0 & Hgrid' & Hbuild & -> & _).
  rewrite Hgrid in Hgrid'. injection Hgrid' as <-.
  apply build_collect_max in Hbuild as (st & Hst & _ & ->).
  exists st. split; [now apply collect_collected|].
  cbn [data_vars]. apply drop_filter. eapply collect_NoDup; eassumption.
Qed.

(** X11. Which variables [FGMaxBackend.open_dataset] returns is decided by
    which fields the grid has: always [arrival_time], [h_max], [eta_max]
    and [h_max_time]; then [s_max] and [s_max_time] if the grid has a speed
    field; then [hs_max], [hs_max_time], [hss_max], [hss_max_time], [h_min]
    and [h_min_time] if it has a momentum field; in this order, less the
    names on the drop list. *)
Theorem fgmax_variable_names filename epsg drop_variables tr ds fg :
  FGMaxBackend.open_dataset w filename epsg drop_variables = (tr, Ok ds) ->
  grid_of w filename = Ok fg ->
  keys (data_vars ds) =
  filter (fun name => negb (str_in name (default_drop drop_variables)))
         (fgmax_names fg).
Proof.
  intros Hrun Hgrid.
  destruct (fgmax_open_collected _ _ _ _ _ _ Hrun Hgrid)
    as (st & (Hks & _) & ->).
  rewrite (keys_filter _
             (fun name => negb (str_in name (default_drop drop_variables)))).
  now rewrite Hks.
Qed.

(** X12. The fields [FGMaxBackend.open_dataset] cannot do without: it
    returns a dataset only if the grid has the arrival time, the depth, the
    topography and the time of the depth; only if a grid with a speed field
    also has the time of the speed; and only if a grid with a momentum field
    also has its time, the momentum flux and the minimum depth with their
    times.  (Otherwise reading the missing attribute raises.) *)
Theorem fgmax_fields_required filename epsg drop_variables tr ds fg :
  FGMaxBackend.open_dataset w filename epsg drop_variables = (tr, Ok ds) ->
  grid_of w filename = Ok fg ->
  (forall name, In name ["arrival_time"; "h"; "B"; "h_time"] ->
                FGMaxBackend.hasattr_data fg name = true) /\
  (FGMaxBackend.hasattr_data fg "s" = true ->
   FGMaxBackend.hasattr_data fg "s_time" = true) /\
  (FGMaxBackend.hasattr_data fg "hs" = true ->
   forall name, In name ["hs_time"; "hss"; "hss_time"; "hmin"; "hmin_time"] ->
                FGMaxBackend.hasattr_data fg name = true).
Proof.
  intros Hrun Hgrid.
  destruct (fgmax_open_collected _ _ _ _ _ _ Hrun Hgrid) as (st & K & _).
  assert (Hbase : forall key,
             In key ["arrival_time"; "h_max"; "eta_max"; "h_max_time"] ->
             In key (fgmax_names fg)).
  { intros key Hin. unfold fgmax_names. apply in_or_app. now left. }
  split; [|split].
  - intros name Hin. simpl in Hin.
    destruct Hin as [<-|[<-|[<-|[<-|[]]]]].
    + apply (collected_present fg _ st _ "arrival_time" K);
        [in_fields | apply Hbase; simpl; tauto].
    + apply (collected_present fg _ st _ "h_max" K);
        [in_fields | apply Hbase; simpl; tauto].
    + destruct K as (_ & _ & HB & _). apply HB, Hbase. simpl. tauto.
    + apply (collected_present fg _ st _ "h_max_time" K);
        [in_fields | apply Hbase; simpl; tauto].
  - intros Hs.
    apply (collected_present fg _ st _ "s_max_time" K); [in_fields|].
    unfold fgmax_names. rewrite Hs. simpl. tauto.
  - intros Hhs name Hin. simpl in Hin.
    assert (Hkeys : forall key,
               In key ["hs_max_time"; "hss_max"; "hss_max_time"; "h_min";
                       "h_min_time"] -> In key (fgmax_names fg)).
    { intros key Hkey. unfold fgmax_names. rewrite Hhs.
      apply in_or_app. right. apply in_or_app. right. simpl in *. tauto. }
    destruct Hin as [<-|[<-|[<-|[<-|[<-|[]]]]]].
    + apply (collected_present fg _ st _ "hs_max_time" K);
        [in_fields | apply Hkeys; simpl; tauto].
    + apply (collected_present fg _ st _ "hss_max" K);
        [in_fields | apply Hkeys; simpl; tauto].
    + apply (collected_present fg _ st _ "hss_max_time" K);
        [in_fields | apply Hkeys; simpl; tauto].
    + apply (collected_present fg _ st _ "h_min" K);
        [in_fields | apply Hkeys; simpl; tauto].
    + apply (collected_present fg _ st _ "h_min_time" K);
        [in_fields | apply Hkeys; simpl; tauto].
Qed.

(** X13. Every variable of [FGMaxBackend.open_dataset] other than
    [eta_max] is one field of the grid as it was read, masked by that
    field's own mask, transposed and flipped; it has the dimensions
    [(y, x)], the shape of the field with its axes exchanged, and the fill
    value as [_FillValue].  The writes [_prepare_var] makes into other
    fields on the way do not reach it. *)
Theorem fgmax_variables_are_the_fields filename epsg drop_variables tr ds fg :
  FGMaxBackend.open_dataset w filename epsg drop_variables = (tr, Ok ds) ->
  grid_of w filename = Ok fg ->
  forall name key v,
    In (name, key) fgmax_fields ->
    dict_get key (data_vars ds) = Some v ->
    exists m,
      FGMaxBackend.getattr fg name = Ok m /\
      v_dims v = ["y"; "x"] /\
      dict_get "_FillValue" (v_attrs v) = Some (ANum nodata) /\
      shape (v_data v) = [cols2 (ma_data m); rows2 (ma_data m)] /\
      (wf2 (ma_data m) -> wf2 (ma_mask m) ->
       masked_transposed_flipped (ma_data m) (ma_mask m) nodata (v_data v)).
Proof.
  intros Hrun Hgrid name key v Hin Hget.
  destruct (fgmax_open_collected _ _ _ _ _ _ Hrun Hgrid)
    as (st & (_ & _ & _ & Htab) & Hdv).
  rewrite Hdv in Hget.
  rewrite (dict_get_filter _
             (fun k => negb (str_in k (default_drop drop_variables)))) in Hget.
  destruct (negb _); [|discriminate].
  specialize (Htab name key Hin). rewrite Hget in Htab.
  destruct Htab as (m & d0 & Hm & Hset & Hdata & Hdims & Hfill).
  exists m. split; [assumption|]. split; [assumption|]. split; [assumption|].
  pose proof (setitem_mask_shape _ _ _ _ Hset) as (Hr & Hc & _).
  split.
  - rewrite Hdata. unfold as_ndarray. simpl. now rewrite Hr, Hc.
  - intros Hwfd Hwfm. eapply masked_oriented; eauto.
    intros. now rewrite Hdata.
Qed.
End FGMaxVariables.

(** ** Names on the drop list that name no variable *)

Section UnknownDrops.
Context {F : Type} `{Float F}.
Variable w : world F.

Lemma channel_ext_names mask _qelements ni nj (d1 d2 : list string) i
      (st : array3 F * dict (variable F)) :
  (forall name, In name _qelements -> str_in name d1 = str_in name d2) ->
  FGOutBackend.channel mask _qelements ni nj d1 i st =
  FGOutBackend.channel mask _qelements ni nj d2 i st.
Proof.
  intros Hsame. unfold FGOutBackend.channel. destruct st as [q dv].
  destruct (slice3 q i) as [Q|e]; cbn [rbind]; trivial.
  destruct (if i <? 7 then _ else _) as [[q1 Q1]|e]; cbn [rbind]; trivial.
  destruct (reshape3 _ 1 ni nj) as [Q2|e]; cbn [rbind]; trivial.
  unfold getitem.
  destruct (nth_error _qelements i) as [name|] eqn:Hname; cbn [rbind]; trivial.
  destruct (getitem_key _qunits name) as [units|e]; cbn [rbind]; trivial.
  rewrite Hsame; trivial. eapply nth_error_In; eassumption.
Qed.

Lemma fgmax_names_known (fg : FGmaxGrid F) name :
  In name (fgmax_names fg) -> In name fgmax_all_names.
Proof.
  unfold fgmax_names, fgmax_all_names.
  destruct (FGMaxBackend.hasattr_data fg "s"),
           (FGMaxBackend.hasattr_data fg "hs"); simpl; tauto.
Qed.

(** X14. A name on the drop list that names no variable changes nothing
    and raises nothing: with a drop list of such names only, each reader
    does exactly what it does without a drop list. *)
Theorem unknown_names_are_ignored filename epsg (drop_variables : list string) :
  ((forall name, In name drop_variables -> ~ In name _qelements_dclaw) ->
   FGOutBackend.open_dataset w filename epsg (Some drop_variables) =
   FGOutBackend.open_dataset w filename epsg None)
  /\
  ((forall name, In name drop_variables -> ~ In name fgmax_all_names) ->
   FGMaxBackend.open_dataset w filename epsg (Some drop_variables) =
   FGMaxBackend.open_dataset w filename epsg None).
Proof.
  split; intros Hunknown.
  - assert (Hext : forall _qelements,
               (forall name, In name _qelements -> In name _qelements_dclaw) ->
               forall name, In name _qelements ->
                 str_in name drop_variables = str_in name []).
    { intros qel Hsub name Hin. simpl.
      destruct (str_in name drop_variables) eqn:E; trivial.
      apply str_in_In in E. exfalso. apply (Hunknown name E). now apply Hsub. }
    unfold FGOutBackend.open_dataset. cbn [default_drop]. unfold lift, call.
    destruct (FGOutBackend.parse_filename _) as [[[fgno frameno] fmt]|e];
      cbn [mbind]; trivial.
    destruct (FGoutGrid w fgno _ fmt) as [ps|e]; cbn [mbind]; trivial.
    destruct (negb (ps =? 2)%Z); trivial.
    destruct (read_fgout_grids_data w fgno _ fmt) as [u|e];
      cbn [mbind]; trivial.
    destruct (read_frame w fgno _ fmt frameno) as [fgout|e];
      cbn [mbind]; trivial.
    replace (FGOutBackend.build fgout drop_variables)
      with (FGOutBackend.build fgout []); trivial.
    unfold FGOutBackend.build. cbv zeta.
    destruct (slice3 (fgout_q fgout) 0) as [depth|e]; cbn [rbind]; trivial.
    rewrite (for_each_ext _
               (FGOutBackend.channel (lt_scalar depth)
                  (if chans3 (fgout_q fgout) =? 8
                   then _qelements_dclaw else _qelements_geoclaw)
                  (length (flipud1 (fgout_y fgout)))
                  (length (fgout_x fgout)) drop_variables)).
    + reflexivity.
    + intros i st. apply channel_ext_names. intros name Hin. symmetry.
      apply (Hext (if chans3 (fgout_q fgout) =? 8
                   then _qelements_dclaw else _qelements_geoclaw)); trivial.
      intros n Hn. destruct (_ =? _); trivial.
      unfold _qelements_geoclaw, _qelements_dclaw in *. simpl in *. tauto.
  - unfold FGMaxBackend.open_dataset. cbn [default_drop]. unfold lift, call.
    destruct (getitem_first _) as [stem|e]; cbn [mbind]; trivial.
    destruct (int _) as [fgno|e]; cbn [mbind]; trivial.
    destruct (read_fgmax_grids_data w fgno) as [ps|e]; cbn [mbind]; trivial.
    destruct (negb (ps =? 2)%Z); trivial.
    destruct (read_output w fgno) as [fg|e]; cbn [mbind]; trivial.
    unfold FGMaxBackend.build.
    destruct (FGMaxBackend.collect fg) as [st|e] eqn:Hst; cbn [rbind]; trivial.
    replace (FGMaxBackend.drop (snd st) drop_variables)
      with (FGMaxBackend.drop (snd st) []); trivial.
    rewrite !drop_filter by (eapply collect_NoDup; eassumption).
    apply filter_ext_in. intros [k v] Hin. simpl.
    destruct (str_in k drop_variables) eqn:E; trivial.
    apply str_in_In in E. exfalso. apply (Hunknown k E).
    apply (fgmax_names_known fg).
    destruct (collect_collected fg st Hst) as (<- & _).
    unfold keys. apply in_map_iff. now exists (k, v).
Qed.
End UnknownDrops.

(** ** The grid number in an fgmax file name *)

Section FGMaxFileName.

Lemma path_split_no_slash (s : string) :
  contains "/" s = false -> path_split_at_slash s = (EmptyString, s).
Proof.
  induction s as [|c s IH]; simpl; trivial.
  intros Hc. apply orb_false_elim in Hc as [Hc Hs].
  rewrite (IH Hs), Hc. reflexivity.
Qed.

Lemma path_split_dir (dir base : string) :
  contains "/" base = false ->
  exists head,
    path_split_at_slash (dir ++ String "/" base)%string = (String "/" head, base)
    \/ exists c, path_split_at_slash (dir ++ String "/" base)%string
                 = (String c head, base).
Proof.
  intros Hbase. induction dir as [|c dir IH]; simpl.
  - rewrite (path_split_no_slash _ Hbase). exists EmptyString. now left.
  - destruct IH as [head [E|[c' E]]]; rewrite E; eexists; right; eexists;
      reflexivity.
Qed.

Lemma path_basename_plain (s : string) :
  contains "/" s = false -> basename s = s.
Proof. intros Hs. unfold basename. now rewrite path_split_no_slash. Qed.

Lemma basename_dir (dir base : string) :
  contains "/" base = false ->
  basename (dir ++ String "/" base)%string = base.
Proof.
  intros Hbase. unfold basename.
  destruct (path_split_dir dir base Hbase) as [head [E|[c E]]];
    now rewrite E.
Qed.

Lemma contains_append c (s t : string) :
  contains c (s ++ t)%string = contains c s || contains c t.
Proof.
  induction s as [|c' s IH]; simpl; trivial.
  now rewrite IH, orb_assoc.
Qed.

Lemma split_on_prefix (stem rest : string) :
  contains "." stem = false ->
  split_on "." (stem ++ rest)%string =
  match split_on "." rest with
  | p :: ps => (stem ++ p)%string :: ps
  | [] => [stem]
  end.
Proof.
  intros Hstem. induction stem as [|c stem IH].
  - simpl. destruct (split_on "." rest) eqn:E; trivial.
    destruct rest; simpl in E; [discriminate|].
    destruct (Ascii.eqb _ _); [discriminate|].
    destruct (split_on "." rest); discriminate.
  - simpl in Hstem. apply orb_false_elim in Hstem as [Hc Hs].
    cbn [String.append]. rewrite split_on_other by assumption.
    rewrite (IH Hs). now destruct (split_on "." rest).
Qed.

Lemma str_drop_append (s t : string) :
  str_drop (String.length s) (s ++ t)%string = t.
Proof. induction s as [|c s IH]; simpl; [now destruct t | exact IH]. Qed.

Lemma str_suffix_str4 (stem : string) a b c d :
  str_suffix 4 (stem ++ str4 a b c d)%string = str4 a b c d.
Proof.
  unfold str_suffix.
  replace (String.length (stem ++ str4 a b c d)%string - 4)
    with (String.length stem).
  - apply str_drop_append.
  - induction stem as [|ch stem IH]; simpl; trivial.
    simpl in IH. rewrite IH at 1.
    assert (Hlen : 4 <= String.length (stem ++ str4 a b c d)%string).
    { clear. induction stem; simpl; lia. }
    lia.
Qed.

Lemma digit_char_slash d :
  d < 10 -> Ascii.eqb (digit_char d) "/" = false.
Proof.
  intros Hd. do 10 (destruct d as [|d]; [now vm_compute|]). lia.
Qed.

Lemma contains_str4 ch a b c d :
  Ascii.eqb (digit_char a) ch = false -> Ascii.eqb (digit_char b) ch = false ->
  Ascii.eqb (digit_char c) ch = false -> Ascii.eqb (digit_char d) ch = false ->
  contains ch (str4 a b c d) = false.
Proof.
  intros Ha Hb Hc Hd. unfold str4. cbn [contains].
  now rewrite Ha, Hb, Hc, Hd.
Qed.

(** X15. [FGMaxBackend.open_dataset] takes the grid number from the last
    four characters before the first dot of the file's base name: for a
    path whose base name is any dot-free stem, four decimal digits, a dot
    and anything, in any directory, the number is those digits read in
    decimal, and it is the grid the reader asks the solver's tools for
    first. *)
Theorem fgmax_grid_number (dir stem rest : string) a b c d :
  a < 10 -> b < 10 -> c < 10 -> d < 10 ->
  contains "/" stem = false -> contains "." stem = false ->
  contains "/" rest = false ->
  let base := (stem ++ str4 a b c d ++ String "." rest)%string in
  fgmax_fgno base = Ok (decimal4 a b c d) /\
  fgmax_fgno (dir ++ String "/" base)%string = Ok (decimal4 a b c d) /\
  forall (F : Type) (Fl : Float F) (w : world F) epsg drop_variables,
  exists tr,
    fst (FGMaxBackend.open_dataset w (dir ++ String "/" base)%string epsg
                                   drop_variables)
    = EvReadFgmaxGridsData (decimal4 a b c d) :: tr.
Proof.
  intros Ha Hb Hc Hd Hslash Hdot Hrest base.
  assert (Hbase : contains "/" base = false).
  { unfold base. rewrite !contains_append, Hslash.
    rewrite contains_str4 by now apply digit_char_slash.
    cbn [contains orb]. rewrite Hrest. reflexivity. }
  assert (Hstem : getitem_first (split_on "." base)
                  = Ok (stem ++ str4 a b c d)%string).
  { unfold base. rewrite split_on_prefix by assumption.
    assert (Htail : exists ps,
               split_on "." (str4 a b c d ++ String "." rest)%string
               = str4 a b c d :: ps).
    { unfold str4. cbn [String.append].
      rewrite !split_on_other by now apply digit_char_plain.
      cbn [split_on]. change (Ascii.eqb "." ".") with true. cbn iota.
      eexists. reflexivity. }
    destruct Htail as [ps ->]. reflexivity. }
  assert (Hno : fgmax_fgno base = Ok (decimal4 a b c d)).
  { unfold fgmax_fgno. rewrite (path_basename_plain _ Hbase), Hstem.
    cbn [rbind]. rewrite str_suffix_str4. now apply int_str4. }
  split; [exact Hno|].
  assert (Hdir : fgmax_fgno (dir ++ String "/" base)%string
                 = Ok (decimal4 a b c d)).
  { unfold fgmax_fgno in *. rewrite (basename_dir _ _ Hbase).
    now rewrite (path_basename_plain _ Hbase) in Hno. }
  split; [exact Hdir|].
  intros F Fl w epsg drop_variables.
  unfold FGMaxBackend.open_dataset. unfold fgmax_fgno in Hdir.
  destruct (getitem_first (split_on "." (basename (dir ++ String "/" base))))
    as [stem'|e]; [|discriminate].
  cbn [rbind] in Hdir. unfold lift, call. cbn [mbind]. rewrite Hdir.
  cbn [mbind app].
  destruct (read_fgmax_grids_data w (decimal4 a b c d)) as [ps|e];
    [|eexists; reflexivity].
  match goal with
  | |- context [let (_, _) := (if ?c then ?x else ?y) in _] =>
      destruct (if c then x else y) as [tr' r']
  end.
  eexists. reflexivity.
Qed.
End FGMaxFileName.

(** ** The base name of an fgout file *)

Section FGOutFileName.

Lemma str_append_assoc (s t u : string) :
  ((s ++ t) ++ u = s ++ (t ++ u))%string.
Proof. induction s as [|c s IH]; simpl; [|rewrite IH]; reflexivity. Qed.

Lemma str_append_empty (s : string) : (s ++ EmptyString)%string = s.
Proof. induction s as [|c s IH]; simpl; [|rewrite IH]; reflexivity. Qed.

Lemma split_on_none sep (s : string) :
  contains sep s = false -> split_on sep s = [s].
Proof.
  induction s as [|c s IH]; simpl; trivial.
  intros Hc. apply orb_false_elim in Hc as [Hc Hs].
  now rewrite Hc, (IH Hs).
Qed.

Lemma split_on_two (stem ext : string) :
  contains "." stem = false -> contains "." ext = false ->
  split_on "." (stem ++ String "." ext)%string = [stem; ext].
Proof.
  intros Hstem Hext. rewrite split_on_prefix by assumption.
  cbn [split_on]. change (Ascii.eqb "." ".") with true. cbn iota.
  now rewrite (split_on_none _ _ Hext), str_append_empty.
Qed.

Lemma split_on_trailing sep (s : string) :
  exists p ps,
    split_on sep (s ++ String sep EmptyString)%string
    = (p :: ps) ++ [EmptyString].
Proof.
  induction s as [|c s (p & ps & IH)]; cbn [String.append split_on].
  - rewrite Ascii.eqb_refl. exists EmptyString, []. reflexivity.
  - rewrite IH. destruct (Ascii.eqb c sep).
    + exists EmptyString, (p :: ps). reflexivity.
    + exists (String c p), ps. reflexivity.
Qed.

(** X16. [FGOutBackend.open_dataset] looks at the last four characters
    before the first dot and at the first and the last four characters
    after it, and at nothing else: for any base name made of a dot-free
    stem, four digits, a dot, a character [c], any dot-free characters and
    four digits, the grid number and the frame number are the two groups
    of digits and [c] selects the encoding.  The stem need not be
    [fgout], and digits before the last four are dropped. *)
Theorem fgout_name_reads_last_four (stem pre : string) c
        n1 n2 n3 n4 m1 m2 m3 m4 :
  n1 < 10 -> n2 < 10 -> n3 < 10 -> n4 < 10 ->
  m1 < 10 -> m2 < 10 -> m3 < 10 -> m4 < 10 ->
  contains "." stem = false -> contains "." pre = false ->
  Ascii.eqb c "." = false ->
  FGOutBackend.parse_filename
    (stem ++ str4 n1 n2 n3 n4
          ++ String "." (String c (pre ++ str4 m1 m2 m3 m4)))%string =
  if Ascii.eqb c "q"
  then Ok (decimal4 n1 n2 n3 n4, decimal4 m1 m2 m3 m4, ascii_format)
  else if Ascii.eqb c "b"
  then Ok (decimal4 n1 n2 n3 n4, decimal4 m1 m2 m3 m4, binary32)
  else Err (ValueError
              "Invalid FGout output format. Must be ascii or binary.").
Proof.
  intros Hn1 Hn2 Hn3 Hn4 Hm1 Hm2 Hm3 Hm4 Hstem Hpre Hc.
  rewrite <- str_append_assoc.
  assert (Hleft : contains "." (stem ++ str4 n1 n2 n3 n4)%string = false).
  { rewrite contains_append, Hstem.
    now rewrite contains_str4 by now apply digit_char_plain. }
  assert (Hright : contains "." (String c (pre ++ str4 m1 m2 m3 m4))%string
                   = false).
  { cbn [contains]. rewrite Hc, contains_append, Hpre.
    now rewrite contains_str4 by now apply digit_char_plain. }
  unfold FGOutBackend.parse_filename.
  rewrite (split_on_two _ _ Hleft Hright).
  unfold getitem_last, getitem_first. cbn [rev app rbind str_first].
  rewrite str_suffix_str4, (int_str4 _ _ _ _ Hn1 Hn2 Hn3 Hn4).
  cbn [rbind].
  change (String c (pre ++ str4 m1 m2 m3 m4))%string
    with (String c pre ++ str4 m1 m2 m3 m4)%string.
  rewrite str_suffix_str4, (int_str4 _ _ _ _ Hm1 Hm2 Hm3 Hm4).
  reflexivity.
Qed.

(** X17. A base name without a dot is read as both parts at once:
    whenever [FGOutBackend.open_dataset] accepts such a name, the grid
    number and the frame number are the same number, read off the last
    four characters of the name, and the name begins with the [q] or [b]
    that selects the encoding. *)
Theorem fgout_name_without_dot (name : string) fgno frameno fmt :
  contains "." name = false ->
  FGOutBackend.parse_filename name = Ok (fgno, frameno, fmt) ->
  fgno = frameno /\
  int (str_suffix 4 name) = Ok fgno /\
  exists rest,
    (name = String "q" rest /\ fmt = ascii_format) \/
    (name = String "b" rest /\ fmt = binary32).
Proof.
  intros Hname. unfold FGOutBackend.parse_filename.
  rewrite (split_on_none _ _ Hname).
  unfold getitem_last, getitem_first. cbn [rev app rbind].
  destruct name as [|c rest]; [discriminate|]. cbn [str_first rbind].
  destruct (int (str_suffix 4 (String c rest))) as [n|e]; [|discriminate].
  cbn [rbind].
  destruct (Ascii.eqb_spec c "q") as [->|Hq].
  - intros [= <- <- <-]. repeat split. exists rest. now left.
  - destruct (Ascii.eqb_spec c "b") as [->|Hb]; [|discriminate].
    intros [= <- <- <-]. repeat split. exists rest. now right.
Qed.

(** X18. A base name that ends in a dot has an empty last part, so taking
    its first character raises [IndexError]: [FGOutBackend.open_dataset]
    raises it before calling any of the solver's tools, whatever comes
    before the dot. *)
Theorem fgout_name_ending_in_dot (s : string) :
  FGOutBackend.parse_filename (s ++ ".")%string
  = Err (IndexError "string index out of range") /\
  forall (F : Type) (Fl : Float F) (w : world F) filename epsg drop_variables,
    basename (abspath w filename) = (s ++ ".")%string ->
    FGOutBackend.open_dataset w filename epsg drop_variables
    = ([], Err (IndexError "string index out of range")).
Proof.
  assert (Hparse : FGOutBackend.parse_filename (s ++ ".")%string
                   = Err (IndexError "string index out of range")).
  { unfold FGOutBackend.parse_filename.
    destruct (split_on_trailing "." s) as (p & ps & ->).
    unfold getitem_last. rewrite rev_app_distr. reflexivity. }
  split; [exact Hparse|].
  intros F Fl w filename epsg drop_variables Hbase.
  unfold FGOutBackend.open_dataset, lift. rewrite Hbase, Hparse.
  reflexivity.
Qed.
End FGOutFileName.

(** ** The properties on the sample run *)

Section SampleRunFurther.
Import Sample.

Lemma prepare_var_writes_callers_array_witness :
  exists data' v,
    _prepare_var (Array2 3 3 (ramp 2)) (Array2 3 3 (true :: repeat false 8))
                 ["y"; "x"] "meters" NaN "Maximum water depth"
    = Ok (data', v) /\
    rows2 data' = 3 /\ cols2 data' = 3 /\
    v_dims v = ["y"; "x"].
Proof.
  destruct (_prepare_var (Array2 3 3 (ramp 2))
              (Array2 3 3 (true :: repeat false 8))
              ["y"; "x"] "meters" NaN "Maximum water depth")
    as [[data' v]|e] eqn:E; [|vm_compute in E; discriminate E].
  exists data', v. split; [reflexivity|].
  destruct (prepare_var_writes_callers_array _ _ _ _ _ _ _ _
              (eq_refl : wf2 (Array2 3 3 (ramp 2)))
              (eq_refl : wf2 (Array2 3 3 (true :: repeat false 8))) E)
    as (Hr & Hc & _ & Hdims & _).
  split; [exact Hr|]. split; [exact Hc | exact Hdims].
Defined.

Lemma prepare_var_needs_matching_mask_witness :
  (exists data' v,
      _prepare_var (Array2 3 3 (ramp 2)) (Array2 3 3 (true :: repeat false 8))
                   ["y"; "x"] "meters" NaN "Maximum water depth"
      = Ok (data', v))
  /\
  _prepare_var (Array2 3 3 (ramp 2)) (Array2 2 2 (repeat false 4))
               ["y"; "x"] "meters" NaN "Maximum water depth"
  = Err (IndexError "boolean index did not match indexed array").
Proof.
  split.
  - apply (proj1 (prepare_var_needs_matching_mask (Array2 3 3 (ramp 2))
                    (Array2 3 3 (true :: repeat false 8))
                    ["y"; "x"] "meters" NaN "Maximum water depth")).
    split; reflexivity.
  - apply (proj2 (prepare_var_needs_matching_mask (Array2 3 3 (ramp 2))
                    (Array2 2 2 (repeat false 4))
                    ["y"; "x"] "meters" NaN "Maximum water depth")).
    left. split; discriminate.
Defined.

Lemma prepare_var_twice_is_half_turn_witness :
  exists data' v once' v2,
    _prepare_var (Array2 3 3 (ramp 2)) (Array2 3 3 (true :: repeat false 8))
                 ["y"; "x"] "meters" NaN "Maximum water depth"
    = Ok (data', v) /\
    _prepare_var (flipud (transpose data'))
                 (no_mask (flipud (transpose data')))
                 ["y"; "x"] "meters" NaN "Maximum water depth"
    = Ok (once', v2) /\
    nd_get (v_data v2) 0 0 = get2 data' 2 2.
Proof.
  destruct (_prepare_var (Array2 3 3 (ramp 2))
              (Array2 3 3 (true :: repeat false 8))
              ["y"; "x"] "meters" NaN "Maximum water depth")
    as [[data' v]|e] eqn:E; [|vm_compute in E; discriminate E].
  exists data', v.
  destruct (prepare_var_twice_is_half_turn _ _ _ _ _ _ _ _
              (eq_refl : wf2 (Array2 3 3 (ramp 2)))
              (eq_refl : wf2 (Array2 3 3 (true :: repeat false 8))) E)
    as (_ & once' & v2 & Hrun & _ & Hcells).
  exists once', v2. split; [reflexivity|]. split; [exact Hrun|].
  apply (Hcells 0 0); simpl; lia.
Defined.

Lemma prepare_var_again_is_the_same_witness :
  exists data' v,
    _prepare_var (Array2 3 3 (ramp 2)) (Array2 3 3 (true :: repeat false 8))
                 ["y"; "x"] "meters" NaN "Maximum water depth"
    = Ok (data', v) /\
    _prepare_var data' (Array2 3 3 (true :: repeat false 8))
                 ["y"; "x"] "meters" NaN "Maximum water depth"
    = Ok (data', v).
Proof.
  destruct (_prepare_var (Array2 3 3 (ramp 2))
              (Array2 3 3 (true :: repeat false 8))
              ["y"; "x"] "meters" NaN "Maximum water depth")
    as [[data' v]|e] eqn:E; [|vm_compute in E; discriminate E].
  exists data', v. split; [reflexivity|].
  exact (prepare_var_again_is_the_same _ _ _ _ _ _ _ _ E).
Defined.

Lemma fgout_variables_layout_witness :
  exists tr ds v,
    FGOutBackend.open_dataset run geoclaw_file None None = (tr, Ok ds) /\
    dict_get "hu" (data_vars ds) = Some v /\
    v_dims v = ["time"; "y"; "x"] /\
    shape (v_data v) = [1; 3; 3] /\
    length (nd_buf (v_data v)) = 3 * 3.
Proof.
  destruct (FGOutBackend.open_dataset run geoclaw_file None None)
    as [tr [ds|e]] eqn:E; [|vm_compute in E; discriminate E].
  destruct (dict_get "hu" (data_vars ds)) as [v|] eqn:Hv;
    [|apply (f_equal (fun r => match snd r with
                               | Ok d => dict_mem "hu" (data_vars d)
                               | Err _ => true
                               end)) in E;
      unfold dict_mem in E; cbn [snd] in E; rewrite Hv in E;
      vm_compute in E; discriminate E].
  exists tr, ds, v. split; [reflexivity|]. split; [exact Hv|].
  destruct (fgout_variables_layout run geoclaw_file None None tr ds
              (frame q_geoclaw) E eq_refl eq_refl "hu" v Hv)
    as (_ & _ & Hdims & Hshape & Hlen & _).
  split; [exact Hdims|]. split; [exact Hshape | exact Hlen].
Defined.

Lemma fgout_labels_stay_with_values_witness :
  exists tr ds,
    FGOutBackend.open_dataset run geoclaw_file None None = (tr, Ok ds) /\
    c_values (coord_x ds) = xs /\
    option_map (fun c => c_values c) (coord_time ds) = Some [metres 5].
Proof.
  destruct (FGOutBackend.open_dataset run geoclaw_file None None)
    as [tr [ds|e]] eqn:E; [|vm_compute in E; discriminate E].
  exists tr, ds. split; [reflexivity|].
  destruct (fgout_labels_stay_with_values run geoclaw_file None None tr ds
              (frame q_geoclaw) E eq_refl
              (conj eq_refl (conj eq_refl eq_refl)))
    as (Hx & Ht & _).
  split; [exact Hx | exact Ht].
Defined.

Lemma fgout_build_goes_through_iff_witness :
  exists ds, FGOutBackend.build (frame q_three) [] = Ok ds.
Proof.
  apply (proj2 (fgout_build_goes_through_iff (frame q_three) [] eq_refl)).
  split; [right; simpl; lia | reflexivity].
Defined.

Lemma fgout_loop_settles_witness :
  exists q' dv',
    for_each (range 4)
             (FGOutBackend.channel (dry_mask q_geoclaw) _qelements_geoclaw
                                   3 3 [])
             (q_geoclaw, []) = Ok (q', dv') /\
    for_each (range (chans3 q'))
             (FGOutBackend.channel (dry_mask q') _qelements_geoclaw 3 3 [])
             (q', []) = Ok (q', dv').
Proof.
  destruct (for_each (range 4)
              (FGOutBackend.channel (dry_mask q_geoclaw) _qelements_geoclaw
                                    3 3 [])
              (q_geoclaw, [])) as [[q' dv']|e] eqn:E;
    [|vm_compute in E; discriminate E].
  exists q', dv'. split; [reflexivity|].
  exact (fgout_loop_settles q_geoclaw _qelements_geoclaw 3 3 [] q' dv'
           eq_refl eq_refl E).
Defined.

Lemma tools_called_in_order_witness :
  exists fgno frameno fmt rest,
    [EvFGoutGrid fgno (basename (dirname (abspath run geoclaw_file))) fmt;
     EvReadFgoutGridsData; EvReadFrame frameno] ++ crs_events (Some 4326%Z)
    = fst (FGOutBackend.open_dataset run geoclaw_file (Some 4326%Z) None)
      ++ rest
    /\
    forall ds,
      snd (FGOutBackend.open_dataset run geoclaw_file (Some 4326%Z) None)
      = Ok ds -> rest = [].
Proof.
  exact (proj1 (tools_called_in_order run geoclaw_file (Some 4326%Z) None)).
Defined.


Lemma fgmax_variable_names_witness :
  exists tr ds,
    FGMaxBackend.open_dataset run fgmax_file None (Some ["h_max"])
    = (tr, Ok ds) /\
    keys (data_vars ds) = ["arrival_time"; "eta_max"; "h_max_time"].
Proof.
  destruct (FGMaxBackend.open_dataset run fgmax_file None (Some ["h_max"]))
    as [tr [ds|e]] eqn:E; [|vm_compute in E; discriminate E].
  exists tr, ds. split; [reflexivity|].
  exact (fgmax_variable_names run fgmax_file None (Some ["h_max"]) tr ds
           fgmax_grid E eq_refl).
Defined.

Lemma fgmax_fields_required_witness :
  exists tr ds,
    FGMaxBackend.open_dataset run fgmax_file None None = (tr, Ok ds) /\
    FGMaxBackend.hasattr_data fgmax_grid "B" = true.
Proof.
  destruct (FGMaxBackend.open_dataset run fgmax_file None None)
    as [tr [ds|e]] eqn:E; [|vm_compute in E; discriminate E].
  exists tr, ds. split; [reflexivity|].
  apply (proj1 (fgmax_fields_required run fgmax_file None None tr ds
                  fgmax_grid E eq_refl)).
  simpl. tauto.
Defined.

Lemma fgmax_variables_are_the_fields_witness :
  exists tr ds v m,
    FGMaxBackend.open_dataset run fgmax_file None None = (tr, Ok ds) /\
    dict_get "h_max" (data_vars ds) = Some v /\
    FGMaxBackend.getattr fgmax_grid "h" = Ok m /\
    v_dims v = ["y"; "x"] /\
    shape (v_data v) = [cols2 (ma_data m); rows2 (ma_data m)].
Proof.
  destruct (FGMaxBackend.open_dataset run fgmax_file None None)
    as [tr [ds|e]] eqn:E; [|vm_compute in E; discriminate E].
  destruct (dict_get "h_max" (data_vars ds)) as [v|] eqn:Hv;
    [|apply (f_equal (fun r => match snd r with
                               | Ok d => dict_mem "h_max" (data_vars d)
                               | Err _ => true
                               end)) in E;
      unfold dict_mem in E; cbn [snd] in E; rewrite Hv in E;
      vm_compute in E; discriminate E].
  destruct (fgmax_variables_are_the_fields run fgmax_file None None tr ds
              fgmax_grid E eq_refl "h" "h_max" v
              (or_intror (or_introl eq_refl)) Hv)
    as (m & Hm & Hdims & _ & Hshape & _).
  exists tr, ds, v, m. split; [reflexivity|]. split; [exact Hv|].
  split; [exact Hm|]. split; [exact Hdims | exact Hshape].
Defined.

Lemma unknown_names_are_ignored_witness :
  FGOutBackend.open_dataset run geoclaw_file None (Some ["speed"]) =
  FGOutBackend.open_dataset run geoclaw_file None None
  /\
  FGMaxBackend.open_dataset run fgmax_file None (Some ["speed"]) =
  FGMaxBackend.open_dataset run fgmax_file None None.
Proof.
  split.
  - apply (proj1 (unknown_names_are_ignored run geoclaw_file None ["speed"])).
    intros name [<-|[]] Hin. simpl in Hin.
    repeat (destruct Hin as [Hin|Hin]; [discriminate Hin|]). exact Hin.
  - apply (proj2 (unknown_names_are_ignored run fgmax_file None ["speed"])).
    intros name [<-|[]] Hin. simpl in Hin.
    repeat (destruct Hin as [Hin|Hin]; [discriminate Hin|]). exact Hin.
Defined.

Lemma fgmax_grid_number_witness :
  fgmax_fgno "fgmax0012.txt" = Ok 12%Z /\
  fgmax_fgno "run/_output/fgmax0012.txt" = Ok 12%Z.
Proof.
  destruct (fgmax_grid_number "run/_output" "fgmax" "txt" 0 0 1 2
              ltac:(lia) ltac:(lia) ltac:(lia) ltac:(lia)
              eq_refl eq_refl eq_refl) as (Hbase & Hdir & _).
  split; [exact Hbase | exact Hdir].
Defined.

Lemma fgout_name_reads_last_four_witness :
  FGOutBackend.parse_filename "grid0007.b120123" = Ok (7%Z, 123%Z, binary32).
Proof.
  exact (fgout_name_reads_last_four "grid" "12" "b" 0 0 0 7 0 1 2 3
           ltac:(lia) ltac:(lia) ltac:(lia) ltac:(lia)
           ltac:(lia) ltac:(lia) ltac:(lia) ltac:(lia)
           eq_refl eq_refl eq_refl).
Defined.

Lemma fgout_name_without_dot_witness :
  FGOutBackend.parse_filename "b0012" = Ok (12%Z, 12%Z, binary32) /\
  12%Z = 12%Z /\
  int (str_suffix 4 "b0012") = Ok 12%Z /\
  exists rest,
    ("b0012"%string = String "q" rest /\ binary32 = ascii_format) \/
    ("b0012"%string = String "b" rest /\ binary32 = binary32).
Proof.
  split; [reflexivity|].
  exact (fgout_name_without_dot "b0012" 12%Z 12%Z binary32 eq_refl eq_refl).
Defined.

Lemma fgout_name_ending_in_dot_witness :
  FGOutBackend.open_dataset run "_output/fgout0001." None None
  = ([], Err (IndexError "string index out of range")).
Proof.
  apply (proj2 (fgout_name_ending_in_dot "fgout0001") num num_float run
               "_output/fgout0001." None None).
  reflexivity.
Defined.
End SampleRunFurther.
